(** * ilfree: Outline VPN management bot

    A shallow embedding of the parts of the bot that keep the locally
    persisted view of Outline access keys in step with the remote Outline
    server, of the new-server conversation, and of the membership tracker.

    Source files embedded here:
    - [tgbot/services/outline_server_api.py]  (module [OutlineApi])
    - [tgbot/models/outline_server.py]        (module [Models])
    - [tgbot/handlers/private/manage_outline_server.py] (module [ManageServer])
    - [tgbot/models/telegram_object.py], [tgbot/middlewares/dbmiddleware.py]
      (module [Middleware])

    Conventions.  Python integers are [Z]; Python [str] is [string];
    [None] is [option]'s [None].  A coroutine that may raise is a value of
    [outcome]; storage is threaded explicitly.  A SQL table is a finite map
    from its primary key to the remaining columns, so a row is the pair of
    its key and its columns. *)

From stdpp Require Import gmap strings list fin_maps sorting pretty.
From Stdlib Require Import ZArith.

Open Scope Z_scope.

(* ===================================================================== *)
(** * Python outcomes *)
(* ===================================================================== *)

Module Py.

(** The exception classes that the embedded code can meet. All of them
    derive from [Exception], so an [except Exception] clause catches
    every one. *)
Inductive exn :=
  | ClientError                 (* aiohttp.ClientError: the request did not complete *)
  | JSONDecodeError             (* the body is not JSON *)
  | PlainException (msg : string)   (* raise Exception(msg) *)
  | AttributeError              (* attribute access on None *)
  | ValueError
  | KeyError (key : string)
  | IntegrityError              (* the database refused a statement *)
  | OverflowError.              (* an integer too large for an INTEGER column *)

Inductive outcome (A : Type) :=
  | Returns (a : A)
  | Raises (e : exn).
Arguments Returns {A} a.
Arguments Raises {A} e.

#[export] Instance outcome_ret : MRet outcome := λ A a, Returns a.
#[export] Instance outcome_bind : MBind outcome := λ A B f m,
  match m with
  | Returns a => f a
  | Raises e => Raises e
  end.
#[export] Instance outcome_fmap : FMap outcome := λ A B f m,
  match m with
  | Returns a => Returns (f a)
  | Raises e => Raises e
  end.

Definition raised {A} (m : outcome A) : bool :=
  match m with Returns _ => false | Raises _ => true end.

#[export] Instance exn_eq_dec : EqDecision exn.
Proof. solve_decision. Defined.

#[export] Instance outcome_eq_dec `{EqDecision A} : EqDecision (outcome A).
Proof. solve_decision. Defined.

(** Python sets of hashable values, as the embedded code uses them: a
    list without repetitions.  CPython iterates a set in hash order; here
    the order of first occurrence stands for it. *)
Definition py_set `{EqDecision A} (l : list A) : list A := remove_dups l.
Definition py_set_sub `{EqDecision A} (s t : list A) : list A := list_difference s t.

End Py.
Import Py.

(* ===================================================================== *)
(** * tgbot/services/outline_server_api.py *)
(* ===================================================================== *)

Module OutlineApi.

(** ** The HTTP boundary *)

Inductive http_method := GET | POST | PUT | DELETE.

(** The [json=] argument of a request. *)
Inductive json_arg :=
  | NoJson
  | NameJson (new_name : string)          (* {"name": new_name} *)
  | LimitJson (limit_bytes : Z).          (* {"limit": {"bytes": limit_bytes}} *)

Record request := Request {
  rq_method : http_method;
  rq_url : string;
  rq_json : json_arg
}.

#[export] Instance http_method_eq_dec : EqDecision http_method.
Proof. solve_decision. Defined.
#[export] Instance json_arg_eq_dec : EqDecision json_arg.
Proof. solve_decision. Defined.
#[export] Instance request_eq_dec : EqDecision request.
Proof. solve_decision. Defined.

(** One element of ["accessKeys"].  The JSON ["id"] is a decimal string;
    [rk_id] is the integer [int(key.get("id"))] yields, [None] when
    [int] raises.  The table of transferred bytes is keyed by the same
    ids. *)
Record raw_key := RawKey {
  rk_id : option Z;
  rk_name : string;
  rk_password : string;
  rk_port : Z;
  rk_method : string;
  rk_accessUrl : string
}.

(** What [response.json()] can yield, as far as the client looks at it:
    a falsy value (null, an empty object, ...), or a non-empty object
    with the two members the client reads, each of which may be missing. *)
Inductive json_doc :=
  | JFalsy
  | JObject (accessKeys : option (list raw_key))
            (bytesTransferredByUserId : option (gmap Z Z)).

Inductive body :=
  | BodyClientError             (* json() raises aiohttp.ClientError *)
  | BodyDecodeError             (* json() raises json.JSONDecodeError *)
  | Body (doc : json_doc).

Inductive response :=
  | ConnectionError             (* the request raises aiohttp.ClientError *)
  | Response (status : Z) (payload : body).

(** The remote side: every request gets a response. The same transport
    used twice models a remote server that did not change in between. *)
Definition transport := request → response.

Definition status_is (code : Z) (r : response) : bool :=
  match r with
  | ConnectionError => false
  | Response status _ => bool_decide (status = code)
  end.

(** ** OutlineKey *)

Record OutlineKey := mkOutlineKey {
  key_id : Z;
  name : string;
  password : string;
  port : Z;
  method : string;
  access_url : string;
  used_bytes : Z
}.

#[export] Instance OutlineKey_eq_dec : EqDecision OutlineKey.
Proof. solve_decision. Defined.

(** ** OutlineVPN *)

Record OutlineVPN := mkOutlineVPN {
  session : transport;
  api_url : string;
  keys_url : string;
  metrics_url : string
}.

(** [__init__] and the [api_url] setter. *)
Definition new_OutlineVPN (api_url : string) (session : transport) : OutlineVPN :=
  {| session := session;
     api_url := api_url;
     keys_url := api_url +:+ "/access-keys/";
     metrics_url := api_url +:+ "/metrics/transfer" |}.

Definition doc_truthy (d : option json_doc) : bool :=
  match d with
  | Some (JObject _ _) => true
  | _ => false
  end.

Definition has_accessKeys (d : option json_doc) : bool :=
  match d with
  | Some (JObject (Some _) _) => true
  | _ => false
  end.

(** The common shape of the two GETs: the body is read only on status
    200, and a [ClientError] while reading it is logged and leaves the
    variable [None]. *)
Definition get_json (vpn : OutlineVPN) (url : string) : outcome (option json_doc) :=
  match session vpn (Request GET url NoJson) with
  | ConnectionError => Raises ClientError
  | Response status payload =>
      if bool_decide (status = 200) then
        match payload with
        | Body doc => Returns (Some doc)
        | BodyClientError => Returns None
        | BodyDecodeError => Raises JSONDecodeError
        end
      else Returns None
  end.

Definition get_transferred_data (vpn : OutlineVPN) : outcome json_doc :=
  metrics ← get_json vpn (metrics_url vpn);
  match metrics with
  | Some (JObject ks bs) => Returns (JObject ks bs)
  | _ => Raises (PlainException "Unable to retrieve keys")
  end.

(** One turn of the loop of [get_keys]: the keyword arguments are
    evaluated left to right, so [int(...)] fails before the metrics
    table is consulted. *)
Definition outline_key_of (metrics : json_doc) (key : raw_key) : outcome OutlineKey :=
  match rk_id key with
  | None => Raises ValueError
  | Some id =>
      match metrics with
      | JObject _ (Some table) =>
          Returns {| key_id := id;
                     name := rk_name key;
                     password := rk_password key;
                     port := rk_port key;
                     method := rk_method key;
                     access_url := rk_accessUrl key;
                     used_bytes := default 0 (table !! id) |}
      | _ => Raises AttributeError
      end
  end.

Fixpoint collect_keys (metrics : json_doc) (keys : list raw_key) : outcome (list OutlineKey) :=
  match keys with
  | [] => Returns []
  | key :: rest =>
      k ← outline_key_of metrics key;
      ks ← collect_keys metrics rest;
      Returns (k :: ks)
  end.

Definition get_keys (vpn : OutlineVPN) : outcome (list OutlineKey) :=
  server_keys ← get_json vpn (keys_url vpn);
  metrics ← (if doc_truthy server_keys && has_accessKeys server_keys
             then Some <$> get_transferred_data vpn
             else Returns None);
  match server_keys, metrics with
  | Some (JObject (Some access_keys) _), Some m => collect_keys m access_keys
  | _, _ => Raises (PlainException "Unable to retrieve keys")
  end.

(** A request that only reports whether the status is 204. *)
Definition expect_204 (vpn : OutlineVPN) (rq : request) : outcome bool :=
  match session vpn rq with
  | ConnectionError => Raises ClientError
  | Response status _ => Returns (bool_decide (status = 204))
  end.

Definition delete_key_request (vpn : OutlineVPN) (key_id : Z) : request :=
  Request DELETE (keys_url vpn +:+ "/" +:+ pretty key_id) NoJson.

Definition delete_key (vpn : OutlineVPN) (key_id : Z) : outcome bool :=
  expect_204 vpn (delete_key_request vpn key_id).

Definition rename_key_request (vpn : OutlineVPN) (key_id : Z) (new_name : string) : request :=
  Request PUT (keys_url vpn +:+ "/" +:+ pretty key_id +:+ "/name") (NameJson new_name).

Definition rename_key (vpn : OutlineVPN) (key_id : Z) (new_name : string) : outcome bool :=
  expect_204 vpn (rename_key_request vpn key_id new_name).

(** The f-string of [add_data_limit] has no braces around
    [self.__keys_url]: those characters are part of the URL.  The text
    has no scheme; an aiohttp session refuses it with [InvalidURL], a
    [ClientError], before anything is sent, which is the transport
    answer [ConnectionError]. *)
Definition add_data_limit_request (vpn : OutlineVPN) (key_id : Z) (limit_bytes : Z) : request :=
  Request PUT ("self.__keys_url/" +:+ pretty key_id +:+ "/data-limit") (LimitJson limit_bytes).

Definition add_data_limit (vpn : OutlineVPN) (key_id : Z) (limit_bytes : Z) : outcome bool :=
  expect_204 vpn (add_data_limit_request vpn key_id limit_bytes).

Definition delete_data_limit_request (vpn : OutlineVPN) (key_id : Z) : request :=
  Request DELETE ("self.__keys_url/" +:+ pretty key_id +:+ "/data-limit") NoJson.

Definition delete_data_limit (vpn : OutlineVPN) (key_id : Z) : outcome bool :=
  expect_204 vpn (delete_data_limit_request vpn key_id).

End OutlineApi.
Import OutlineApi.

(* ===================================================================== *)
(** * tgbot/models/outline_server.py *)
(* ===================================================================== *)

Module Models.

(** ** Tables

    [IPAddressType] binds an address as its integer, so the primary key
    of [outline_server] is a [Z]. *)

(** Columns of [outline_server] next to the primary key [ip]. *)
Record OutlineServer := mkOutlineServer {
  url : string;
  server_name : string;         (* column [name] *)
  is_active : bool
}.

(** Columns of [server_key] next to the primary key
    [(server_ip, key_id)]. *)
Record ServerKey := mkServerKey {
  sk_name : string;
  sk_password : string;
  sk_port : Z;
  sk_method : string;
  sk_access_url : string;
  sk_used_bytes : Z
}.

#[export] Instance OutlineServer_eq_dec : EqDecision OutlineServer.
Proof. solve_decision. Defined.
#[export] Instance ServerKey_eq_dec : EqDecision ServerKey.
Proof. solve_decision. Defined.

(** The table [user_key] is declared by the source but nothing reads or
    writes it; it stays empty and is left out. *)
Record Store := mkStore {
  outline_server : gmap Z OutlineServer;
  server_key : gmap (Z * Z) ServerKey
}.

Abbreviation server_row := (Z * OutlineServer)%type.
Abbreviation key_row := (Z * Z * ServerKey)%type.

(** An INTEGER column of SQLite takes a Python integer only in the range
    of a signed 64-bit word; binding any other integer raises
    [OverflowError] before the statement reaches the database.
    Addresses leave that range in ordinary use (every IPv6 address above
    2^63 - 1), so the refusal is part of [server_create] and
    [server_update] below.  The integers of a key come from the remote
    server; the statements on [server_key] are modelled for integers in
    the range, and [storable] names that range where a property depends
    on it. *)
Definition sqlite_integer (z : Z) : Prop := -2 ^ 63 ≤ z < 2 ^ 63.

#[export] Instance sqlite_integer_dec z : Decision (sqlite_integer z).
Proof. unfold sqlite_integer. apply _. Defined.

Definition storable (key : OutlineKey) : Prop :=
  sqlite_integer (key_id key) ∧ sqlite_integer (port key) ∧ sqlite_integer (used_bytes key).

Definition row_server_ip (r : key_row) : Z := r.1.1.
Definition row_key_id (r : key_row) : Z := r.1.2.

Definition with_server_key (db : Store) (t : gmap (Z * Z) ServerKey) : Store :=
  {| outline_server := outline_server db; server_key := t |}.

(** ** Statements on [server_key], run inside one session *)

Inductive statement :=
  | InsertKeys (values : list key_row)
  | DeleteKey (server_ip key_id : Z)
  | UpdateKey (server_ip key_id : Z) (values : ServerKey).

(** A row is refused when its primary key is taken or when its
    [server_ip] has no row in [outline_server] (the foreign key).  The
    integers of the row are taken to be [storable]. *)
Definition insert_row (r : key_row) (db : Store) : outcome Store :=
  if bool_decide (is_Some (server_key db !! r.1)) then Raises IntegrityError
  else if bool_decide (outline_server db !! row_server_ip r = None) then Raises IntegrityError
  else Returns (with_server_key db (<[r.1 := r.2]> (server_key db))).

Fixpoint insert_rows (rows : list key_row) (db : Store) : outcome Store :=
  match rows with
  | [] => Returns db
  | r :: rest => db1 ← insert_row r db; insert_rows rest db1
  end.

Definition execute (s : statement) (db : Store) : outcome Store :=
  match s with
  | InsertKeys values => insert_rows values db
  | DeleteKey ip id => Returns (with_server_key db (delete (ip, id) (server_key db)))
  | UpdateKey ip id values =>
      Returns (with_server_key db (alter (λ _, values) (ip, id) (server_key db)))
  end.

(** The statements of a session in order; the first one refused ends the
    session.  The first component lists the statements that were sent.
    Key ids and column values are taken to be within the INTEGER
    range. *)
Fixpoint run_statements (stmts : list statement) (db : Store) : list statement * outcome Store :=
  match stmts with
  | [] => ([], Returns db)
  | s :: rest =>
      match execute s db with
      | Raises e => ([s], Raises e)
      | Returns db1 =>
          let '(sent, r) := run_statements rest db1 in (s :: sent, r)
      end
  end.

(** ** server_read

    [IPAddressType.process_result_value] turns the stored integer 0 into
    [None], and the ORM takes a row whose primary key is [None] for no
    object: the row of 0.0.0.0 can be stored, but it is read back as
    [None]. *)

Definition loaded {A : Type} (ip : Z) (row : A) : option A :=
  if bool_decide (ip = 0) then None else Some row.

Definition server_read (db : Store) (ip : option Z) : option OutlineServer :=
  match ip with
  | None => None
  | Some ip => row ← outline_server db !! ip; loaded ip row
  end.

(** ** servers_list

    The filter is built in Python before the query exists:
    [OutlineServer.is_active is True] compares the identity of the
    column attribute with the singleton [True]. *)

Inductive py_object :=
  | PyTrue
  | PyFalse
  | InstrumentedAttribute (table column : string).

#[export] Instance py_object_eq_dec : EqDecision py_object.
Proof. solve_decision. Defined.

Definition py_is (a b : py_object) : bool := bool_decide (a = b).

Definition OutlineServer_is_active : py_object :=
  InstrumentedAttribute "outline_server" "is_active".

(** [select(OutlineServer)] with the criteria added by [where]: a Python
    boolean given to [where] is the constant SQL condition.  Each row
    selected becomes one element of the result: the server, or [None]
    for the row of 0.0.0.0. *)
Definition select_outline_server (criteria : list bool) (db : Store)
    : list (option server_row) :=
  (λ r : server_row, loaded r.1 r)
    <$> filter (λ _ : server_row, Forall Is_true criteria) (map_to_list (outline_server db)).

Definition servers_list (db : Store) (mode : option string) : list (option server_row) :=
  let mode := match mode with
              | None => "all"
              | Some m => if bool_decide (m = EmptyString) then "all" else m
              end in
  let statement := [] in
  let statement :=
    if bool_decide (mode = "active")
    then statement ++ [py_is OutlineServer_is_active PyTrue]
    else if bool_decide (mode = "inactive")
    then statement ++ [py_is OutlineServer_is_active PyFalse]
    else statement in
  select_outline_server statement db.

(** ** server_key_list *)

Definition by_name (r1 r2 : key_row) : Prop :=
  String.leb (sk_name r1.2) (sk_name r2.2) = true.

#[export] Instance by_name_dec r1 r2 : Decision (by_name r1 r2).
Proof. unfold by_name. apply _. Defined.

Definition server_key_list (db : Store) (server_ip : option Z) : list key_row :=
  match server_ip with
  | None => []
  | Some ip =>
      merge_sort by_name
        (filter (λ r : key_row, row_server_ip r = ip) (map_to_list (server_key db)))
  end.

(** ** server_key_delete

    An argument that is [None] stands for a keyword that was not given:
    [kwargs.get] yields [None] and [kwargs[...]] raises [KeyError]. *)

Definition truthy_int (z : option Z) : bool :=
  match z with
  | Some z => negb (bool_decide (z = 0))
  | None => false
  end.

Definition server_key_delete (http : transport) (db : Store)
    (server_ip key_id : option Z) : outcome bool * Store :=
  if negb (bool_decide (is_Some server_ip)) && negb (truthy_int key_id)
  then (Returns false, db)
  else
    match server_ip with
    | None => (Raises (KeyError "server_ip"), db)
    | Some ip =>
        match server_read db (Some ip) with
        | None => (Returns false, db)
        | Some server =>
            let vpn := new_OutlineVPN (url server) http in
            match key_id with
            | None => (Raises (KeyError "key_id"), db)
            | Some id =>
                match delete_key vpn id with
                | Raises e => (Raises e, db)
                | Returns false => (Returns false, db)
                | Returns true =>
                    let rowcount := bool_decide (is_Some (server_key db !! (ip, id))) in
                    (Returns rowcount,
                     with_server_key db (delete (ip, id) (server_key db)))
                end
            end
        end
    end.

(** ** server_key_sync *)

Definition to_outline_key (r : key_row) : OutlineKey :=
  {| key_id := row_key_id r;
     name := sk_name r.2;
     password := sk_password r.2;
     port := sk_port r.2;
     method := sk_method r.2;
     access_url := sk_access_url r.2;
     used_bytes := sk_used_bytes r.2 |}.

(** The values that both the insert and the update of [server_key_sync]
    take from a remote key. *)
Definition key_values (key : OutlineKey) : ServerKey :=
  {| sk_name := name key;
     sk_password := password key;
     sk_port := port key;
     sk_method := method key;
     sk_access_url := access_url key;
     sk_used_bytes := used_bytes key |}.

Definition keys_to_insert (vpn_keys db_keys : list OutlineKey) : list OutlineKey :=
  let db_key_id_list := key_id <$> db_keys in
  py_set (filter (λ k, key_id k ∉ db_key_id_list) vpn_keys).

Definition insert_values (server_ip : Z) (vpn_keys db_keys : list OutlineKey) : list key_row :=
  (λ key, (server_ip, key_id key, key_values key)) <$> keys_to_insert vpn_keys db_keys.

Definition keys_to_delete (vpn_keys db_keys : list OutlineKey) : list OutlineKey :=
  let vpn_key_id_list := key_id <$> vpn_keys in
  py_set (filter (λ k, key_id k ∉ vpn_key_id_list) db_keys).

Definition keys_to_update (vpn_keys db_keys : list OutlineKey) : list OutlineKey :=
  py_set_sub (py_set_sub (py_set vpn_keys) (py_set (keys_to_delete vpn_keys db_keys)))
             (py_set db_keys).

Definition sync_statements (server_ip : Z) (vpn_keys db_keys : list OutlineKey) : list statement :=
  let values := insert_values server_ip vpn_keys db_keys in
  (if bool_decide (values = []) then [] else [InsertKeys values])
  ++ ((λ key, DeleteKey server_ip (key_id key)) <$> keys_to_delete vpn_keys db_keys)
  ++ ((λ key, UpdateKey server_ip (key_id key) (key_values key))
        <$> keys_to_update vpn_keys db_keys).

(** What the function hands back: [False], or a list of rows. *)
Inductive sync_result :=
  | SyncFalse
  | SyncKeys (rows : list key_row).


Record sync_run := mkSyncRun {
  returned : sync_result;
  stored : Store;
  issued : list statement
}.

(** The persisted keys of a server as [OutlineKey] values. *)
Definition db_keys (db : Store) (server_ip : Z) : list OutlineKey :=
  let key_list := server_key_list db (Some server_ip) in
  to_outline_key <$> key_list.

(** The body of the [try]: fetch, diff, and one session. *)
Definition sync_try (http : transport) (db : Store) (server_ip : Z)
    (server : OutlineServer) : list statement * outcome Store :=
  let vpn := new_OutlineVPN (url server) http in
  match get_keys vpn with
  | Raises e => ([], Raises e)
  | Returns vpn_keys =>
      run_statements (sync_statements server_ip vpn_keys (db_keys db server_ip)) db
  end.

(** The session commits only when every statement went through; any
    exception is logged, and [finally] returns the list read afterwards. *)
Definition server_key_sync (http : transport) (db : Store)
    (server_ip : option Z) : sync_run :=
  match server_ip with
  | None => {| returned := SyncFalse; stored := db; issued := [] |}
  | Some ip =>
      match server_read db (Some ip) with
      | None => {| returned := SyncFalse; stored := db; issued := [] |}
      | Some server =>
          let '(sent, r) := sync_try http db ip server in
          let db' := match r with Returns db1 => db1 | Raises _ => db end in
          {| returned := SyncKeys (server_key_list db' server_ip);
             stored := db';
             issued := sent |}
      end
  end.

(** ** Notions used to state the properties *)

(** The effect of each batch of statements on the table. *)
Definition insert_all (rows : list key_row) (t : gmap (Z * Z) ServerKey) :=
  foldl (λ t (r : key_row), <[r.1 := r.2]> t) t rows.

Definition delete_all (ip : Z) (ks : list OutlineKey) (t : gmap (Z * Z) ServerKey) :=
  foldl (λ t k, delete (ip, key_id k) t) t ks.

Definition update_all (ip : Z) (ks : list OutlineKey) (t : gmap (Z * Z) ServerKey) :=
  foldl (λ t k, alter (λ _, key_values k) (ip, key_id k) t) t ks.

(** The table a reconciliation of [vpn_keys] leaves behind. *)
Definition sync_table (db : Store) (ip : Z) (vpn_keys : list OutlineKey)
    : gmap (Z * Z) ServerKey :=
  let dbk := db_keys db ip in
  update_all ip (keys_to_update vpn_keys dbk)
    (delete_all ip (keys_to_delete vpn_keys dbk)
       (insert_all (insert_values ip vpn_keys dbk) (server_key db))).

(** Two sets of keys share no key id. *)
Definition disjoint_by_id (s t : list OutlineKey) : Prop :=
  ∀ a b, a ∈ s → b ∈ t → key_id a ≠ key_id b.

(** The statement writes the row [(ip, id)]. *)
Definition writes_key (ip id : Z) (s : statement) : Prop :=
  match s with
  | InsertKeys values => (ip, id) ∈ values.*1
  | DeleteKey ip' id' => (ip', id') = (ip, id)
  | UpdateKey ip' id' _ => (ip', id') = (ip, id)
  end.

End Models.
Import Models.

(* ===================================================================== *)
(** * tgbot/handlers/private/manage_outline_server.py *)
(* ===================================================================== *)

Module ManageServer.

(** The states of the [ManageServer] group; no state at all is the idle
    conversation. *)
Inductive State :=
  | enter_name | update_name
  | enter_ip | update_ip
  | enter_url | update_url
  | enter_key_name | update_key_name.

#[export] Instance State_eq_dec : EqDecision State.
Proof. solve_decision. Defined.

(** What the FSM storage keeps for one (chat, user) scope. *)
Record FSMContext := mkFSMContext {
  current_state : option State;
  data : gmap string string
}.

(** [state.finish()] drops the state and the data. *)
Definition finish (ctx : FSMContext) : FSMContext :=
  {| current_state := None; data := ∅ |}.

Definition set_state (s : State) (ctx : FSMContext) : FSMContext :=
  {| current_state := Some s; data := data ctx |}.

Definition set_data (d : gmap string string) (ctx : FSMContext) : FSMContext :=
  {| current_state := current_state ctx; data := d |}.

(** One handler run: how it ended, the scope's context afterwards, and
    the texts it answered with. *)
Record turn := mkTurn {
  ended : outcome unit;
  context : FSMContext;
  answers : list string
}.

Definition nl : string := String (Ascii.ascii_of_nat 10) EmptyString.

Section Handlers.

(** [ipaddress.ip_address] of the Python library: [None] when it
    raises [ValueError]; [ip_str] is [str] on its results.  [strip] is
    [str.strip]. *)
Context {IPAddress : Type}.
Variable ip_address : string → option IPAddress.
Variable ip_str : IPAddress → string.
Variable strip : string → string.

Definition new_server (ctx : FSMContext) : turn :=
  let ctx := finish ctx in
  {| ended := Returns ();
     context := set_state enter_name ctx;
     answers := ["Please enter server name."] |}.

Definition enter_server_name (text : string) (ctx : FSMContext) : turn :=
  let ctx := set_data (<["server_name" := strip text]> (data ctx)) ctx in
  {| ended := Returns ();
     context := set_state enter_ip ctx;
     answers := ["Well, server name: <b>" +:+ strip text +:+ ".</b>" +:+ nl
                 +:+ "Please enter server IP address."] |}.

(** The proxy of [state.proxy()] writes the data back only when its
    block ends without an exception; a [KeyError] from
    [data['server_name']] is not caught by the handler. *)
Definition enter_server_ip (text : string) (ctx : FSMContext) : turn :=
  match ip_address text with
  | None =>
      {| ended := Returns ();
         context := set_state enter_ip ctx;
         answers := ["Wrong IP address. " +:+ nl
                     +:+ "Please enter correct server IP address."] |}
  | Some server_ip =>
      match data ctx !! "server_name" with
      | None => {| ended := Raises (KeyError "server_name"); context := ctx; answers := [] |}
      | Some server_name =>
          let ctx := set_data (<["server_ip" := ip_str server_ip]> (data ctx)) ctx in
          {| ended := Returns ();
             context := set_state enter_url ctx;
             answers := ["Well, server name: <b>" +:+ server_name +:+ ".</b>" +:+ nl
                         +:+ "IP address: <b>" +:+ ip_str server_ip +:+ "</b>" +:+ nl
                         +:+ "Please enter server manage url."] |}
      end
  end.

End Handlers.

(** ** Dotted-quad literals

    The IPv4 literals [ipaddress.ip_address] accepts: four decimal
    octets, one to three digits each, at most 255, no leading zero. The
    conversation examples below run the handlers with this reader. *)

Definition digit_value (c : Ascii.ascii) : option Z :=
  let n := Z.of_N (Ascii.N_of_ascii c) in
  if bool_decide (48 ≤ n ≤ 57) then Some (n - 48) else None.

Definition dot : Ascii.ascii := Ascii.ascii_of_nat 46.

Fixpoint split_dots (cs : list Ascii.ascii) (cur : list Ascii.ascii) : list (list Ascii.ascii) :=
  match cs with
  | [] => [reverse cur]
  | c :: rest =>
      if bool_decide (c = dot) then reverse cur :: split_dots rest []
      else split_dots rest (c :: cur)
  end.

Definition octet (cs : list Ascii.ascii) : option Z :=
  digits ← mapM digit_value cs;
  let value := foldl (λ acc d, 10 * acc + d) 0 digits in
  if bool_decide (digits = []) then None
  else if bool_decide (3 < length digits)%nat then None
  else if bool_decide (1 < length digits)%nat && bool_decide (head digits = Some 0) then None
  else if bool_decide (255 < value) then None
  else Some value.

Definition ipv4_address (text : string) : option (list Z) :=
  let parts := split_dots (String.list_ascii_of_string text) [] in
  if bool_decide (length parts = 4%nat) then mapM octet parts else None.

Definition ipv4_str (a : list Z) : string :=
  match a with
  | [] => EmptyString
  | o :: os => foldl (λ acc o, acc +:+ "." +:+ pretty o) (pretty o) os
  end.

(** [strip] for texts without blanks at either end. *)
Definition no_strip (s : string) : string := s.

End ManageServer.

(* ===================================================================== *)
(** * tgbot/models/telegram_object.py and tgbot/middlewares/dbmiddleware.py *)
(* ===================================================================== *)

Module Middleware.

(** ** Tables *)

Record User := mkUser {
  is_bot : bool;
  first_name : string;
  last_name : option string;
  username : option string;
  mention : string;
  lang_code : option string;
  role : string
}.

Record Chat := mkChat {
  type : string;
  title : option string;
  chat_username : option string       (* column [username] *)
}.

(** [chat_member] has the key [(chat_id, user_id)] and the column
    [status]. *)
Record Store := mkStore {
  user : gmap Z User;
  chat : gmap Z Chat;
  chat_member : gmap (Z * Z) string
}.

(** ** Storage calls

    Every call opens its own session and commits, so what one call wrote
    stays when a later call raises. *)
Definition io (A : Type) : Type := Store → outcome A * Store.

#[export] Instance io_ret : MRet io := λ A a db, (Returns a, db).
#[export] Instance io_bind : MBind io := λ A B f m db,
  match m db with
  | (Returns a, db1) => f a db1
  | (Raises e, db1) => (Raises e, db1)
  end.

Definition raise {A} (e : exn) : io A := λ db, (Raises e, db).
Definition get_store : io Store := λ db, (Returns db, db).
Definition put_store (db1 : Store) : io unit := λ _, (Returns (), db1).

Definition nonzero (z : Z) : bool := negb (bool_decide (z = 0)).
Definition nonempty (s : string) : bool := negb (bool_decide (s = EmptyString)).

Definition user_read (id : Z) : io (option User) :=
  if negb (nonzero id) then mret None
  else db ← get_store; mret (user db !! id).

Definition user_create (id : Z) (values : User) : io (option User) :=
  if negb (nonzero id) || negb (nonempty (first_name values)) then mret None
  else
    db ← get_store;
    if bool_decide (is_Some (user db !! id)) then raise IntegrityError
    else
      put_store {| user := <[id := values]> (user db);
                   chat := chat db; chat_member := chat_member db |};;
      user_read id.

(** [user_update] of the middleware gives every column but [role]. *)
Definition user_update (id : Z) (values : User) : io (option User) :=
  if negb (nonzero id) then mret None
  else
    db ← get_store;
    put_store {| user := alter (λ old,
                           {| is_bot := is_bot values;
                              first_name := first_name values;
                              last_name := last_name values;
                              username := username values;
                              mention := mention values;
                              lang_code := lang_code values;
                              role := role old |}) id (user db);
                 chat := chat db; chat_member := chat_member db |};;
    user_read id.

Definition chat_read (id : Z) : io (option Chat) :=
  if negb (nonzero id) then mret None
  else db ← get_store; mret (chat db !! id).

Definition chat_create (id : Z) (values : Chat) : io (option Chat) :=
  if negb (nonzero id) || negb (nonempty (type values)) then mret None
  else
    db ← get_store;
    if bool_decide (is_Some (chat db !! id)) then raise IntegrityError
    else
      put_store {| user := user db;
                   chat := <[id := values]> (chat db);
                   chat_member := chat_member db |};;
      chat_read id.

Definition chat_update (id : Z) (values : Chat) : io (option Chat) :=
  if negb (nonzero id) then mret None
  else
    db ← get_store;
    put_store {| user := user db;
                 chat := alter (λ _, values) id (chat db);
                 chat_member := chat_member db |};;
    chat_read id.

Definition chat_member_read (chat_id user_id : Z) : io (option string) :=
  if negb (nonzero chat_id && nonzero user_id) then mret None
  else db ← get_store; mret (chat_member db !! (chat_id, user_id)).

(** The two foreign keys of [chat_member] point at [chat] and [user]. *)
Definition chat_member_create (chat_id user_id : Z) (status : string) : io (option string) :=
  if negb (nonzero chat_id && nonzero user_id) || negb (nonempty status) then mret None
  else
    db ← get_store;
    if bool_decide (is_Some (chat_member db !! (chat_id, user_id))) then raise IntegrityError
    else if bool_decide (chat db !! chat_id = None ∨ user db !! user_id = None)
    then raise IntegrityError
    else
      put_store {| user := user db; chat := chat db;
                   chat_member := <[(chat_id, user_id) := status]> (chat_member db) |};;
      chat_member_read chat_id user_id.

Definition chat_member_update (chat_id user_id : Z) (status : string) : io (option string) :=
  if negb (nonzero chat_id && nonzero user_id) then mret None
  else
    db ← get_store;
    put_store {| user := user db; chat := chat db;
                 chat_member := alter (λ _, status) (chat_id, user_id) (chat_member db) |};;
    chat_member_read chat_id user_id.

Definition chat_member_delete (chat_id user_id : Z) : io bool :=
  if negb (nonzero chat_id && nonzero user_id) then mret false
  else
    db ← get_store;
    put_store {| user := user db; chat := chat db;
                 chat_member := delete (chat_id, user_id) (chat_member db) |};;
    mret (bool_decide (is_Some (chat_member db !! (chat_id, user_id)))).

(** ** The incoming message *)

Record TgUser := mkTgUser {
  tg_id : Z;
  tg_is_bot : bool;
  tg_first_name : string;
  tg_last_name : option string;
  tg_username : option string;
  tg_mention : string;
  tg_language_code : option string
}.

Record TgChat := mkTgChat {
  tg_chat_id : Z;
  tg_chat_type : string;
  tg_chat_title : option string;
  tg_chat_username : option string
}.

(** [get_member] is the chat transport: the status of a user in the
    message's chat, or [None] when the call raises. *)
Record Message := mkMessage {
  from_user : TgUser;
  msg_chat : TgChat;
  bot_id : Z;
  get_member : Z → option string
}.

Inductive Update :=
  | IsMessage (m : Message)
  | OtherUpdate.

(** What the handler finds in [data] afterwards. *)
Record Data := mkData {
  data_user : option User;
  data_chat : option Chat;
  data_chat_member : option string
}.

Definition profile (u : TgUser) (role : string) : User :=
  {| is_bot := tg_is_bot u;
     first_name := tg_first_name u;
     last_name := tg_last_name u;
     username := tg_username u;
     mention := tg_mention u;
     lang_code := tg_language_code u;
     role := role |}.

Definition chat_values (c : TgChat) : Chat :=
  {| type := tg_chat_type c; title := tg_chat_title c; chat_username := tg_chat_username c |}.

(** The [if / elif / else] that the middleware runs once for the sender
    and once for the bot.  The [else] branch reads [.status] of the
    remote member, which is [None] when the transport call raised. *)
Definition track_sender (chat_id user_id : Z) (telegram_chat_member : option string)
    : io (option string) :=
  db_chat_member ← chat_member_read chat_id user_id;
  if negb (bool_decide (is_Some db_chat_member)) && bool_decide (is_Some telegram_chat_member)
  then
    match telegram_chat_member with
    | Some status => chat_member_create chat_id user_id status
    | None => raise AttributeError
    end
  else if bool_decide (is_Some db_chat_member) && negb (bool_decide (is_Some telegram_chat_member))
  then
    chat_member_delete chat_id user_id;;
    chat_member_read chat_id user_id
  else
    match telegram_chat_member with
    | Some status => chat_member_update chat_id user_id status
    | None => raise AttributeError
    end.

Definition track_bot (chat_id bot_id : Z) (bot_chat_member : option string)
    : io (option string) :=
  db_bot_chat_member ← chat_member_read chat_id bot_id;
  if negb (bool_decide (is_Some db_bot_chat_member)) && bool_decide (is_Some bot_chat_member)
  then
    match bot_chat_member with
    | Some status => chat_member_create chat_id bot_id status
    | None => raise AttributeError
    end
  else if bool_decide (is_Some db_bot_chat_member) && negb (bool_decide (is_Some bot_chat_member))
  then
    chat_member_delete chat_id bot_id;;
    mret db_bot_chat_member
  else
    match bot_chat_member with
    | Some status => chat_member_update chat_id bot_id status
    | None => raise AttributeError
    end.

Definition pre_process (obj : Update) : io (option Data) :=
  match obj with
  | OtherUpdate => mret None
  | IsMessage m =>
      let telegram_user := from_user m in
      let telegram_chat := msg_chat m in
      db_user ← user_read (tg_id telegram_user);
      db_user ← (if negb (bool_decide (is_Some db_user))
                 then user_create (tg_id telegram_user) (profile telegram_user "user")
                 else user_update (tg_id telegram_user) (profile telegram_user "user"));
      if bool_decide (tg_chat_type telegram_chat ≠ "private") then
        let telegram_chat_member := get_member m (tg_id telegram_user) in
        let bot_chat_member := get_member m (bot_id m) in
        db_chat ← chat_read (tg_chat_id telegram_chat);
        db_chat ← (if negb (bool_decide (is_Some db_chat))
                   then chat_create (tg_chat_id telegram_chat) (chat_values telegram_chat)
                   else chat_update (tg_chat_id telegram_chat) (chat_values telegram_chat));
        db_chat_member ← track_sender (tg_chat_id telegram_chat) (tg_id telegram_user)
                           telegram_chat_member;
        _ ← track_bot (tg_chat_id telegram_chat) (bot_id m) bot_chat_member;
        mret (Some {| data_user := db_user; data_chat := db_chat;
                      data_chat_member := db_chat_member |})
      else
        mret (Some {| data_user := db_user; data_chat := None; data_chat_member := None |})
  end.

End Middleware.

(* ===================================================================== *)
(** * Sample data *)
(* ===================================================================== *)

Module Examples.

(** The server of the end-to-end scenario: address 203.0.113.9. *)
Definition edge1_ip : Z := 3405803785.
Definition edge1 : OutlineServer :=
  {| url := "https://mgmt.example/abc"; server_name := "Edge-1"; is_active := true |}.

Definition alice : OutlineKey :=
  mkOutlineKey 1 "alice" "pw1" 443 "chacha20-ietf-poly1305" "ss://a@203.0.113.9:443" 10.
Definition alice_old : OutlineKey :=
  mkOutlineKey 1 EmptyString "pw1" 443 "chacha20-ietf-poly1305" "ss://a@203.0.113.9:443" 0.
Definition bob : OutlineKey :=
  mkOutlineKey 2 "bob" "pw2" 443 "chacha20-ietf-poly1305" "ss://b@203.0.113.9:443" 0.
Definition carol : OutlineKey :=
  mkOutlineKey 3 "carol" "pw3" 443 "chacha20-ietf-poly1305" "ss://c@203.0.113.9:443" 0.

(** Storage knows an outdated [alice] and a [bob] the remote side no
    longer has. *)
Definition db0 : Models.Store :=
  {| outline_server := {[ edge1_ip := edge1 ]};
     server_key := {[ (edge1_ip, 1) := key_values alice_old;
                      (edge1_ip, 2) := key_values bob ]} |}.

Definition raw (k : OutlineKey) : raw_key :=
  RawKey (Some (key_id k)) (name k) (password k) (port k) (method k) (access_url k).

Definition key_list_doc : json_doc := JObject (Some [raw alice; raw carol]) None.
Definition metrics_doc : json_doc := JObject None (Some {[ 1 := 10 ]}).

(** A remote server with the keys [alice] and [carol]. *)
Definition http_ok : transport := λ rq,
  if bool_decide (rq_url rq = "https://mgmt.example/abc/access-keys/")
  then Response 200 (Body key_list_doc)
  else if bool_decide (rq_url rq = "https://mgmt.example/abc/metrics/transfer")
  then Response 200 (Body metrics_doc)
  else Response 404 (Body JFalsy).

(** The same server when its metrics endpoint answers 500. *)
Definition http_metrics_500 : transport := λ rq,
  if bool_decide (rq_url rq = "https://mgmt.example/abc/access-keys/")
  then Response 200 (Body key_list_doc)
  else Response 500 (Body JFalsy).

(** A remote server that answers 204 to the documented data-limit
    request of key 5 and 404 to everything else. *)
Definition http_limit : transport := λ rq,
  if bool_decide (rq = Request PUT "https://mgmt.example/abc/access-keys/5/data-limit"
                               (LimitJson 1000))
  then Response 204 (Body JFalsy)
  else Response 404 (Body JFalsy).

(** A remote server that refuses every delete with 500, and one that
    accepts every delete with 204. *)
Definition http_refuses : transport := λ _, Response 500 (Body JFalsy).
Definition http_accepts : transport := λ _, Response 204 (Body JFalsy).

(** The conversation after [/newserver] and the name "MyServer". *)
Definition idle : ManageServer.FSMContext :=
  {| ManageServer.current_state := None; ManageServer.data := ∅ |}.
Definition named : ManageServer.FSMContext :=
  ManageServer.context
    (ManageServer.enter_server_name ManageServer.no_strip "MyServer"
       (ManageServer.context (ManageServer.new_server idle))).

(** A message from Ann in a group where the bot may not read the member
    list: both membership lookups raise, and storage has no membership
    rows. *)
Definition ann : Middleware.TgUser :=
  Middleware.mkTgUser 11 false "Ann" None None "Ann" None.
Definition the_bot : Middleware.User :=
  Middleware.mkUser true "ilfree" None (Some "ilfree_bot") "@ilfree_bot" None "user".
Definition team_chat : Middleware.TgChat :=
  Middleware.mkTgChat (-1001) "supergroup" (Some "Team") None.
Definition tracker_db : Middleware.Store :=
  {| Middleware.user := {[ 99 := the_bot ]};
     Middleware.chat := ∅;
     Middleware.chat_member := ∅ |}.
Definition blind_message : Middleware.Message :=
  Middleware.mkMessage ann team_chat 99 (λ _, None).

End Examples.

(* ===================================================================== *)
(** * tgbot/services/outline_server_api.py: creating a key *)
(* ===================================================================== *)

Module OutlineCreate.

(** The answer of [session.post] carries one key object, so it has a type
    of its own.  [KeyBody None] is a body whose JSON is falsy. *)
Inductive key_body :=
  | KeyBodyClientError
  | KeyBodyDecodeError
  | KeyBody (key : option raw_key).

Inductive post_response :=
  | PostConnectionError
  | PostResponse (status : Z) (payload : key_body).

(** The remote side for POST: the answer to a POST at a URL. *)
Definition post_transport := string → post_response.

Definition create_key (vpn : OutlineVPN) (post : post_transport) : outcome OutlineKey :=
  match post (keys_url vpn) with
  | PostConnectionError => Raises ClientError
  | PostResponse status payload =>
      key ← (if bool_decide (status = 201) then
               match payload with
               | KeyBody key => Returns key
               | KeyBodyClientError => Returns None
               | KeyBodyDecodeError => Raises JSONDecodeError
               end
             else Returns None);
      match key with
      | Some key =>
          match rk_id key with
          | None => Raises ValueError
          | Some id =>
              Returns {| key_id := id;
                         name := rk_name key;
                         password := rk_password key;
                         port := rk_port key;
                         method := rk_method key;
                         access_url := rk_accessUrl key;
                         used_bytes := 0 |}
          end
      | None => Raises (PlainException "Unable to create key")
      end
  end.

End OutlineCreate.
Import OutlineCreate.

(* ===================================================================== *)
(** * tgbot/models/outline_server.py: the other storage calls *)
(* ===================================================================== *)

Module Crud.

(** As before a keyword that is [None] was not given.  An address is
    bound as its integer: within the range of an INTEGER column it is
    stored as it is, outside of it the statement raises
    [OverflowError]. *)

Definition with_outline_server (db : Models.Store) (t : gmap Z OutlineServer) : Models.Store :=
  {| outline_server := t; server_key := server_key db |}.

Definition truthy_str (s : option string) : bool :=
  match s with
  | Some s => negb (bool_decide (s = EmptyString))
  | None => false
  end.

(** ** server_create

    The columns [name] and [is_active] have the server defaults
    'my server' and true.  An address that has a row is refused by the
    primary key, an address outside the INTEGER range when the statement
    is bound; storage holds no address outside the range, so at most one
    of the two applies.  The row is read back with [server_read], which
    yields [None] at 0.0.0.0. *)
Definition server_create (db : Models.Store) (ip : option Z) (url name : option string)
    (is_active : option bool) : outcome (option OutlineServer) * Models.Store :=
  if negb (bool_decide (is_Some ip)) || negb (truthy_str url) then (Returns None, db)
  else
    match ip, url with
    | Some ip, Some url =>
        if bool_decide (is_Some (outline_server db !! ip)) then (Raises IntegrityError, db)
        else if negb (bool_decide (sqlite_integer ip)) then (Raises OverflowError, db)
        else
          let row := {| Models.url := url;
                        server_name := default "my server" name;
                        Models.is_active := default true is_active |} in
          let db1 := with_outline_server db (<[ip := row]> (outline_server db)) in
          (Returns (server_read db1 (Some ip)), db1)
    | _, _ => (Returns None, db)
    end.

(** ** server_update

    Every caller gives [primary_key_ip] and one column.  The statement
    binds [primary_key_ip] and, when the address is set, the new
    address: outside the INTEGER range either raises [OverflowError].
    An address that has a row is in the range. *)
Inductive server_assignment :=
  | SetIp (ip : Z)
  | SetUrl (url : string)
  | SetName (name : string)
  | SetActive (is_active : bool).

Definition assign (a : server_assignment) (row : OutlineServer) : OutlineServer :=
  match a with
  | SetIp _ => row
  | SetUrl u => {| url := u; server_name := server_name row; is_active := is_active row |}
  | SetName n => {| url := url row; server_name := n; is_active := is_active row |}
  | SetActive b => {| url := url row; server_name := server_name row; is_active := b |}
  end.

(** [server_key.server_ip] references [outline_server.ip] with
    [onupdate="CASCADE"]: the keys of a server follow it to its new
    address. *)
Definition readdress (old new : Z) (t : gmap (Z * Z) ServerKey) : gmap (Z * Z) ServerKey :=
  list_to_map
    ((λ r : key_row, (if bool_decide (row_server_ip r = old) then (new, row_key_id r) else r.1, r.2))
       <$> map_to_list t).

Definition server_update (db : Models.Store) (primary_key_ip : option Z)
    (a : server_assignment) : outcome (option OutlineServer) * Models.Store :=
  match primary_key_ip with
  | None => (Returns None, db)
  | Some pk =>
      match a with
      | SetIp new =>
          match outline_server db !! pk with
          | None =>
              if bool_decide (sqlite_integer pk ∧ sqlite_integer new)
              then (Returns (server_read db (Some new)), db)
              else (Raises OverflowError, db)
          | Some row =>
              if bool_decide (new = pk) then (Returns (server_read db (Some new)), db)
              else if bool_decide (is_Some (outline_server db !! new))
              then (Raises IntegrityError, db)
              else if negb (bool_decide (sqlite_integer new))
              then (Raises OverflowError, db)
              else
                let db1 := {| outline_server := <[new := row]> (delete pk (outline_server db));
                              server_key := readdress pk new (server_key db) |} in
                (Returns (server_read db1 (Some new)), db1)
          end
      | _ =>
          if negb (bool_decide (sqlite_integer pk)) then (Raises OverflowError, db)
          else
            let db1 := with_outline_server db (alter (assign a) pk (outline_server db)) in
            (Returns (server_read db1 (Some pk)), db1)
      end
  end.

(** ** server_delete

    The statement is a plain [delete(OutlineServer)]; the foreign key of
    [server_key] is declared [ondelete="RESTRICT"], so a server that still
    has keys is not deleted. *)
Definition server_delete (db : Models.Store) (ip : option Z) : outcome bool * Models.Store :=
  match ip with
  | None => (Returns false, db)
  | Some ip =>
      match outline_server db !! ip with
      | None => (Returns false, db)
      | Some _ =>
          if bool_decide (server_key_list db (Some ip) = [])
          then (Returns true, with_outline_server db (delete ip (outline_server db)))
          else (Raises IntegrityError, db)
      end
  end.

(** ** server_key_read

    The key id is tested with [is None], so key 0 can be read. *)
Definition server_key_read (db : Models.Store) (server_ip key_id : option Z) : option ServerKey :=
  match server_ip, key_id with
  | Some ip, Some id => server_key db !! (ip, id)
  | _, _ => None
  end.

(** ** server_key_update

    The one caller gives the column [name]. *)
Definition rename_row (new_name : string) (row : ServerKey) : ServerKey :=
  {| sk_name := new_name;
     sk_password := sk_password row;
     sk_port := sk_port row;
     sk_method := sk_method row;
     sk_access_url := sk_access_url row;
     sk_used_bytes := sk_used_bytes row |}.

Definition server_key_update (db : Models.Store) (server_ip key_id : option Z)
    (new_name : string) : option ServerKey * Models.Store :=
  match server_ip, key_id with
  | Some ip, Some id =>
      let db1 := with_server_key db (alter (rename_row new_name) (ip, id) (server_key db)) in
      (server_key_read db1 (Some ip) (Some id), db1)
  | _, _ => (None, db)
  end.

(** ** server_key_create *)

Definition renamed (key : OutlineKey) (new_name : string) : OutlineKey :=
  {| key_id := key_id key;
     name := new_name;
     password := password key;
     port := port key;
     method := method key;
     access_url := access_url key;
     used_bytes := used_bytes key |}.

Definition server_key_create (http : transport) (post : post_transport) (db : Models.Store)
    (server_ip : option Z) (key_name : option string)
    : outcome (option ServerKey) * Models.Store :=
  match server_ip with
  | None => (Returns None, db)
  | Some ip =>
      match server_read db (Some ip) with
      | None => (Returns None, db)
      | Some server =>
          let vpn := new_OutlineVPN (url server) http in
          match create_key vpn post with
          | Raises e => (Raises e, db)
          | Returns key =>
              let named : outcome OutlineKey :=
                match key_name with
                | Some new_name =>
                    if truthy_str key_name then
                      ok ← rename_key vpn (key_id key) new_name;
                      Returns (if ok : bool then renamed key new_name else key)
                    else Returns key
                | None => Returns key
                end in
              match named with
              | Raises e => (Raises e, db)
              | Returns key =>
                  match insert_row (ip, key_id key, key_values key) db with
                  | Raises e => (Raises e, db)
                  | Returns db1 =>
                      (Returns (server_key_read db1 (Some ip) (Some (key_id key))), db1)
                  end
              end
          end
      end
  end.

(** ** Notions used to state the properties *)

(** Every key row belongs to a server: the foreign key of [server_key]. *)
Definition keys_have_servers (db : Models.Store) : Prop :=
  ∀ ip id, is_Some (server_key db !! (ip, id)) → is_Some (outline_server db !! ip).

(** The statement only concerns rows of the server [ip]. *)
Definition targets (ip : Z) (s : statement) : Prop :=
  match s with
  | InsertKeys values => Forall (λ r : key_row, row_server_ip r = ip) values
  | DeleteKey ip' _ => ip' = ip
  | UpdateKey ip' _ _ => ip' = ip
  end.

End Crud.
Import Crud.

(* ===================================================================== *)
(** * tgbot/handlers/private/manage_outline_server.py: handlers that reach
      storage and the remote server *)
(* ===================================================================== *)

Module Workflow.
Import ManageServer.

(** What the handler answers; the wording and the keyboards are left to
    the chat front end. *)
Inductive reply :=
  | NewServerAdded (server : OutlineServer)
  | SomethingWentWrong
  | WrongServerUrl
  | KeyRenamed (key_id : Z) (key : ServerKey).

Record step := mkStep {
  step_ended : outcome unit;
  step_context : FSMContext;
  step_store : Models.Store;
  step_replies : list reply
}.

Section Handlers.

(** [ipaddress.ip_address], [int] on its results (what [IPAddressType]
    binds), [int] on a text, and [str.strip]; [None] stands for
    [ValueError]. *)
Context {IPAddress : Type}.
Variable ip_address : string → option IPAddress.
Variable ip_int : IPAddress → Z.
Variable to_int : string → option Z.
Variable strip : string → string.

(** The keyboards of tgbot/keyboards/inline.py put the address and the
    key id into [CallbackData.new], which raises when a part holds the
    separator or the data get too long.  [edit_server_keyboard] is given
    the address as storage holds it, [key_action_keyboard] the address
    read from the conversation. *)
Variable edit_server_keyboard : Z → bool → outcome unit.
Variable key_action_keyboard : IPAddress → Z → outcome unit.

(** The proxy block of [enter_server_url] does not change the data, so
    nothing is written back after [state.finish()].  Whatever
    [server_create] raises ([IntegrityError], [OverflowError]) is caught
    by [except Exception]; when it returns [None], which it also does
    after storing the row of 0.0.0.0, the answer is the same and the
    conversation is finished.  The keyboard is built after the [try]:
    what it raises leaves the handler. *)
Definition enter_server_url (text : string) (ctx : FSMContext) (db : Models.Store) : step :=
  let went_wrong := {| step_ended := Returns (); step_context := finish ctx;
                       step_store := db; step_replies := [SomethingWentWrong] |} in
  match data ctx !! "server_name" with
  | None => went_wrong
  | Some server_name =>
      match data ctx !! "server_ip" with
      | None => went_wrong
      | Some ip_text =>
          match ip_address ip_text with
          | None =>
              {| step_ended := Returns (); step_context := set_state enter_url ctx;
                 step_store := db; step_replies := [WrongServerUrl] |}
          | Some server_ip =>
              match server_create db (Some (ip_int server_ip)) (Some text)
                                  (Some server_name) None with
              | (Raises _, _) => went_wrong
              | (Returns None, db1) =>
                  {| step_ended := Returns (); step_context := finish ctx;
                     step_store := db1; step_replies := [SomethingWentWrong] |}
              | (Returns (Some server), db1) =>
                  match edit_server_keyboard (ip_int server_ip) (is_active server) with
                  | Raises e =>
                      {| step_ended := Raises e; step_context := ctx;
                         step_store := db1; step_replies := [] |}
                  | Returns _ =>
                      {| step_ended := Returns (); step_context := finish ctx;
                         step_store := db1; step_replies := [NewServerAdded server] |}
                  end
              end
          end
      end
  end.

(** Reading the pending fields happens before the [try]; what is raised
    there leaves the handler and the conversation where it was.  Inside
    the [try] everything raised is logged. *)
Definition update_key_name (http : transport) (text : string) (ctx : FSMContext)
    (db : Models.Store) : step :=
  let key_name := strip text in
  let escaped e := {| step_ended := Raises e; step_context := ctx;
                      step_store := db; step_replies := [] |} in
  match data ctx !! "server_ip" with
  | None => escaped (KeyError "server_ip")
  | Some ip_text =>
      match ip_address ip_text with
      | None => escaped ValueError
      | Some server_ip =>
          match data ctx !! "key_id" with
          | None => escaped (KeyError "key_id")
          | Some id_text =>
              match to_int id_text with
              | None => escaped ValueError
              | Some key_id =>
                  let '(db1, replies) :=
                    match server_read db (Some (ip_int server_ip)) with
                    | None => (db, [])
                    | Some server =>
                        match rename_key (new_OutlineVPN (url server) http) key_id key_name with
                        | Returns true =>
                            let '(server_key, db1) :=
                              server_key_update db (Some (ip_int server_ip)) (Some key_id)
                                                key_name in
                            match key_action_keyboard server_ip key_id, server_key with
                            | Returns _, Some row => (db1, [KeyRenamed key_id row])
                            | _, _ => (db1, [])
                            end
                        | _ => (db, [])
                        end
                    end in
                  {| step_ended := Returns (); step_context := finish ctx;
                     step_store := db1; step_replies := replies |}
              end
          end
      end
  end.

End Handlers.

(** Readers for the examples: an IPv4 address as its integer, and
    decimal digits as a number. *)
Definition ipv4_int (a : list Z) : Z := foldl (λ acc o, 256 * acc + o) 0 a.

Definition decimal (text : string) : option Z :=
  digits ← mapM digit_value (String.list_ascii_of_string text);
  if bool_decide (digits = []) then None
  else Some (foldl (λ acc d, 10 * acc + d) 0 digits).

(** Keyboards for the examples: every one gets built. *)
Definition built {A B : Type} : A → B → outcome unit := λ _ _, Returns ().

End Workflow.

(* ===================================================================== *)
(** * Notions used to state further properties *)
(* ===================================================================== *)

Module Notions.
Import Middleware.


(** The key that [get_keys] makes of one element of ["accessKeys"], given
    the table of transferred bytes. *)
Definition key_of_raw (table : gmap Z Z) (raw : raw_key) (k : OutlineKey) : Prop :=
  rk_id raw = Some (key_id k)
  ∧ name k = rk_name raw
  ∧ password k = rk_password raw
  ∧ port k = rk_port raw
  ∧ method k = rk_method raw
  ∧ access_url k = rk_accessUrl raw
  ∧ used_bytes k = default 0 (table !! key_id k).

(** The ways the fetch of [get_keys] fails, read off the answers to its
    two requests: no answer, a status other than 200, a body that cannot
    be used (not JSON, falsy, or, on the key list, without
    ["accessKeys"]), or a listed key that cannot be turned into an
    [OutlineKey] because its id is no integer or the metrics lack the
    table of transferred bytes. *)
Definition fetch_fails (key_list metrics : response) : Prop :=
  match key_list with
  | Response status (Body (JObject (Some raws) _)) =>
      status ≠ 200
      ∨ match metrics with
        | Response status' (Body (JObject _ table)) =>
            status' ≠ 200
            ∨ ∃ raw, raw ∈ raws ∧ (rk_id raw = None ∨ table = None)
        | _ => True
        end
  | _ => True
  end.

(** Where a key row goes when its server moves from [old] to [new]. *)
Definition moved (old new : Z) (pk : Z * Z) : Z * Z :=
  if bool_decide (pk.1 = old) then (new, pk.2) else pk.


(** The role a user has after the middleware saw a message of theirs. *)
Definition role_after (db : Middleware.Store) (id : Z) : string :=
  match user db !! id with
  | Some u => role u
  | None => "user"
  end.

(** A storage call that leaves the projection [proj] of storage alone. *)
Definition keeps {A B : Type} (proj : Middleware.Store → B) (m : io A) : Prop :=
  ∀ db, proj (m db).2 = proj db.

(** The two halves of [pre_process] on a message: the upsert of the
    sender, and everything that depends on the chat. *)
Definition upsert_sender (m : Message) : io (option User) :=
  db_user ← user_read (tg_id (from_user m));
  if negb (bool_decide (is_Some db_user))
  then user_create (tg_id (from_user m)) (profile (from_user m) "user")
  else user_update (tg_id (from_user m)) (profile (from_user m) "user").

Definition track_chat (m : Message) (db_user : option User) : io (option Data) :=
  if bool_decide (tg_chat_type (msg_chat m) ≠ "private") then
    db_chat ← chat_read (tg_chat_id (msg_chat m));
    db_chat ← (if negb (bool_decide (is_Some db_chat))
               then chat_create (tg_chat_id (msg_chat m)) (chat_values (msg_chat m))
               else chat_update (tg_chat_id (msg_chat m)) (chat_values (msg_chat m)));
    db_chat_member ← track_sender (tg_chat_id (msg_chat m)) (tg_id (from_user m))
                       (get_member m (tg_id (from_user m)));
    _ ← track_bot (tg_chat_id (msg_chat m)) (bot_id m) (get_member m (bot_id m));
    mret (Some {| data_user := db_user; data_chat := db_chat;
                  data_chat_member := db_chat_member |})
  else
    mret (Some {| data_user := db_user; data_chat := None; data_chat_member := None |}).

End Notions.
Import Notions.

(* ===================================================================== *)
(** * More sample data *)
(* ===================================================================== *)

Module Samples.
Import Examples.

(** A second server, at 198.51.100.7, and storage that knows both. *)
Definition edge2_ip : Z := 3325256711.
Definition edge2 : OutlineServer :=
  {| url := "https://mgmt.example/def"; server_name := "Edge-2"; is_active := false |}.

Definition db2 : Models.Store :=
  {| outline_server := {[ edge1_ip := edge1; edge2_ip := edge2 ]};
     server_key := {[ (edge1_ip, 1) := key_values alice_old;
                      (edge1_ip, 2) := key_values bob ]} |}.

(** An address nobody uses yet: 192.0.2.1. *)
Definition spare_ip : Z := 3221225985.

(** A remote server that lists two different keys under the id 7. *)
Definition dave : OutlineKey :=
  mkOutlineKey 7 "dave" "pw7" 443 "chacha20-ietf-poly1305" "ss://d@203.0.113.9:443" 0.
Definition erin : OutlineKey :=
  mkOutlineKey 7 "erin" "pw8" 443 "chacha20-ietf-poly1305" "ss://e@203.0.113.9:443" 0.

Definition http_twins : transport := λ rq,
  if bool_decide (rq_url rq = "https://mgmt.example/abc/access-keys/")
  then Response 200 (Body (JObject (Some [raw dave; raw erin]) None))
  else Response 200 (Body (JObject None (Some ∅))).

(** A remote server without keys whose metrics answer is an object
    that lacks the table of transferred bytes. *)
Definition http_no_table : transport := λ rq,
  if bool_decide (rq_url rq = "https://mgmt.example/abc/access-keys/")
  then Response 200 (Body (JObject (Some []) None))
  else Response 200 (Body (JObject None None)).



(** A group message from Ann where both memberships can be read, and
    storage in which Ann is an admin. *)
Definition ann_admin : Middleware.User :=
  Middleware.mkUser false "Anna" None None "Anna" None "admin".

Definition admin_db : Middleware.Store :=
  {| Middleware.user := {[ 11 := ann_admin; 99 := the_bot ]};
     Middleware.chat := ∅;
     Middleware.chat_member := {[ (-1001, 11) := "left" ]} |}.

Definition open_message : Middleware.Message :=
  Middleware.mkMessage ann team_chat 99
    (λ id, if bool_decide (id = 99) then Some "administrator" else Some "member").

(** A message from Ann in her private chat with the bot. *)
Definition private_chat : Middleware.TgChat :=
  Middleware.mkTgChat 11 "private" None None.
Definition private_message : Middleware.Message :=
  Middleware.mkMessage ann private_chat 99 (λ _, None).

(** Conversations: name and address of a new server are pending; a key
    of the first server is about to be renamed. *)
Definition addressed : ManageServer.FSMContext :=
  ManageServer.context
    (ManageServer.enter_server_ip ManageServer.ipv4_address ManageServer.ipv4_str
       "203.0.113.9" named).

Definition renaming : ManageServer.FSMContext :=
  {| ManageServer.current_state := Some ManageServer.update_key_name;
     ManageServer.data := {[ "server_ip" := "203.0.113.9"; "key_id" := "1" ]} |}.

Definition empty_db : Models.Store := {| outline_server := ∅; server_key := ∅ |}.

End Samples.

(* ===================================================================== *)
(** * Properties of the reconciliation *)
(* ===================================================================== *)

Module SyncFacts.

(** ** Rows and keys *)

Lemma key_values_to_outline_key (r : key_row) : key_values (to_outline_key r) = r.2.
Proof. destruct r as [pk []]. reflexivity. Qed.

Lemma to_outline_key_row (ip : Z) (k : OutlineKey) :
  to_outline_key (ip, key_id k, key_values k) = k.
Proof. destruct k. reflexivity. Qed.

Lemma key_id_to_outline_key (r : key_row) : key_id (to_outline_key r) = row_key_id r.
Proof. reflexivity. Qed.

Lemma elem_of_server_key_list (db : Store) (ip : Z) (r : key_row) :
  r ∈ server_key_list db (Some ip) ↔ row_server_ip r = ip ∧ server_key db !! r.1 = Some r.2.
Proof.
  unfold server_key_list. rewrite merge_sort_Permutation.
  rewrite list_elem_of_filter. destruct r as [pk c]. simpl.
  rewrite elem_of_map_to_list. reflexivity.
Qed.

Lemma by_name_total : Total by_name.
Proof. intros r1 r2. apply String.leb_total. Qed.

Lemma NoDup_server_key_list (db : Store) (ip : option Z) :
  NoDup (server_key_list db ip).*1.
Proof.
  destruct ip as [ip|]; simpl; [|constructor].
  rewrite merge_sort_Permutation.
  eapply sublist_NoDup; [apply (NoDup_fst_map_to_list (server_key db))|].
  apply fmap_sublist, sublist_filter.
Qed.

Lemma server_key_list_rows (db : Store) (ip : Z) :
  Sorted by_name (server_key_list db (Some ip))
  ∧ NoDup (server_key_list db (Some ip))
  ∧ ∀ ip' id row, (ip', id, row) ∈ server_key_list db (Some ip)
                  ↔ ip' = ip ∧ server_key db !! (ip, id) = Some row.
Proof.
  split; [apply (@Sorted_merge_sort _ by_name _ by_name_total)|]. split.
  - eapply NoDup_fmap_1. apply NoDup_server_key_list.
  - intros ip' id row. rewrite elem_of_server_key_list. unfold row_server_ip. cbn.
    split; [by intros [-> ?]|by intros [-> ?]].
Qed.

Lemma elem_of_db_keys (db : Store) (ip : Z) (k : OutlineKey) :
  k ∈ db_keys db ip ↔ server_key db !! (ip, key_id k) = Some (key_values k).
Proof.
  unfold db_keys. rewrite list_elem_of_fmap. split.
  - intros (r & -> & Hr). apply elem_of_server_key_list in Hr as [Hip Hr].
    rewrite key_values_to_outline_key, key_id_to_outline_key.
    destruct r as [[ip' id] c]. unfold row_server_ip, row_key_id in *. simpl in *.
    by subst.
  - intros Hk. exists (ip, key_id k, key_values k). split.
    + by rewrite to_outline_key_row.
    + by apply elem_of_server_key_list.
Qed.

Lemma elem_of_db_key_ids (db : Store) (ip id : Z) :
  id ∈ key_id <$> db_keys db ip ↔ is_Some (server_key db !! (ip, id)).
Proof.
  rewrite list_elem_of_fmap. split.
  - intros (k & -> & Hk). apply elem_of_db_keys in Hk. eauto.
  - intros [c Hc]. exists (to_outline_key (ip, id, c)). split; [done|].
    apply elem_of_db_keys. by rewrite key_values_to_outline_key.
Qed.

Lemma NoDup_db_keys (db : Store) (ip : Z) : NoDup (db_keys db ip).
Proof.
  unfold db_keys.
  apply NoDup_fmap_2_strong.
  - intros r1 r2 H1 H2 Heq.
    apply elem_of_server_key_list in H1 as [Hip1 _].
    apply elem_of_server_key_list in H2 as [Hip2 _].
    destruct r1 as [[ip1 id1] c1], r2 as [[ip2 id2] c2].
    unfold row_server_ip in *. simpl in *. subst.
    assert (Hk := f_equal key_values Heq). rewrite !key_values_to_outline_key in Hk.
    assert (Hi := f_equal key_id Heq). simpl in *. unfold row_key_id in Hi. simpl in *.
    by subst.
  - eapply NoDup_fmap_1. apply NoDup_server_key_list.
Qed.

(** Distinct ids make the id a key of the list. *)
Lemma key_id_inj_on (l : list OutlineKey) (k1 k2 : OutlineKey) :
  NoDup (key_id <$> l) → k1 ∈ l → k2 ∈ l → key_id k1 = key_id k2 → k1 = k2.
Proof.
  induction l as [|k l IH]; intros Hnd H1 H2 Heq.
  - by apply elem_of_nil in H1.
  - rewrite fmap_cons in Hnd. apply NoDup_cons in Hnd as [Hk Hnd].
    apply elem_of_cons in H1 as [->|H1], H2 as [->|H2]; try done.
    + exfalso. apply Hk. rewrite Heq. by apply list_elem_of_fmap_2.
    + exfalso. apply Hk. rewrite <- Heq. by apply list_elem_of_fmap_2.
    + by apply IH.
Qed.

(** ** The three sets *)

Lemma elem_of_keys_to_insert (vpn_keys dbk : list OutlineKey) (k : OutlineKey) :
  k ∈ keys_to_insert vpn_keys dbk ↔ k ∈ vpn_keys ∧ key_id k ∉ key_id <$> dbk.
Proof.
  unfold keys_to_insert, py_set. rewrite elem_of_remove_dups, list_elem_of_filter. tauto.
Qed.

Lemma elem_of_keys_to_delete (vpn_keys dbk : list OutlineKey) (k : OutlineKey) :
  k ∈ keys_to_delete vpn_keys dbk ↔ k ∈ dbk ∧ key_id k ∉ key_id <$> vpn_keys.
Proof.
  unfold keys_to_delete, py_set. rewrite elem_of_remove_dups, list_elem_of_filter. tauto.
Qed.

Lemma elem_of_keys_to_update (vpn_keys dbk : list OutlineKey) (k : OutlineKey) :
  k ∈ keys_to_update vpn_keys dbk ↔ k ∈ vpn_keys ∧ k ∉ dbk.
Proof.
  unfold keys_to_update, py_set_sub, py_set.
  rewrite !list_elem_of_difference, !elem_of_remove_dups, elem_of_keys_to_delete.
  tauto.
Qed.

Lemma NoDup_keys_to_insert (vpn_keys dbk : list OutlineKey) :
  NoDup (keys_to_insert vpn_keys dbk).
Proof. apply NoDup_remove_dups. Qed.

(** ** Running the statements of a session *)

Lemma server_read_Some (db : Store) (ip : Z) (server : OutlineServer) :
  server_read db (Some ip) = Some server ↔ ip ≠ 0 ∧ outline_server db !! ip = Some server.
Proof.
  unfold server_read, loaded. destruct (outline_server db !! ip) as [row|]; cbn.
  - case_bool_decide; split; [done|by intros [? _]|by intros [= ->]|by intros [_ [= ->]]].
  - split; [done|by intros [_ ?]].
Qed.

Lemma server_read_present (db : Store) (ip : Z) (server : OutlineServer) :
  server_read db (Some ip) = Some server → is_Some (outline_server db !! ip).
Proof. intros [_ H]%server_read_Some. eauto. Qed.

Lemma with_server_key_id (db : Store) : with_server_key db (server_key db) = db.
Proof. by destruct db. Qed.

Lemma run_statements_app (s1 s2 sent1 : list statement) (db db1 : Store) :
  run_statements s1 db = (sent1, Returns db1) →
  run_statements (s1 ++ s2) db
  = (sent1 ++ (run_statements s2 db1).1, (run_statements s2 db1).2).
Proof.
  revert db sent1. induction s1 as [|s s1 IH]; intros db sent1 H; simpl in *.
  - injection H as <- <-. by destruct (run_statements s2 db).
  - destruct (execute s db) as [db'|e]; [|done].
    destruct (run_statements s1 db') as [sent r] eqn:E.
    injection H as <- ->. by rewrite (IH _ _ E).
Qed.

Lemma lookup_insert_all_notin (rows : list key_row) t pk :
  pk ∉ rows.*1 → insert_all rows t !! pk = t !! pk.
Proof.
  revert t. induction rows as [|r rows IH]; intros t Hpk; [done|].
  rewrite fmap_cons, not_elem_of_cons in Hpk. destruct Hpk as [Hne Hpk].
  simpl. rewrite (IH _ Hpk). by apply lookup_insert_ne.
Qed.

Lemma lookup_insert_all_in (rows : list key_row) t (r : key_row) :
  NoDup rows.*1 → r ∈ rows → insert_all rows t !! r.1 = Some r.2.
Proof.
  revert t. induction rows as [|r0 rows IH]; intros t Hnd Hr.
  - by apply elem_of_nil in Hr.
  - rewrite fmap_cons in Hnd. apply NoDup_cons in Hnd as [Hr0 Hnd]. simpl.
    apply elem_of_cons in Hr as [->|Hr].
    + rewrite lookup_insert_all_notin by done. apply lookup_insert_eq.
    + by apply IH.
Qed.

Lemma insert_rows_ok (rows : list key_row) (db : Store) :
  NoDup rows.*1 →
  (∀ r : key_row, r ∈ rows →
     server_key db !! r.1 = None ∧ is_Some (outline_server db !! row_server_ip r)) →
  insert_rows rows db = Returns (with_server_key db (insert_all rows (server_key db))).
Proof.
  revert db. induction rows as [|r rows IH]; intros db Hnd Hok; simpl.
  - by rewrite with_server_key_id.
  - rewrite fmap_cons in Hnd. apply NoDup_cons in Hnd as [Hr Hnd].
    destruct (Hok r) as [Hfree [s Hs]]; [left|].
    unfold insert_row. rewrite Hfree, Hs.
    rewrite bool_decide_eq_false_2 by (by intros [? ?]).
    rewrite bool_decide_eq_false_2 by done. simpl.
    rewrite IH; [done|done|].
    intros r' Hr'. destruct (Hok r') as [Hfree' Hs']; [by right|]. simpl. split; [|done].
    rewrite lookup_insert_ne; [done|].
    intros Heq. apply Hr. rewrite Heq. by apply list_elem_of_fmap_2.
Qed.

Lemma run_deletes (ip : Z) (ks : list OutlineKey) (db : Store) :
  run_statements ((λ key, DeleteKey ip (key_id key)) <$> ks) db
  = ((λ key, DeleteKey ip (key_id key)) <$> ks,
     Returns (with_server_key db (delete_all ip ks (server_key db)))).
Proof.
  revert db. induction ks as [|k ks IH]; intros db; simpl.
  - by rewrite with_server_key_id.
  - by rewrite IH.
Qed.

Lemma run_updates (ip : Z) (ks : list OutlineKey) (db : Store) :
  run_statements ((λ key, UpdateKey ip (key_id key) (key_values key)) <$> ks) db
  = ((λ key, UpdateKey ip (key_id key) (key_values key)) <$> ks,
     Returns (with_server_key db (update_all ip ks (server_key db)))).
Proof.
  revert db. induction ks as [|k ks IH]; intros db; simpl.
  - by rewrite with_server_key_id.
  - by rewrite IH.
Qed.

Lemma lookup_delete_all_notin (ip : Z) (ks : list OutlineKey) t pk :
  pk ∉ (λ k, (ip, key_id k)) <$> ks → delete_all ip ks t !! pk = t !! pk.
Proof.
  revert t. induction ks as [|k ks IH]; intros t Hpk; [done|].
  rewrite fmap_cons, not_elem_of_cons in Hpk. destruct Hpk as [Hne Hpk].
  simpl. rewrite (IH _ Hpk). by apply lookup_delete_ne.
Qed.

Lemma lookup_delete_all_in (ip : Z) (ks : list OutlineKey) t pk :
  pk ∈ (λ k, (ip, key_id k)) <$> ks → delete_all ip ks t !! pk = None.
Proof.
  revert t. induction ks as [|k0 ks IH]; intros t Hpk.
  - by apply elem_of_nil in Hpk.
  - simpl. destruct (decide (pk ∈ (λ k, (ip, key_id k)) <$> ks)) as [Hin|Hout].
    + by apply IH.
    + rewrite fmap_cons in Hpk. apply elem_of_cons in Hpk as [->|Hpk]; [|done].
      rewrite lookup_delete_all_notin by done. apply lookup_delete_eq.
Qed.

Lemma lookup_update_all_notin (ip : Z) (ks : list OutlineKey) t pk :
  pk ∉ (λ k, (ip, key_id k)) <$> ks → update_all ip ks t !! pk = t !! pk.
Proof.
  revert t. induction ks as [|k ks IH]; intros t Hpk; [done|].
  rewrite fmap_cons, not_elem_of_cons in Hpk. destruct Hpk as [Hne Hpk].
  simpl. rewrite (IH _ Hpk). by apply lookup_alter_ne.
Qed.

Lemma lookup_update_all_in (ip : Z) (ks : list OutlineKey) t (k : OutlineKey) :
  (∀ k1 k2, k1 ∈ ks → k2 ∈ ks → key_id k1 = key_id k2 → k1 = k2) →
  k ∈ ks →
  update_all ip ks t !! (ip, key_id k) = (λ _, key_values k) <$> t !! (ip, key_id k).
Proof.
  revert t. induction ks as [|k0 ks IH]; intros t Hinj Hk.
  - by apply elem_of_nil in Hk.
  - simpl. destruct (decide (k ∈ ks)) as [Hin|Hout].
    + rewrite IH; [|by intros k1 k2 ? ?; apply Hinj; right|done].
      rewrite lookup_alter. case_decide as Heq.
      * rewrite Heq. by destruct (t !! (ip, key_id k)).
      * done.
    + apply elem_of_cons in Hk as [->|Hk]; [|done].
      rewrite lookup_update_all_notin.
      * apply lookup_alter_eq.
      * intros Hin'. apply list_elem_of_fmap in Hin' as (k' & Heq & Hk').
        injection Heq as Heq. apply Hout.
        rewrite (Hinj k0 k'); [done|by left|by right|done].
Qed.

Lemma outline_key_eq (k1 k2 : OutlineKey) :
  key_id k1 = key_id k2 → key_values k1 = key_values k2 → k1 = k2.
Proof.
  destruct k1, k2. unfold key_values. simpl. intros -> Hv. by injection Hv as -> -> -> -> -> ->.
Qed.

(** ** What one reconciliation leaves in [server_key] *)

Section Converge.

Context (db : Store) (ip : Z) (vpn_keys : list OutlineKey).
Hypothesis server_present : is_Some (outline_server db !! ip).
Hypothesis distinct_ids : NoDup (key_id <$> vpn_keys).

Local Abbreviation dbk := (db_keys db ip).
Local Abbreviation pk_of := (λ k : OutlineKey, (ip, key_id k)).
Local Abbreviation sync_table := (Models.sync_table db ip vpn_keys).

Lemma insert_values_keys : (insert_values ip vpn_keys dbk).*1 = pk_of <$> keys_to_insert vpn_keys dbk.
Proof. unfold insert_values. rewrite <- list_fmap_compose. reflexivity. Qed.

Lemma pk_in_insert pk :
  pk ∈ pk_of <$> keys_to_insert vpn_keys dbk → server_key db !! pk = None.
Proof.
  intros (k & -> & Hk)%list_elem_of_fmap. apply elem_of_keys_to_insert in Hk as [_ Hk].
  apply eq_None_not_Some. intros Hs. apply Hk. by apply elem_of_db_key_ids.
Qed.

Lemma pk_in_insert_vpn pk :
  pk ∈ pk_of <$> keys_to_insert vpn_keys dbk → pk.1 = ip ∧ pk.2 ∈ key_id <$> vpn_keys.
Proof.
  intros (k & -> & Hk)%list_elem_of_fmap. apply elem_of_keys_to_insert in Hk as [Hk _].
  split; [done|]. simpl. by apply list_elem_of_fmap_2.
Qed.

Lemma pk_in_delete pk :
  pk ∈ pk_of <$> keys_to_delete vpn_keys dbk → pk.1 = ip ∧ pk.2 ∉ key_id <$> vpn_keys.
Proof.
  intros (k & -> & Hk)%list_elem_of_fmap. by apply elem_of_keys_to_delete in Hk as [_ Hk].
Qed.

Lemma pk_in_update pk :
  pk ∈ pk_of <$> keys_to_update vpn_keys dbk →
  ∃ k, pk = (ip, key_id k) ∧ k ∈ vpn_keys ∧ k ∉ dbk.
Proof.
  intros (k & -> & Hk)%list_elem_of_fmap. apply elem_of_keys_to_update in Hk. eauto.
Qed.

Lemma NoDup_insert_values : NoDup (insert_values ip vpn_keys dbk).*1.
Proof.
  rewrite insert_values_keys. apply NoDup_fmap_2_strong; [|apply NoDup_keys_to_insert].
  intros k1 k2 [H1 _]%elem_of_keys_to_insert [H2 _]%elem_of_keys_to_insert Heq.
  injection Heq as Heq. by eapply key_id_inj_on.
Qed.

Lemma run_sync_statements :
  run_statements (sync_statements ip vpn_keys dbk) db
  = (sync_statements ip vpn_keys dbk, Returns (with_server_key db sync_table)).
Proof.
  assert (Htail : ∀ db1,
    run_statements
      (((λ key, DeleteKey ip (key_id key)) <$> keys_to_delete vpn_keys dbk)
       ++ ((λ key, UpdateKey ip (key_id key) (key_values key)) <$> keys_to_update vpn_keys dbk)) db1
    = (((λ key, DeleteKey ip (key_id key)) <$> keys_to_delete vpn_keys dbk)
       ++ ((λ key, UpdateKey ip (key_id key) (key_values key)) <$> keys_to_update vpn_keys dbk),
       Returns (with_server_key db1
                  (update_all ip (keys_to_update vpn_keys dbk)
                     (delete_all ip (keys_to_delete vpn_keys dbk) (server_key db1)))))).
  { intros db1. rewrite (run_statements_app _ _ _ _ _ (run_deletes _ _ _)).
    by rewrite run_updates. }
  unfold sync_statements, Models.sync_table. case_bool_decide as Hnil.
  - rewrite Hnil. simpl. apply Htail.
  - change ([InsertKeys ?v] ++ ?rest) with (InsertKeys v :: rest).
    cbn [run_statements execute].
    rewrite insert_rows_ok.
    + by rewrite Htail.
    + apply NoDup_insert_values.
    + intros r Hr. assert (Hpk : r.1 ∈ (insert_values ip vpn_keys dbk).*1)
        by by apply list_elem_of_fmap_2.
      rewrite insert_values_keys in Hpk. split; [by apply pk_in_insert|].
      apply pk_in_insert_vpn in Hpk as [Hip _]. unfold row_server_ip. by rewrite Hip.
Qed.

Lemma sync_table_other_server ip' id :
  ip' ≠ ip → sync_table !! (ip', id) = server_key db !! (ip', id).
Proof.
  intros Hne. unfold Models.sync_table.
  rewrite lookup_update_all_notin, lookup_delete_all_notin, lookup_insert_all_notin; [done|..].
  - rewrite insert_values_keys. by intros [? _]%pk_in_insert_vpn.
  - by intros [? _]%pk_in_delete.
  - intros (k & Heq & _)%pk_in_update. by injection Heq.
Qed.

Lemma sync_table_absent id :
  id ∉ key_id <$> vpn_keys → sync_table !! (ip, id) = None.
Proof.
  intros Hid. unfold Models.sync_table.
  rewrite lookup_update_all_notin.
  2:{ intros (k & Heq & Hk & _)%pk_in_update. injection Heq as ->.
      apply Hid. by apply list_elem_of_fmap_2. }
  destruct (decide ((ip, id) ∈ pk_of <$> keys_to_delete vpn_keys dbk)) as [Hin|Hout].
  - by apply lookup_delete_all_in.
  - rewrite lookup_delete_all_notin by done.
    rewrite lookup_insert_all_notin.
    2:{ rewrite insert_values_keys. by intros [_ ?]%pk_in_insert_vpn. }
    apply eq_None_not_Some. intros [c Hc]. apply Hout.
    apply list_elem_of_fmap. exists (to_outline_key (ip, id, c)). split; [done|].
    apply elem_of_keys_to_delete. split; [|done].
    apply elem_of_db_keys. by rewrite key_values_to_outline_key.
Qed.

Lemma sync_table_present k :
  k ∈ vpn_keys → sync_table !! (ip, key_id k) = Some (key_values k).
Proof.
  intros Hk. unfold Models.sync_table.
  set (t1 := insert_all (insert_values ip vpn_keys dbk) (server_key db)).
  assert (Hdel : delete_all ip (keys_to_delete vpn_keys dbk) t1 !! (ip, key_id k)
                 = t1 !! (ip, key_id k)).
  { apply lookup_delete_all_notin. intros [_ Hout]%pk_in_delete.
    apply Hout. simpl. by apply list_elem_of_fmap_2. }
  assert (Hinj : ∀ k1 k2, k1 ∈ keys_to_update vpn_keys dbk →
             k2 ∈ keys_to_update vpn_keys dbk → key_id k1 = key_id k2 → k1 = k2).
  { intros k1 k2 [H1 _]%elem_of_keys_to_update [H2 _]%elem_of_keys_to_update.
    by apply (key_id_inj_on vpn_keys). }
  destruct (decide (k ∈ dbk)) as [Hdb|Hndb].
  - rewrite lookup_update_all_notin.
    2:{ intros (k' & Heq & Hk' & Hout)%pk_in_update. injection Heq as Heq.
        apply Hout. by rewrite <- (key_id_inj_on vpn_keys k k'). }
    rewrite Hdel. unfold t1. rewrite lookup_insert_all_notin.
    + by apply elem_of_db_keys.
    + rewrite insert_values_keys. intros Hin%pk_in_insert.
      apply elem_of_db_keys in Hdb. congruence.
  - rewrite lookup_update_all_in; [|done|by apply elem_of_keys_to_update].
    rewrite Hdel.
    destruct (decide (key_id k ∈ key_id <$> dbk)) as [Hid|Hnid].
    + apply elem_of_db_key_ids in Hid as [c Hc]. unfold t1.
      rewrite lookup_insert_all_notin; [by rewrite Hc|].
      rewrite insert_values_keys. intros Hin%pk_in_insert. congruence.
    + unfold t1.
      rewrite (lookup_insert_all_in _ _ (ip, key_id k, key_values k)); [done|..].
      * apply NoDup_insert_values.
      * unfold insert_values. apply list_elem_of_fmap.
        exists k. split; [done|]. by apply elem_of_keys_to_insert.
Qed.

Lemma db_keys_sync_table k :
  k ∈ db_keys (with_server_key db sync_table) ip ↔ k ∈ vpn_keys.
Proof.
  rewrite elem_of_db_keys. simpl. split.
  - intros Hk. destruct (decide (key_id k ∈ key_id <$> vpn_keys)) as [Hin|Hout].
    + apply list_elem_of_fmap in Hin as (k' & Hid & Hk').
      rewrite Hid, (sync_table_present k' Hk') in Hk.
      assert (k = k') as ->; [apply outline_key_eq; congruence|done].
    + by rewrite sync_table_absent in Hk.
  - apply sync_table_present.
Qed.

Lemma db_keys_sync_table_perm :
  db_keys (with_server_key db sync_table) ip ≡ₚ vpn_keys.
Proof.
  apply NoDup_Permutation.
  - apply NoDup_db_keys.
  - by eapply NoDup_fmap_1.
  - apply db_keys_sync_table.
Qed.

End Converge.

End SyncFacts.

Module Reconciliation.
Import SyncFacts Examples Samples.

(** ** When the fetch is refused *)

Lemma get_keys_key_list_not_200 (vpn : OutlineVPN) (status : Z) (payload : body) :
  session vpn (Request GET (keys_url vpn) NoJson) = Response status payload →
  status ≠ 200 →
  get_keys vpn = Raises (PlainException "Unable to retrieve keys").
Proof.
  intros Hrq Hst. unfold get_keys, get_json. rewrite Hrq.
  by rewrite bool_decide_eq_false_2.
Qed.

Lemma get_keys_connection_error (vpn : OutlineVPN) :
  session vpn (Request GET (keys_url vpn) NoJson) = ConnectionError →
  get_keys vpn = Raises ClientError.
Proof. intros Hrq. unfold get_keys, get_json. by rewrite Hrq. Qed.

Lemma get_keys_metrics_not_200 (vpn : OutlineVPN) (status : Z) (payload : body) :
  session vpn (Request GET (metrics_url vpn) NoJson) = Response status payload →
  status ≠ 200 →
  raised (get_keys vpn) = true.
Proof.
  intros Hrq Hst. unfold get_keys.
  destruct (get_json vpn (keys_url vpn)) as [[[|[ks|] bs]|]|e]; try done.
  simpl. unfold get_transferred_data, get_json. rewrite Hrq.
  by rewrite bool_decide_eq_false_2.
Qed.

Lemma get_keys_metrics_connection_error (vpn : OutlineVPN) :
  session vpn (Request GET (metrics_url vpn) NoJson) = ConnectionError →
  raised (get_keys vpn) = true.
Proof.
  intros Hrq. unfold get_keys.
  destruct (get_json vpn (keys_url vpn)) as [[[|[ks|] bs]|]|e]; try done.
  simpl. unfold get_transferred_data, get_json. by rewrite Hrq.
Qed.

(** ** The fetch fails exactly in the cases of [fetch_fails] *)

Lemma collect_keys_raised (ks0 : option (list raw_key)) (table : option (gmap Z Z))
    (raws : list raw_key) :
  raised (collect_keys (JObject ks0 table) raws) = true
  ↔ ∃ raw, raw ∈ raws ∧ (rk_id raw = None ∨ table = None).
Proof.
  induction raws as [|raw raws IH]; simpl.
  - split; [done|]. intros (raw & Hin & _). by apply elem_of_nil in Hin.
  - unfold outline_key_of.
    destruct (rk_id raw) as [id|] eqn:Hid.
    2:{ split; [|done]. intros _. exists raw. split; [left|by left]. }
    destruct table as [tbl|].
    2:{ split; [|done]. intros _. exists raw. split; [left|by right]. }
    cbn. destruct (collect_keys (JObject ks0 (Some tbl)) raws) as [ks|e]; cbn.
    + split; [done|]. intros (raw' & [->|Hin]%elem_of_cons & Hbad).
      * destruct Hbad; congruence.
      * assert (Hr : false = true) by (apply IH; eauto). done.
    + split; [|done]. intros _.
      destruct (proj1 IH eq_refl) as (raw' & Hin & Hbad).
      exists raw'. split; [by right|done].
Qed.

Lemma get_keys_raised_iff (vpn : OutlineVPN) :
  raised (get_keys vpn) = true
  ↔ fetch_fails (session vpn (Request GET (keys_url vpn) NoJson))
                (session vpn (Request GET (metrics_url vpn) NoJson)).
Proof.
  unfold get_keys, get_transferred_data, get_json, fetch_fails.
  destruct (session vpn (Request GET (keys_url vpn) NoJson)) as [|st1 p1]; [done|].
  destruct p1 as [| |[|[raws|] m1]].
  1-3,5: by case_bool_decide; cbn; split.
  case_bool_decide as H1; cbn.
  2:{ split; [by left|done]. }
  destruct (session vpn (Request GET (metrics_url vpn) NoJson)) as [|st2 p2].
  { cbn. split; [by right|done]. }
  destruct p2 as [| |[|m2 table]].
  1-3: case_bool_decide; cbn; (split; [by right|done]).
  case_bool_decide as H2; cbn.
  2:{ split; [right; by left|done]. }
  rewrite collect_keys_raised. split.
  - intros H. right. by right.
  - intros [?|[?|H]]; done.
Qed.

(** ** One run, computed *)

Lemma server_key_sync_raised (http : transport) (db : Store) (ip : Z)
    (server : OutlineServer) (e : exn) :
  server_read db (Some ip) = Some server →
  get_keys (new_OutlineVPN (url server) http) = Raises e →
  server_key_sync http db (Some ip)
  = {| returned := SyncKeys (server_key_list db (Some ip)); stored := db; issued := [] |}.
Proof.
  intros Hsrv Hget. unfold server_key_sync, sync_try. by rewrite Hsrv, Hget.
Qed.

Lemma server_key_sync_fetched (http : transport) (db : Store) (ip : Z)
    (server : OutlineServer) (vpn_keys : list OutlineKey) :
  server_read db (Some ip) = Some server →
  get_keys (new_OutlineVPN (url server) http) = Returns vpn_keys →
  NoDup (key_id <$> vpn_keys) →
  let db' := with_server_key db (sync_table db ip vpn_keys) in
  server_key_sync http db (Some ip)
  = {| returned := SyncKeys (server_key_list db' (Some ip));
       stored := db';
       issued := sync_statements ip vpn_keys (db_keys db ip) |}.
Proof.
  intros Hsrv Hget Hnd. unfold server_key_sync, sync_try. rewrite Hsrv, Hget.
  by rewrite run_sync_statements by eauto using server_read_present.
Qed.


(** Atomicity: the key list arrives, the metrics request is refused. *)
Lemma server_key_sync_metrics_refused (http : transport) (db : Store) (ip : Z)
    (server : OutlineServer) (status : Z) (payload : body) :
  server_read db (Some ip) = Some server →
  http (Request GET (url server +:+ "/metrics/transfer") NoJson) = Response status payload →
  status ≠ 200 →
  server_key_sync http db (Some ip)
  = {| returned := SyncKeys (server_key_list db (Some ip)); stored := db; issued := [] |}.
Proof.
  intros Hsrv Hrq Hst.
  assert (Hr : raised (get_keys (new_OutlineVPN (url server) http)) = true)
    by by apply (get_keys_metrics_not_200 _ status payload).
  destruct (get_keys (new_OutlineVPN (url server) http)) as [ks|e] eqn:E; [done|].
  by apply (server_key_sync_raised _ _ _ server e).
Qed.

(** ** The claims *)

(** C1 (convergence).  For a server present in storage, after a
    [server_key_sync] whose key-list and metrics fetches succeed with
    keys of distinct ids whose id, port and used bytes are within the
    range of an INTEGER column, the persisted keys of that server are
    exactly the remote keys: the same ids and, for each id, the same
    name, password, port, method, access url and used bytes.  The table
    of servers (name, url, active flag of every server) is unchanged,
    and so are the keys of every other server. *)
Theorem server_key_sync_converges (http : transport) (db : Store) (ip : Z)
    (server : OutlineServer) (vpn_keys : list OutlineKey) :
  server_read db (Some ip) = Some server →
  get_keys (new_OutlineVPN (url server) http) = Returns vpn_keys →
  NoDup (key_id <$> vpn_keys) →
  Forall storable vpn_keys →
  let run := server_key_sync http db (Some ip) in
  db_keys (stored run) ip ≡ₚ vpn_keys
  ∧ outline_server (stored run) = outline_server db
  ∧ (∀ ip' id, ip' ≠ ip → server_key (stored run) !! (ip', id) = server_key db !! (ip', id))
  ∧ returned run = SyncKeys (server_key_list (stored run) (Some ip)).
Proof.
  intros Hsrv Hget Hnd Hrange run. subst run.
  rewrite (server_key_sync_fetched _ _ _ _ _ Hsrv Hget Hnd). simpl.
  split; [by apply db_keys_sync_table_perm|].
  split; [done|]. split; [|done].
  intros ip' id Hne. by apply sync_table_other_server.
Qed.

Lemma server_key_sync_converges_witness :
  (server_read db0 (Some edge1_ip) = Some edge1
   ∧ get_keys (new_OutlineVPN (url edge1) http_ok) = Returns [alice; carol]
   ∧ NoDup (key_id <$> [alice; carol])
   ∧ Forall storable [alice; carol])
  ∧ let run := server_key_sync http_ok db0 (Some edge1_ip) in
    db_keys (stored run) edge1_ip ≡ₚ [alice; carol]
    ∧ outline_server (stored run) = outline_server db0
    ∧ (∀ ip' id, ip' ≠ edge1_ip →
         server_key (stored run) !! (ip', id) = server_key db0 !! (ip', id))
    ∧ returned run = SyncKeys (server_key_list (stored run) (Some edge1_ip)).
Proof.
  assert (H1 : server_read db0 (Some edge1_ip) = Some edge1) by reflexivity.
  assert (H2 : get_keys (new_OutlineVPN (url edge1) http_ok) = Returns [alice; carol])
    by (vm_compute; reflexivity).
  assert (H3 : NoDup (key_id <$> [alice; carol]))
    by (apply (bool_decide_unpack _); vm_compute; exact I).
  assert (H4 : Forall storable [alice; carol])
    by (repeat constructor; unfold sqlite_integer; cbn; lia).
  split; [by repeat split|].
  exact (server_key_sync_converges http_ok db0 edge1_ip edge1 [alice; carol] H1 H2 H3 H4).
Defined.

(** C2 (atomicity on a failed fetch), amended.  For a server present in
    storage, when the fetch of [server_key_sync] fails, that is, when a
    request gets no answer or a status other than 200, a body cannot be
    used, or a listed key cannot be turned into a key (its id is no
    integer, or the metrics lack the table of transferred bytes), no
    statement is sent to storage, storage is exactly what it was, and
    the call returns, instead of raising, the persisted keys of the
    server: each of its rows once, in the order of the names. *)
Theorem server_key_sync_fetch_failure (http : transport) (db : Store) (ip : Z)
    (server : OutlineServer) :
  server_read db (Some ip) = Some server →
  fetch_fails (http (Request GET (url server +:+ "/access-keys/") NoJson))
              (http (Request GET (url server +:+ "/metrics/transfer") NoJson)) →
  let run := server_key_sync http db (Some ip) in
  issued run = [] ∧ stored run = db
  ∧ ∃ rows, returned run = SyncKeys rows
            ∧ Sorted by_name rows ∧ NoDup rows
            ∧ ∀ ip' id row, (ip', id, row) ∈ rows
                            ↔ ip' = ip ∧ server_key db !! (ip, id) = Some row.
Proof.
  intros Hsrv Hfail run. subst run.
  assert (Hr : raised (get_keys (new_OutlineVPN (url server) http)) = true)
    by by apply get_keys_raised_iff.
  destruct (get_keys (new_OutlineVPN (url server) http)) as [ks|e] eqn:E; [done|].
  rewrite (server_key_sync_raised _ _ _ _ _ Hsrv E). cbn [issued stored returned].
  split; [done|]. split; [done|].
  exists (server_key_list db (Some ip)). split; [done|]. apply server_key_list_rows.
Qed.

Lemma server_key_sync_fetch_failure_witness :
  (server_read db0 (Some edge1_ip) = Some edge1
   ∧ fetch_fails
       (http_metrics_500 (Request GET (url edge1 +:+ "/access-keys/") NoJson))
       (http_metrics_500 (Request GET (url edge1 +:+ "/metrics/transfer") NoJson)))
  ∧ let run := server_key_sync http_metrics_500 db0 (Some edge1_ip) in
    issued run = [] ∧ stored run = db0
    ∧ ∃ rows, returned run = SyncKeys rows
              ∧ Sorted by_name rows ∧ NoDup rows
              ∧ ∀ ip' id row, (ip', id, row) ∈ rows
                              ↔ ip' = edge1_ip ∧ server_key db0 !! (edge1_ip, id) = Some row.
Proof.
  assert (H1 : server_read db0 (Some edge1_ip) = Some edge1) by reflexivity.
  assert (H2 : fetch_fails
                 (http_metrics_500 (Request GET (url edge1 +:+ "/access-keys/") NoJson))
                 (http_metrics_500 (Request GET (url edge1 +:+ "/metrics/transfer") NoJson)))
    by (vm_compute; right; exact I).
  split; [by split|].
  exact (server_key_sync_fetch_failure http_metrics_500 db0 edge1_ip edge1 H1 H2).
Defined.

(** C2, as stated, fails for one malformed answer: when the key list is
    empty and the metrics answer is an object without the table of
    transferred bytes, the loop that would read the table is never
    entered, the fetch yields the empty key set, and every persisted key
    of the server is deleted. *)
Lemma server_key_sync_malformed_metrics :
  let run := server_key_sync http_no_table db0 (Some edge1_ip) in
  server_read db0 (Some edge1_ip) = Some edge1
  ∧ http_no_table (Request GET (url edge1 +:+ "/access-keys/") NoJson)
    = Response 200 (Body (JObject (Some []) None))
  ∧ http_no_table (Request GET (url edge1 +:+ "/metrics/transfer") NoJson)
    = Response 200 (Body (JObject None None))
  ∧ issued run = [DeleteKey edge1_ip 1; DeleteKey edge1_ip 2]
  ∧ stored run ≠ db0
  ∧ server_key db0 !! (edge1_ip, 1) = Some (key_values alice_old)
  ∧ server_key (stored run) !! (edge1_ip, 1) = None
  ∧ server_key (stored run) !! (edge1_ip, 2) = None
  ∧ returned run = SyncKeys [].
Proof.
  cbv zeta.
  assert (Hne : stored (server_key_sync http_no_table db0 (Some edge1_ip)) ≠ db0).
  { intros Heq.
    apply (f_equal (λ d, bool_decide (is_Some (server_key d !! (edge1_ip, 1))))) in Heq.
    vm_compute in Heq. discriminate. }
  split; [vm_compute; reflexivity|]. split; [vm_compute; reflexivity|].
  split; [vm_compute; reflexivity|]. split; [vm_compute; reflexivity|].
  split; [exact Hne|].
  split; [vm_compute; reflexivity|]. split; [vm_compute; reflexivity|].
  split; vm_compute; reflexivity.
Qed.





End Reconciliation.

Module Partition.
Import SyncFacts Examples.

Lemma key_id_not_in_insert (vpn_keys dbk : list OutlineKey) (id : Z) :
  id ∈ key_id <$> dbk → id ∉ key_id <$> keys_to_insert vpn_keys dbk.
Proof.
  intros Hid (k & -> & Hk)%list_elem_of_fmap.
  by apply elem_of_keys_to_insert in Hk as [_ Hk].
Qed.

Lemma key_id_not_in_delete (vpn_keys dbk : list OutlineKey) (id : Z) :
  id ∈ key_id <$> vpn_keys → id ∉ key_id <$> keys_to_delete vpn_keys dbk.
Proof.
  intros Hid (k & -> & Hk)%list_elem_of_fmap.
  by apply elem_of_keys_to_delete in Hk as [_ Hk].
Qed.

Lemma key_id_not_in_update (vpn_keys dbk : list OutlineKey) (k : OutlineKey) :
  NoDup (key_id <$> vpn_keys) → k ∈ vpn_keys → k ∈ dbk →
  key_id k ∉ key_id <$> keys_to_update vpn_keys dbk.
Proof.
  intros Hnd Hv Hd (k' & Heq & Hk')%list_elem_of_fmap.
  apply elem_of_keys_to_update in Hk' as [Hv' Hd'].
  by rewrite <- (key_id_inj_on vpn_keys k k') in Hd'.
Qed.

(** C3, as the code has it.  With remote keys of distinct ids, the
    reconciliation forms three sets: to-insert, the remote keys whose id
    is absent locally; to-delete, the local keys whose id is absent
    remotely; to-update, every remote key that is not identical to a
    persisted key, that is the ids present on both sides whose values
    differ together with all of to-insert.  To-delete shares no id with
    to-insert nor with to-update, and a key present on both sides with
    identical values has its id in none of the three sets, so no
    statement writes its row. *)
Theorem sync_sets_partition (server_ip : Z) (vpn_keys dbk : list OutlineKey) :
  NoDup (key_id <$> vpn_keys) →
  let ins := keys_to_insert vpn_keys dbk in
  let del := keys_to_delete vpn_keys dbk in
  let upd := keys_to_update vpn_keys dbk in
  (∀ k, k ∈ ins ↔ k ∈ vpn_keys ∧ key_id k ∉ key_id <$> dbk)
  ∧ (∀ k, k ∈ del ↔ k ∈ dbk ∧ key_id k ∉ key_id <$> vpn_keys)
  ∧ (∀ k, k ∈ upd ↔ k ∈ ins ∨ (k ∈ vpn_keys ∧ key_id k ∈ key_id <$> dbk ∧ k ∉ dbk))
  ∧ disjoint_by_id ins del
  ∧ disjoint_by_id del upd
  ∧ (∀ k, k ∈ vpn_keys → k ∈ dbk →
       (key_id k ∉ key_id <$> ins)
       ∧ (key_id k ∉ key_id <$> del)
       ∧ (key_id k ∉ key_id <$> upd)
       ∧ ∀ s, s ∈ sync_statements server_ip vpn_keys dbk →
              ¬ writes_key server_ip (key_id k) s).
Proof.
  intros Hnd ins del upd. subst ins del upd.
  split; [apply elem_of_keys_to_insert|].
  split; [apply elem_of_keys_to_delete|].
  split.
  { intros k. rewrite elem_of_keys_to_update, elem_of_keys_to_insert. split.
    - intros [Hv Hd]. destruct (decide (key_id k ∈ key_id <$> dbk)); [right|left]; done.
    - intros [[Hv Hid]|(Hv & _ & Hd)]; [|done]. split; [done|].
      intros Hd. apply Hid. by apply list_elem_of_fmap_2. }
  split.
  { intros a b [Ha _]%elem_of_keys_to_insert [_ Hb]%elem_of_keys_to_delete Heq.
    apply Hb. rewrite <- Heq. by apply list_elem_of_fmap_2. }
  split.
  { intros a b [_ Ha]%elem_of_keys_to_delete [Hb _]%elem_of_keys_to_update Heq.
    apply Ha. rewrite Heq. by apply list_elem_of_fmap_2. }
  intros k Hv Hd.
  assert (Hins : key_id k ∉ key_id <$> keys_to_insert vpn_keys dbk)
    by by apply key_id_not_in_insert, list_elem_of_fmap_2.
  assert (Hdel : key_id k ∉ key_id <$> keys_to_delete vpn_keys dbk)
    by by apply key_id_not_in_delete, list_elem_of_fmap_2.
  assert (Hupd : key_id k ∉ key_id <$> keys_to_update vpn_keys dbk)
    by by apply key_id_not_in_update.
  do 3 (split; [done|]).
  intros s Hs Hw. unfold sync_statements in Hs.
  rewrite !elem_of_app in Hs. destruct Hs as [Hs|[Hs|Hs]].
  - case_bool_decide; [by apply elem_of_nil in Hs|].
    apply list_elem_of_singleton in Hs as ->. simpl in Hw.
    unfold insert_values in Hw. rewrite <- list_fmap_compose in Hw.
    apply list_elem_of_fmap in Hw as (k' & Heq & Hk'). injection Heq as Heq.
    apply Hins. rewrite Heq. by apply list_elem_of_fmap_2.
  - apply list_elem_of_fmap in Hs as (k' & -> & Hk'). simpl in Hw. injection Hw as Heq.
    apply Hdel. rewrite <- Heq. by apply list_elem_of_fmap_2.
  - apply list_elem_of_fmap in Hs as (k' & -> & Hk'). simpl in Hw. injection Hw as Heq.
    apply Hupd. rewrite <- Heq. by apply list_elem_of_fmap_2.
Qed.

Lemma sync_sets_partition_witness :
  NoDup (key_id <$> [alice; carol])
  ∧ let ins := keys_to_insert [alice; carol] [alice; bob] in
    let del := keys_to_delete [alice; carol] [alice; bob] in
    let upd := keys_to_update [alice; carol] [alice; bob] in
    (∀ k, k ∈ ins ↔ k ∈ [alice; carol] ∧ key_id k ∉ key_id <$> [alice; bob])
    ∧ (∀ k, k ∈ del ↔ k ∈ [alice; bob] ∧ key_id k ∉ key_id <$> [alice; carol])
    ∧ (∀ k, k ∈ upd ↔ k ∈ ins
                      ∨ (k ∈ [alice; carol] ∧ key_id k ∈ key_id <$> [alice; bob]
                         ∧ k ∉ [alice; bob]))
    ∧ disjoint_by_id ins del
    ∧ disjoint_by_id del upd
    ∧ (∀ k, k ∈ [alice; carol] → k ∈ [alice; bob] →
         (key_id k ∉ key_id <$> ins)
         ∧ (key_id k ∉ key_id <$> del)
         ∧ (key_id k ∉ key_id <$> upd)
         ∧ ∀ s, s ∈ sync_statements edge1_ip [alice; carol] [alice; bob] →
                ¬ writes_key edge1_ip (key_id k) s).
Proof.
  assert (H1 : NoDup (key_id <$> [alice; carol]))
    by (apply (bool_decide_unpack _); vm_compute; exact I).
  split; [done|].
  exact (sync_sets_partition edge1_ip [alice; carol] [alice; bob] H1).
Defined.

(** C3, as stated, fails: with one remote key and nothing persisted the
    key is both inserted and updated, so to-insert and to-update share
    its id, and to-update holds an id that is not present on both
    sides. *)
Lemma sync_sets_overlap :
  keys_to_insert [carol] [] = [carol]
  ∧ keys_to_update [carol] [] = [carol]
  ∧ ¬ disjoint_by_id (keys_to_insert [carol] []) (keys_to_update [carol] [])
  ∧ sync_statements edge1_ip [carol] []
    = [InsertKeys [(edge1_ip, 3, key_values carol)];
       UpdateKey edge1_ip 3 (key_values carol)].
Proof.
  assert (Hi : keys_to_insert [carol] [] = [carol]) by (vm_compute; reflexivity).
  assert (Hu : keys_to_update [carol] [] = [carol]) by (vm_compute; reflexivity).
  split; [done|]. split; [done|]. split.
  - rewrite Hi, Hu. intros Hd. apply (Hd carol carol); [left|left|reflexivity].
  - vm_compute. reflexivity.
Qed.

End Partition.

(* ===================================================================== *)
(** * Properties of the key operations and of the server list *)
(* ===================================================================== *)

Module KeyOperations.
Import Examples.

Lemma expect_204_true (vpn : OutlineVPN) (rq : request) :
  expect_204 vpn rq = Returns true ↔ status_is 204 (session vpn rq) = true.
Proof.
  unfold expect_204, status_is. destruct (session vpn rq) as [|status payload]; [done|].
  split; [by intros [= ->]|by intros ->].
Qed.

(** C6 (remote delete first).  [server_key_delete] changes storage only
    when the remote delete was answered with status 204, and then it
    removes exactly the row of that key; when the remote delete is
    answered with any other status, storage is left as it was and the
    call returns [False]. *)
Theorem server_key_delete_after_remote (http : transport) (db : Store)
    (server_ip key_id : option Z) :
  let out := server_key_delete http db server_ip key_id in
  (out.2 ≠ db →
     ∃ ip id server payload,
       server_ip = Some ip ∧ key_id = Some id
       ∧ server_read db (Some ip) = Some server
       ∧ http (delete_key_request (new_OutlineVPN (url server) http) id)
         = Response 204 payload
       ∧ out.2 = with_server_key db (delete (ip, id) (server_key db)))
  ∧ (∀ ip id server status payload,
       server_ip = Some ip → key_id = Some id →
       server_read db (Some ip) = Some server →
       http (delete_key_request (new_OutlineVPN (url server) http) id)
       = Response status payload →
       status ≠ 204 →
       out = (Returns false, db)).
Proof.
  intros out. subst out. split.
  - unfold server_key_delete.
    destruct server_ip as [ip|]; [|by destruct (truthy_int key_id)].
    cbn [bool_decide is_Some negb andb]. rewrite bool_decide_eq_true_2 by eauto.
    cbn [negb andb].
    destruct (server_read db (Some ip)) as [server|] eqn:Hsrv; [|done].
    destruct key_id as [id|]; [|done].
    unfold delete_key, expect_204. cbn [session new_OutlineVPN].
    destruct (http _) as [|status payload] eqn:Hrq; [done|].
    case_bool_decide as Hst; [|done].
    intros _. exists ip, id, server, payload. by rewrite <- Hst.
  - intros ip id server status payload -> -> Hsrv Hrq Hst.
    unfold server_key_delete. rewrite bool_decide_eq_true_2 by eauto.
    cbn [negb andb]. rewrite Hsrv.
    unfold delete_key, expect_204. cbn [session new_OutlineVPN]. rewrite Hrq.
    by rewrite bool_decide_eq_false_2.
Qed.

(** When the remote side refuses, the row stays; when it accepts, the
    row goes. *)
Example server_key_delete_refused :
  server_key_delete http_refuses db0 (Some edge1_ip) (Some 2) = (Returns false, db0).
Proof. vm_compute. reflexivity. Qed.

Example server_key_delete_accepted :
  let out := server_key_delete http_accepts db0 (Some edge1_ip) (Some 2) in
  out.1 = Returns true
  ∧ server_key out.2 !! (edge1_ip, 2) = None
  ∧ server_key out.2 !! (edge1_ip, 1) = server_key db0 !! (edge1_ip, 1).
Proof. cbv zeta. repeat split; vm_compute; reflexivity. Qed.

(** With a session that refuses the request, the call raises. *)
Lemma add_data_limit_unsent (vpn : OutlineVPN) (key_id limit_bytes : Z) :
  session vpn (add_data_limit_request vpn key_id limit_bytes) = ConnectionError →
  add_data_limit vpn key_id limit_bytes = Raises ClientError.
Proof. intros Hrq. unfold add_data_limit, expect_204. by rewrite Hrq. Qed.

(** The request of [add_data_limit] does not depend on the server. *)
Lemma add_data_limit_request_fixed (vpn : OutlineVPN) (key_id limit_bytes : Z) :
  add_data_limit_request vpn key_id limit_bytes
  = Request PUT ("self.__keys_url/" +:+ pretty key_id +:+ "/data-limit")
                (LimitJson limit_bytes).
Proof. reflexivity. Qed.

Lemma add_data_limit_true (vpn : OutlineVPN) (key_id limit_bytes : Z) :
  add_data_limit vpn key_id limit_bytes = Returns true
  ↔ status_is 204 (session vpn (add_data_limit_request vpn key_id limit_bytes)) = true.
Proof. apply expect_204_true. Qed.

(** C9 at key 5 with a limit of 1000 bytes, on the server at
    [https://mgmt.example/abc]: the PUT goes to the text
    [self.__keys_url/5/data-limit], not to
    [/access-keys/5/data-limit] under the management URL; a server that
    answers 204 at the documented path is never asked, and the call
    reports failure. *)
Theorem add_data_limit_wrong_url :
  let vpn := new_OutlineVPN "https://mgmt.example/abc" http_limit in
  add_data_limit_request vpn 5 1000
  = Request PUT "self.__keys_url/5/data-limit" (LimitJson 1000)
  ∧ rq_url (add_data_limit_request vpn 5 1000)
    ≠ api_url vpn +:+ "/access-keys/5/data-limit"
  ∧ status_is 204
      (http_limit (Request PUT (api_url vpn +:+ "/access-keys/5/data-limit")
                           (LimitJson 1000))) = true
  ∧ add_data_limit vpn 5 1000 = Returns false.
Proof.
  cbv zeta. split; [vm_compute; reflexivity|].
  split; [vm_compute; discriminate|].
  split; vm_compute; reflexivity.
Qed.

End KeyOperations.

Module ServerList.

Lemma select_none (db : Models.Store) (criteria : list bool) :
  false ∈ criteria → select_outline_server criteria db = [].
Proof.
  intros Hin. unfold select_outline_server.
  assert (Hnil : filter (λ _ : server_row, Forall Is_true criteria)
                   (map_to_list (outline_server db)) = []).
  { apply elem_of_nil_inv. intros r [Hall _]%list_elem_of_filter.
    rewrite Forall_forall in Hall. by apply (Hall false). }
  by rewrite Hnil.
Qed.

Lemma select_all (db : Models.Store) :
  select_outline_server [] db
  = (λ r : server_row, loaded r.1 r) <$> map_to_list (outline_server db).
Proof.
  unfold select_outline_server. f_equal.
  induction (map_to_list (outline_server db)) as [|r l IH]; [done|].
  rewrite filter_cons_True by constructor. by rewrite IH.
Qed.

(** C10, amended.  Whatever storage holds, [servers_list] returns the
    empty list for mode 'active' and for mode 'inactive': the condition
    given to [where] is the Python value of
    [OutlineServer.is_active is True] (or [is False]), which is [False]
    before any row is looked at.  Every other mode, 'all', no mode, the
    empty mode, or any other text such as the docstring's 'nonactive',
    adds no condition: the result has one element for every row of
    [outline_server], the server, or [None] for the row of 0.0.0.0. *)
Theorem servers_list_constant_filter (db : Models.Store) (mode : option string) :
  py_is OutlineServer_is_active PyTrue = false
  ∧ py_is OutlineServer_is_active PyFalse = false
  ∧ servers_list db mode
    = (if bool_decide (mode = Some "active" ∨ mode = Some "inactive") then []
       else (λ r : server_row, loaded r.1 r) <$> map_to_list (outline_server db))
  ∧ length (servers_list db mode)
    = (if bool_decide (mode = Some "active" ∨ mode = Some "inactive") then 0%nat
       else size (outline_server db)).
Proof.
  split; [done|]. split; [done|].
  assert (Heq : servers_list db mode
    = (if bool_decide (mode = Some "active" ∨ mode = Some "inactive") then []
       else (λ r : server_row, loaded r.1 r) <$> map_to_list (outline_server db))).
  { unfold servers_list. destruct mode as [m|].
    - destruct (decide (m = EmptyString)) as [->|Hm].
      { rewrite (bool_decide_eq_true_2 (EmptyString = EmptyString)) by done.
        rewrite (bool_decide_eq_false_2 ("all" = "active")) by done.
        rewrite (bool_decide_eq_false_2 ("all" = "inactive")) by done.
        rewrite (bool_decide_eq_false_2 (_ ∨ _)) by (by intros [?|?]). apply select_all. }
      rewrite (bool_decide_eq_false_2 (m = EmptyString)) by done.
      destruct (decide (m = "active")) as [->|Ha].
      { rewrite (bool_decide_eq_true_2 ("active" = "active")) by done.
        rewrite (bool_decide_eq_true_2 (_ ∨ _)) by (by left). apply select_none. left. }
      rewrite (bool_decide_eq_false_2 (m = "active")) by done.
      destruct (decide (m = "inactive")) as [->|Hi].
      { rewrite (bool_decide_eq_true_2 ("inactive" = "inactive")) by done.
        rewrite (bool_decide_eq_true_2 (_ ∨ _)) by (by right). apply select_none. left. }
      rewrite (bool_decide_eq_false_2 (m = "inactive")) by done.
      rewrite (bool_decide_eq_false_2 (_ ∨ _)) by (intros [H|H]; congruence).
      apply select_all.
    - rewrite (bool_decide_eq_false_2 ("all" = "active")) by done.
      rewrite (bool_decide_eq_false_2 ("all" = "inactive")) by done.
      rewrite (bool_decide_eq_false_2 (_ ∨ _)) by (by intros [?|?]). apply select_all. }
  split; [done|]. rewrite Heq. case_bool_decide; [done|].
  by rewrite length_fmap, length_map_to_list.
Qed.

(** C10, as stated, fails: 'all' is not the only mode that returns
    servers.  With the mode 'nonactive', the word the docstring uses,
    no condition is added and the server of the sample storage is
    returned. *)
Lemma servers_list_nonactive_returns :
  servers_list Examples.db0 (Some "nonactive") = [Some (Examples.edge1_ip, Examples.edge1)]
  ∧ ¬ (∀ (db : Models.Store) (mode : option string),
         servers_list db mode ≠ [] →
         mode = None ∨ mode = Some EmptyString ∨ mode = Some "all").
Proof.
  assert (Hrun : servers_list Examples.db0 (Some "nonactive")
                 = [Some (Examples.edge1_ip, Examples.edge1)]) by (vm_compute; reflexivity).
  split; [done|]. intros Honly.
  destruct (Honly Examples.db0 (Some "nonactive")) as [?|[?|?]]; [by rewrite Hrun|done..].
Qed.

Example servers_list_active_sample :
  servers_list Examples.db0 (Some "active") = []
  ∧ servers_list Examples.db0 None = [Some (Examples.edge1_ip, Examples.edge1)].
Proof. split; vm_compute; reflexivity. Qed.

End ServerList.

(* ===================================================================== *)
(** * Properties of the new-server conversation *)
(* ===================================================================== *)

Module Conversation.
Import ManageServer Examples.

Section Carry.

Context {IPAddress : Type}.
Variable ip_address : string → option IPAddress.
Variable ip_str : IPAddress → string.
Variable strip : string → string.

Lemma new_server_clears (ctx : FSMContext) :
  context (new_server ctx) = {| current_state := Some enter_name; data := ∅ |}.
Proof. reflexivity. Qed.

Lemma enter_server_name_stores (text : string) (ctx : FSMContext) :
  let t := enter_server_name strip text ctx in
  current_state (context t) = Some enter_ip
  ∧ data (context t) !! "server_name" = Some (strip text).
Proof. split; [done|]. apply lookup_insert_eq. Qed.

(** C7.  In state [enter_ip] with a pending [server_name]: a text that
    does not read as an address is answered with the re-prompt, leaves
    the state [enter_ip] and leaves the pending data as they were (the
    name stays, no [server_ip] is stored); a text that reads as an
    address stores its canonical form under [server_ip], keeps the
    name, and moves to [enter_url]. *)
Theorem enter_server_ip_carry_over (text name : string) (ctx : FSMContext) :
  current_state ctx = Some enter_ip →
  data ctx !! "server_name" = Some name →
  let t := enter_server_ip ip_address ip_str text ctx in
  ended t = Returns ()
  ∧ (ip_address text = None →
       current_state (context t) = Some enter_ip
       ∧ data (context t) = data ctx
       ∧ data (context t) !! "server_name" = Some name
       ∧ answers t = ["Wrong IP address. " +:+ nl
                      +:+ "Please enter correct server IP address."])
  ∧ (∀ server_ip, ip_address text = Some server_ip →
       current_state (context t) = Some enter_url
       ∧ data (context t) = <["server_ip" := ip_str server_ip]> (data ctx)
       ∧ data (context t) !! "server_name" = Some name
       ∧ data (context t) !! "server_ip" = Some (ip_str server_ip)).
Proof.
  intros Hst Hname t. subst t. unfold enter_server_ip.
  destruct (ip_address text) as [a|].
  - rewrite Hname. cbn. split; [done|]. split; [done|].
    intros server_ip [= <-]. split; [done|]. split; [done|].
    split; [by rewrite lookup_insert_ne|apply lookup_insert_eq].
  - cbn. split; [done|]. split; [done|]. by intros.
Qed.

End Carry.

Lemma enter_server_ip_carry_over_witness :
  (current_state named = Some enter_ip
   ∧ data named !! "server_name" = Some "MyServer")
  ∧ (let t := enter_server_ip ipv4_address ipv4_str "999.999.999.999" named in
     ended t = Returns ()
     ∧ (ipv4_address "999.999.999.999" = None →
          current_state (context t) = Some enter_ip
          ∧ data (context t) = data named
          ∧ data (context t) !! "server_name" = Some "MyServer"
          ∧ answers t = ["Wrong IP address. " +:+ nl
                         +:+ "Please enter correct server IP address."])
     ∧ (∀ server_ip, ipv4_address "999.999.999.999" = Some server_ip →
          current_state (context t) = Some enter_url
          ∧ data (context t) = <["server_ip" := ipv4_str server_ip]> (data named)
          ∧ data (context t) !! "server_name" = Some "MyServer"
          ∧ data (context t) !! "server_ip" = Some (ipv4_str server_ip)))
  ∧ (let t := enter_server_ip ipv4_address ipv4_str "10.0.0.5" named in
     ended t = Returns ()
     ∧ (ipv4_address "10.0.0.5" = None →
          current_state (context t) = Some enter_ip
          ∧ data (context t) = data named
          ∧ data (context t) !! "server_name" = Some "MyServer"
          ∧ answers t = ["Wrong IP address. " +:+ nl
                         +:+ "Please enter correct server IP address."])
     ∧ (∀ server_ip, ipv4_address "10.0.0.5" = Some server_ip →
          current_state (context t) = Some enter_url
          ∧ data (context t) = <["server_ip" := ipv4_str server_ip]> (data named)
          ∧ data (context t) !! "server_name" = Some "MyServer"
          ∧ data (context t) !! "server_ip" = Some (ipv4_str server_ip))).
Proof.
  assert (H1 : current_state named = Some enter_ip) by reflexivity.
  assert (H2 : data named !! "server_name" = Some "MyServer") by (vm_compute; reflexivity).
  split; [by split|]. split.
  - exact (enter_server_ip_carry_over ipv4_address ipv4_str "999.999.999.999" "MyServer"
             named H1 H2).
  - exact (enter_server_ip_carry_over ipv4_address ipv4_str "10.0.0.5" "MyServer"
             named H1 H2).
Defined.

(** The carry-over scenario, run: name, a bad address, a good one. *)
Example carry_over_scenario :
  let bad := enter_server_ip ipv4_address ipv4_str "999.999.999.999" named in
  let good := enter_server_ip ipv4_address ipv4_str "10.0.0.5" (context bad) in
  current_state (context bad) = Some enter_ip
  ∧ data (context bad) !! "server_name" = Some "MyServer"
  ∧ data (context bad) !! "server_ip" = None
  ∧ current_state (context good) = Some enter_url
  ∧ data (context good) !! "server_name" = Some "MyServer"
  ∧ data (context good) !! "server_ip" = Some "10.0.0.5".
Proof. cbv zeta. repeat split; vm_compute; reflexivity. Qed.

End Conversation.

(* ===================================================================== *)
(** * Properties of the membership tracker *)
(* ===================================================================== *)

Module Tracker.
Import Middleware Examples.

Section ThreeWay.

Variables (db : Middleware.Store) (chat_id user_id : Z).
Hypothesis chat_id_nonzero : chat_id ≠ 0.
Hypothesis user_id_nonzero : user_id ≠ 0.

Lemma chat_member_read_row (db1 : Middleware.Store) :
  chat_member_read chat_id user_id db1
  = (Returns (chat_member db1 !! (chat_id, user_id)), db1).
Proof.
  unfold chat_member_read, nonzero. by rewrite !bool_decide_eq_false_2.
Qed.

(** Present remotely, absent locally: the row is created with the
    remote status. *)
Lemma track_sender_creates (status : string) :
  chat_member db !! (chat_id, user_id) = None →
  status ≠ EmptyString →
  is_Some (chat db !! chat_id) → is_Some (user db !! user_id) →
  track_sender chat_id user_id (Some status) db
  = (Returns (Some status),
     {| user := user db; chat := chat db;
        chat_member := <[(chat_id, user_id) := status]> (chat_member db) |}).
Proof.
  intros Hrow Hst [c Hc] [u Hu]. unfold track_sender.
  unfold mbind, io_bind. rewrite chat_member_read_row, Hrow. cbn.
  unfold chat_member_create, nonzero, nonempty.
  rewrite !bool_decide_eq_false_2 by done. cbn.
  unfold mbind, io_bind. cbn. rewrite Hrow, Hc, Hu. cbn.
  rewrite chat_member_read_row. cbn. by rewrite lookup_insert_eq.
Qed.

(** Absent remotely, present locally: the row is deleted. *)
Lemma track_sender_deletes (old : string) :
  chat_member db !! (chat_id, user_id) = Some old →
  track_sender chat_id user_id None db
  = (Returns None,
     {| user := user db; chat := chat db;
        chat_member := delete (chat_id, user_id) (chat_member db) |}).
Proof.
  intros Hrow. unfold track_sender.
  unfold mbind, io_bind. rewrite chat_member_read_row, Hrow. cbn.
  unfold chat_member_delete, nonzero.
  rewrite !bool_decide_eq_false_2 by done. cbn.
  unfold mbind, io_bind. cbn.
  rewrite chat_member_read_row. cbn. by rewrite lookup_delete_eq.
Qed.

(** Present on both sides: the status is overwritten. *)
Lemma track_sender_updates (old status : string) :
  chat_member db !! (chat_id, user_id) = Some old →
  track_sender chat_id user_id (Some status) db
  = (Returns (Some status),
     {| user := user db; chat := chat db;
        chat_member := <[(chat_id, user_id) := status]> (chat_member db) |}).
Proof.
  intros Hrow. unfold track_sender.
  unfold mbind, io_bind. rewrite chat_member_read_row, Hrow. cbn.
  unfold chat_member_update, nonzero.
  rewrite !bool_decide_eq_false_2 by done. cbn.
  unfold mbind, io_bind. cbn.
  rewrite chat_member_read_row. cbn. rewrite lookup_alter_eq, Hrow. cbn.
  do 3 f_equal. apply map_eq. intros pk. rewrite lookup_alter, lookup_insert.
  case_decide; [subst; by rewrite Hrow|done].
Qed.

(** Absent on both sides: the [else] branch reads the status of
    [None]. *)
Lemma track_sender_absent_both :
  chat_member db !! (chat_id, user_id) = None →
  track_sender chat_id user_id None db = (Raises AttributeError, db).
Proof.
  intros Hrow. unfold track_sender.
  unfold mbind, io_bind. by rewrite chat_member_read_row, Hrow.
Qed.

Lemma track_bot_absent_both :
  chat_member db !! (chat_id, user_id) = None →
  track_bot chat_id user_id None db = (Raises AttributeError, db).
Proof.
  intros Hrow. unfold track_bot.
  unfold mbind, io_bind. by rewrite chat_member_read_row, Hrow.
Qed.
End ThreeWay.

(** C5 at a message from a group whose member list cannot be read, for
    a sender without a membership row: the claim asks for a no-op that
    lets the message through; [pre_process] raises [AttributeError]
    after it has stored the user and the chat, and the handlers never
    see the message. *)
Theorem pre_process_absent_both_raises :
  tg_chat_type (msg_chat blind_message) ≠ "private"
  ∧ get_member blind_message (tg_id (from_user blind_message)) = None
  ∧ chat_member tracker_db !! (tg_chat_id (msg_chat blind_message),
                                tg_id (from_user blind_message)) = None
  ∧ (pre_process (IsMessage blind_message) tracker_db).1 = Raises AttributeError
  ∧ chat_member (pre_process (IsMessage blind_message) tracker_db).2
    = chat_member tracker_db.
Proof.
  split; [discriminate|]. split; [reflexivity|].
  split; [reflexivity|]. split; vm_compute; reflexivity.
Qed.

End Tracker.

(* ===================================================================== *)
(** * Further properties: the VPN client *)
(* ===================================================================== *)

Module ClientFacts.

Lemma collect_keys_returns (m : json_doc) (raws : list raw_key) (ks : list OutlineKey) :
  collect_keys m raws = Returns ks
  ↔ (raws = [] ∧ ks = [])
    ∨ ∃ ks0 table, m = JObject ks0 (Some table) ∧ Forall2 (key_of_raw table) raws ks.
Proof.
  revert ks. induction raws as [|raw raws IH]; intros ks; simpl.
  - split.
    + intros [= <-]. by left.
    + intros [[_ ->]|(ks0 & table & _ & H)]; [done|]. by apply Forall2_nil_inv_l in H as ->.
  - unfold outline_key_of.
    destruct (rk_id raw) as [id|] eqn:Hid.
    2:{ split; [done|]. intros [[? _]|(ks0 & table & _ & H)]; [done|].
        apply Forall2_cons_inv_l in H as (k & ks' & (Hk & _) & _ & _). congruence. }
    destruct m as [|ks0 [table|]].
    1,3: split; [done|]; intros [[? _]|(? & ? & ? & _)]; done.
    cbn. destruct (collect_keys (JObject ks0 (Some table)) raws) as [ks1|e] eqn:Hc; cbn.
    + split.
      * intros [= <-]. right. exists ks0, table. split; [done|].
        constructor; [by repeat split|].
        destruct (proj1 (IH ks1) eq_refl) as [[-> ->]|(? & ? & [= <- <-] & H)]; [constructor|done].
      * intros [[? _]|(? & ? & [= <- <-] & H)]; [done|].
        apply Forall2_cons_inv_l in H as (k & ks' & Hk & H & ->).
        assert (Hks : Returns ks1 = Returns ks').
        { apply IH. right. eauto. }
        injection Hks as ->. f_equal. f_equal.
        destruct k, Hk as (Hk1 & Hk2 & Hk3 & Hk4 & Hk5 & Hk6 & Hk7). simpl in *.
        rewrite Hid in Hk1. injection Hk1 as ->. by subst.
    + split; [done|]. intros [[? _]|(? & ? & [= <- <-] & H)]; [done|].
      apply Forall2_cons_inv_l in H as (k & ks' & Hk & H & ->).
      assert (Hks : Raises e = Returns ks') by (apply IH; right; eauto). done.
Qed.

(** X1.  [get_keys] returns a list of keys exactly when both GET requests
    are answered with status 200, the first body holds ["accessKeys"],
    the second is a non-empty object, and every listed key becomes one
    [OutlineKey], in order, with the fields of its JSON element and the
    bytes the metrics table has under its id (0 when it has none).  The
    table itself may be missing only if no key is listed. *)
Theorem get_keys_returns_iff (vpn : OutlineVPN) (ks : list OutlineKey) :
  get_keys vpn = Returns ks
  ↔ ∃ raws m1 m2 tbl,
      session vpn (Request GET (keys_url vpn) NoJson)
      = Response 200 (Body (JObject (Some raws) m1))
      ∧ session vpn (Request GET (metrics_url vpn) NoJson)
        = Response 200 (Body (JObject m2 tbl))
      ∧ ((raws = [] ∧ ks = [])
         ∨ ∃ table, tbl = Some table ∧ Forall2 (key_of_raw table) raws ks).
Proof.
  unfold get_keys, get_transferred_data, get_json. split.
  - destruct (session vpn (Request GET (keys_url vpn) NoJson)) as [|st1 p1]; [done|].
    case_bool_decide as H1; [subst st1|done].
    destruct p1 as [| |[|[raws|] m1]]; try done. cbn.
    destruct (session vpn (Request GET (metrics_url vpn) NoJson)) as [|st2 p2]; [done|].
    case_bool_decide as H2; [subst st2|done].
    destruct p2 as [| |[|m2 tbl]]; try done. cbn.
    intros Hc. exists raws, m1, m2, tbl. split; [done|]. split; [done|].
    apply collect_keys_returns in Hc as [?|(? & table & [= _ ->] & H)]; [by left|].
    right. eauto.
  - intros (raws & m1 & m2 & tbl & -> & -> & H). cbn.
    apply collect_keys_returns. destruct H as [?|(table & Ht & H)]; [by left|].
    subst tbl. right. eauto.
Qed.

Lemma string_cons_app (x : Ascii.ascii) (a b : string) :
  String x a +:+ b = String x (a +:+ b).
Proof. reflexivity. Qed.

Lemma string_nil_app (b : string) : EmptyString +:+ b = b.
Proof. reflexivity. Qed.

Lemma string_app_assoc (a b c : string) : (a +:+ b) +:+ c = a +:+ (b +:+ c).
Proof.
  induction a as [|x a IH]; [done|]. rewrite !string_cons_app. by rewrite IH.
Qed.

Lemma string_cons_ne (x : Ascii.ascii) (s : string) : String x s ≠ s.
Proof.
  intros H. apply (f_equal String.length) in H. simpl in H. lia.
Qed.

(** X2.  [delete_key] and [rename_key] append ["/{key_id}"] to a keys URL
    that already ends in a slash: the request goes to
    [<api_url>/access-keys//<id>] (and [.../name]), never to the path
    with a single slash. *)
Theorem key_requests_doubled_slash (api : string) (http : transport) (id : Z)
    (new_name : string) :
  let vpn := new_OutlineVPN api http in
  rq_url (delete_key_request vpn id) = api +:+ "/access-keys//" +:+ pretty id
  ∧ rq_url (delete_key_request vpn id) ≠ api +:+ "/access-keys/" +:+ pretty id
  ∧ rq_url (rename_key_request vpn id new_name)
    = api +:+ "/access-keys//" +:+ pretty id +:+ "/name"
  ∧ rq_url (rename_key_request vpn id new_name)
    ≠ api +:+ "/access-keys/" +:+ pretty id +:+ "/name".
Proof.
  cbv zeta. unfold delete_key_request, rename_key_request. cbn [rq_url keys_url new_OutlineVPN].
  rewrite !string_app_assoc, !string_cons_app, !string_nil_app. split; [done|]. split.
  - intros H%(inj (String.append api)). injection H as H. by apply string_cons_ne in H.
  - split; [done|]. intros H%(inj (String.append api)). injection H as H.
    destruct (pretty id) as [|c p] eqn:E.
    + discriminate.
    + rewrite !string_cons_app in H. by apply string_cons_ne in H.
Qed.

End ClientFacts.

(* ===================================================================== *)
(** * Further properties: reconciliation *)
(* ===================================================================== *)

Module SyncMore.
Import SyncFacts Examples.

(** ** Statements stay with their server *)

Lemma insert_rows_frame (ip : Z) (rows : list key_row) (db db' : Models.Store) :
  Forall (λ r : key_row, row_server_ip r = ip) rows →
  insert_rows rows db = Returns db' →
  outline_server db' = outline_server db
  ∧ ∀ pk : Z * Z, pk.1 ≠ ip → server_key db' !! pk = server_key db !! pk.
Proof.
  revert db. induction rows as [|r rows IH]; intros db Hall Hrun; simpl in Hrun.
  - by injection Hrun as <-.
  - apply Forall_cons in Hall as [Hr Hall]. unfold insert_row in Hrun.
    case_bool_decide; [done|]. case_bool_decide; [done|]. cbn in Hrun.
    destruct (IH _ Hall Hrun) as [Hs Hk]. split; [done|].
    intros pk Hpk. rewrite (Hk pk Hpk). cbn. apply lookup_insert_ne.
    intros Heq. apply Hpk. rewrite <- Heq. exact Hr.
Qed.

Lemma execute_frame (ip : Z) (s : statement) (db db' : Models.Store) :
  targets ip s → execute s db = Returns db' →
  outline_server db' = outline_server db
  ∧ ∀ pk : Z * Z, pk.1 ≠ ip → server_key db' !! pk = server_key db !! pk.
Proof.
  destruct s as [rows|ip' id|ip' id values]; simpl.
  - apply insert_rows_frame.
  - intros -> [= <-]. split; [done|]. intros pk Hpk. cbn. apply lookup_delete_ne.
    intros <-. by apply Hpk.
  - intros -> [= <-]. split; [done|]. intros pk Hpk. cbn. apply lookup_alter_ne.
    intros <-. by apply Hpk.
Qed.

Lemma run_statements_frame (ip : Z) (stmts : list statement) (db db' : Models.Store) :
  Forall (targets ip) stmts →
  (run_statements stmts db).2 = Returns db' →
  outline_server db' = outline_server db
  ∧ ∀ pk : Z * Z, pk.1 ≠ ip → server_key db' !! pk = server_key db !! pk.
Proof.
  revert db. induction stmts as [|s stmts IH]; intros db Hall Hrun; simpl in Hrun.
  - by injection Hrun as <-.
  - apply Forall_cons in Hall as [Hs Hall].
    destruct (execute s db) as [db1|e] eqn:E; [|done].
    destruct (run_statements stmts db1) as [sent r] eqn:E1. simpl in Hrun.
    destruct (execute_frame _ _ _ _ Hs E) as [Hs1 Hk1].
    destruct (IH db1 Hall) as [Hs2 Hk2]; [by rewrite E1|].
    split; [congruence|]. intros pk Hpk. by rewrite Hk2, Hk1.
Qed.

Lemma sync_statements_targets (ip : Z) (vpn_keys dbk : list OutlineKey) :
  Forall (targets ip) (sync_statements ip vpn_keys dbk).
Proof.
  unfold sync_statements. rewrite !Forall_app. split; [|split].
  - case_bool_decide; [constructor|]. constructor; [|constructor]. simpl.
    unfold insert_values. apply Forall_fmap, Forall_true. done.
  - apply Forall_fmap, Forall_true. done.
  - apply Forall_fmap, Forall_true. done.
Qed.

(** X3.  Whatever the remote server answers, [server_key_sync] leaves the
    table [outline_server] as it was and touches no key row of another
    server. *)
Theorem server_key_sync_frame (http : transport) (db : Models.Store) (server_ip : option Z) :
  let run := server_key_sync http db server_ip in
  outline_server (stored run) = outline_server db
  ∧ ∀ ip id, server_ip ≠ Some ip →
      server_key (stored run) !! (ip, id) = server_key db !! (ip, id).
Proof.
  cbv zeta. unfold server_key_sync.
  destruct server_ip as [sip|]; [|done].
  destruct (server_read db (Some sip)) as [server|]; [|done].
  unfold sync_try. destruct (get_keys _) as [vpn_keys|e]; [|done].
  destruct (run_statements _ db) as [sent [db1|e]] eqn:E; [|done]. cbn.
  destruct (run_statements_frame sip (sync_statements sip vpn_keys (db_keys db sip)) db db1)
    as [Hs Hk]; [apply sync_statements_targets|by rewrite E|].
  split; [done|]. intros ip id Hne. apply (Hk (ip, id)). cbn. congruence.
Qed.

(** ** A refused insert undoes the session *)

Lemma insert_rows_fresh (rows : list key_row) (db db' : Models.Store) :
  insert_rows rows db = Returns db' →
  NoDup rows.*1 ∧ ∀ r : key_row, r ∈ rows → server_key db !! r.1 = None.
Proof.
  revert db. induction rows as [|r rows IH]; intros db Hrun; simpl in Hrun.
  - split; [constructor|]. intros r Hr. by apply elem_of_nil in Hr.
  - unfold insert_row in Hrun.
    case_bool_decide as Hr; [done|]. case_bool_decide; [done|]. cbn in Hrun.
    destruct (IH _ Hrun) as [Hnd Hfresh]. cbn in Hfresh.
    assert (Hnin : r.1 ∉ rows.*1).
    { intros (r' & Heq & Hr')%list_elem_of_fmap.
      specialize (Hfresh r' Hr'). rewrite <- Heq, lookup_insert_eq in Hfresh. done. }
    split; [rewrite fmap_cons; by constructor|].
    intros r' [->|Hr']%elem_of_cons.
    + apply eq_None_not_Some. done.
    + specialize (Hfresh r' Hr'). rewrite lookup_insert_ne in Hfresh; [done|].
      intros Heq. apply Hnin. rewrite Heq. by apply list_elem_of_fmap_2.
Qed.

(** X4.  When the remote server lists two different keys under one id
    that storage does not have yet, the one INSERT of the session is
    refused: it is the only statement sent, the session is not committed,
    storage is unchanged, and the function returns the keys as they were
    persisted. *)
Theorem server_key_sync_clash_rolls_back (http : transport) (db : Models.Store) (ip : Z)
    (server : OutlineServer) (vpn_keys : list OutlineKey) (k1 k2 : OutlineKey) :
  server_read db (Some ip) = Some server →
  get_keys (new_OutlineVPN (url server) http) = Returns vpn_keys →
  k1 ∈ vpn_keys → k2 ∈ vpn_keys → k1 ≠ k2 → key_id k1 = key_id k2 →
  server_key db !! (ip, key_id k1) = None →
  let run := server_key_sync http db (Some ip) in
  stored run = db
  ∧ returned run = SyncKeys (server_key_list db (Some ip))
  ∧ issued run = [InsertKeys (insert_values ip vpn_keys (db_keys db ip))].
Proof.
  intros Hsrv Hget H1 H2 Hne Hid Hfree. cbv zeta.
  unfold server_key_sync, sync_try. rewrite Hsrv, Hget.
  assert (Hnid : key_id k1 ∉ key_id <$> db_keys db ip).
  { intros [c Hc]%elem_of_db_key_ids. congruence. }
  assert (Hi1 : k1 ∈ keys_to_insert vpn_keys (db_keys db ip))
    by by apply elem_of_keys_to_insert.
  assert (Hi2 : k2 ∈ keys_to_insert vpn_keys (db_keys db ip)).
  { apply elem_of_keys_to_insert. split; [done|]. by rewrite <- Hid. }
  unfold sync_statements. case_bool_decide as Hnil.
  { exfalso. unfold insert_values in Hnil. apply fmap_nil_inv in Hnil.
    rewrite Hnil in Hi1. by apply elem_of_nil in Hi1. }
  change ([InsertKeys ?v] ++ ?rest) with (InsertKeys v :: rest).
  cbn [run_statements execute].
  destruct (insert_rows _ db) as [db1|e] eqn:E; [|done].
  exfalso. apply insert_rows_fresh in E as [Hnd _].
  unfold insert_values in Hnd. rewrite <- list_fmap_compose in Hnd.
  apply Hne. apply (NoDup_fmap_1 (λ k, (ip, key_id k))) in Hnd as Hnd'.
  assert (Hnd2 : NoDup (key_id <$> keys_to_insert vpn_keys (db_keys db ip))).
  { apply (NoDup_fmap_1 (λ id : Z, (ip, id))). by rewrite <- list_fmap_compose. }
  by apply (key_id_inj_on _ k1 k2 Hnd2).
Qed.

(** ** Reading after a reconciliation *)

(** X5.  After a reconciliation whose fetch succeeded (remote ids
    distinct; id, port and used bytes of every remote key within the
    range of an INTEGER column), [server_key_read] of a remote key id
    yields the remote values of that key, and [server_key_read] of any
    other id yields nothing. *)
Theorem server_key_read_after_sync (http : transport) (db : Models.Store) (ip : Z)
    (server : OutlineServer) (vpn_keys : list OutlineKey) :
  server_read db (Some ip) = Some server →
  get_keys (new_OutlineVPN (url server) http) = Returns vpn_keys →
  NoDup (key_id <$> vpn_keys) →
  Forall storable vpn_keys →
  let db' := stored (server_key_sync http db (Some ip)) in
  (∀ k, k ∈ vpn_keys →
     server_key_read db' (Some ip) (Some (key_id k)) = Some (key_values k))
  ∧ (∀ id, id ∉ key_id <$> vpn_keys → server_key_read db' (Some ip) (Some id) = None).
Proof.
  intros Hsrv Hget Hnd Hrange. cbv zeta.
  rewrite (Reconciliation.server_key_sync_fetched _ _ _ _ _ Hsrv Hget Hnd). cbn.
  split.
  - intros k Hk. by apply sync_table_present.
  - intros id Hid. by apply sync_table_absent.
Qed.

(** ** The list of keys *)


(** ** Instances *)

Import Samples.

Lemma server_key_sync_clash_rolls_back_witness :
  (server_read db0 (Some edge1_ip) = Some edge1
   ∧ get_keys (new_OutlineVPN (url edge1) http_twins) = Returns [dave; erin]
   ∧ dave ∈ [dave; erin] ∧ erin ∈ [dave; erin] ∧ dave ≠ erin
   ∧ key_id dave = key_id erin
   ∧ server_key db0 !! (edge1_ip, key_id dave) = None)
  ∧ let run := server_key_sync http_twins db0 (Some edge1_ip) in
    stored run = db0
    ∧ returned run = SyncKeys (server_key_list db0 (Some edge1_ip))
    ∧ issued run = [InsertKeys (insert_values edge1_ip [dave; erin] (db_keys db0 edge1_ip))].
Proof.
  assert (H1 : server_read db0 (Some edge1_ip) = Some edge1) by reflexivity.
  assert (H2 : get_keys (new_OutlineVPN (url edge1) http_twins) = Returns [dave; erin])
    by (vm_compute; reflexivity).
  assert (H3 : dave ∈ [dave; erin]) by (apply (bool_decide_unpack _); vm_compute; exact I).
  assert (H4 : erin ∈ [dave; erin]) by (apply (bool_decide_unpack _); vm_compute; exact I).
  assert (H5 : dave ≠ erin) by discriminate.
  assert (H6 : key_id dave = key_id erin) by reflexivity.
  assert (H7 : server_key db0 !! (edge1_ip, key_id dave) = None) by (vm_compute; reflexivity).
  split; [by repeat split|].
  exact (server_key_sync_clash_rolls_back http_twins db0 edge1_ip edge1
           [dave; erin] dave erin H1 H2 H3 H4 H5 H6 H7).
Defined.

Lemma server_key_read_after_sync_witness :
  (server_read db0 (Some edge1_ip) = Some edge1
   ∧ get_keys (new_OutlineVPN (url edge1) http_ok) = Returns [alice; carol]
   ∧ NoDup (key_id <$> [alice; carol])
   ∧ Forall storable [alice; carol])
  ∧ let db' := stored (server_key_sync http_ok db0 (Some edge1_ip)) in
    (∀ k, k ∈ [alice; carol] →
       server_key_read db' (Some edge1_ip) (Some (key_id k)) = Some (key_values k))
    ∧ (∀ id, id ∉ key_id <$> [alice; carol] →
         server_key_read db' (Some edge1_ip) (Some id) = None).
Proof.
  assert (H1 : server_read db0 (Some edge1_ip) = Some edge1) by reflexivity.
  assert (H2 : get_keys (new_OutlineVPN (url edge1) http_ok) = Returns [alice; carol])
    by (vm_compute; reflexivity).
  assert (H3 : NoDup (key_id <$> [alice; carol]))
    by (apply (bool_decide_unpack _); vm_compute; exact I).
  assert (H4 : Forall storable [alice; carol])
    by (repeat constructor; unfold sqlite_integer; cbn; lia).
  split; [by repeat split|].
  exact (server_key_read_after_sync http_ok db0 edge1_ip edge1 [alice; carol]
           H1 H2 H3 H4).
Defined.

End SyncMore.

(* ===================================================================== *)
(** * Further properties: the storage calls *)
(* ===================================================================== *)

Module CrudFacts.
Import SyncFacts.

Lemma store_eq (db1 db2 : Models.Store) :
  outline_server db1 = outline_server db2 → server_key db1 = server_key db2 → db1 = db2.
Proof. destruct db1, db2. simpl. by intros -> ->. Qed.

(** X7.  [server_create] with a non-empty url at an address within the
    INTEGER range that has no row yet stores the row, with the server
    defaults 'my server' and active for the columns not given, and
    leaves every other server and all keys as they were.  It returns the
    row as it is read back: the row itself, except at 0.0.0.0, where the
    row is stored and [None] is returned. *)
Theorem server_create_fresh (db : Models.Store) (ip : Z) (address : string)
    (name : option string) (is_active : option bool) :
  address ≠ EmptyString →
  sqlite_integer ip →
  outline_server db !! ip = None →
  let row := {| url := address; server_name := default "my server" name;
                is_active := default true is_active |} in
  let out := server_create db (Some ip) (Some address) name is_active in
  out.1 = Returns (if bool_decide (ip = 0) then None else Some row)
  ∧ outline_server out.2 !! ip = Some row
  ∧ (∀ ip', ip' ≠ ip → outline_server out.2 !! ip' = outline_server db !! ip')
  ∧ server_key out.2 = server_key db.
Proof.
  intros Hurl Hrange Hfree. cbv zeta. unfold server_create, truthy_str.
  rewrite (bool_decide_eq_true_2 (is_Some (Some ip))) by eauto.
  rewrite (bool_decide_eq_false_2 (address = EmptyString)) by done. cbn [negb orb].
  rewrite Hfree. rewrite (bool_decide_eq_false_2 (is_Some None)) by (by intros [? ?]).
  rewrite (bool_decide_eq_true_2 (sqlite_integer ip)) by done. cbn [negb].
  cbn [fst snd]. unfold server_read, loaded. cbn [outline_server with_outline_server].
  rewrite lookup_insert_eq. cbn. split; [done|]. split; [done|]. split; [|done].
  intros ip' Hne. by apply lookup_insert_ne.
Qed.

(** X8.  [server_create] never changes or removes an existing server row
    and never touches the keys: at a taken address it raises
    [IntegrityError] with storage unchanged, and without an address or
    with an empty url it returns [None] with storage unchanged. *)
Theorem server_create_keeps_existing (db : Models.Store) (ip : option Z)
    (address name : option string) (is_active : option bool) :
  let out := server_create db ip address name is_active in
  server_key out.2 = server_key db
  ∧ (∀ ip' row, outline_server db !! ip' = Some row → outline_server out.2 !! ip' = Some row)
  ∧ (∀ ip0, ip = Some ip0 → truthy_str address = true →
       is_Some (outline_server db !! ip0) → out = (Raises IntegrityError, db))
  ∧ (ip = None ∨ truthy_str address = false → out = (Returns None, db)).
Proof.
  cbv zeta. unfold server_create.
  destruct ip as [ip0|]; cbn [bool_decide is_Some negb orb].
  2:{ rewrite bool_decide_eq_false_2 by (by intros [? ?]). cbn. by repeat split. }
  rewrite bool_decide_eq_true_2 by eauto. cbn [negb orb].
  destruct (truthy_str address) eqn:Ht; cbn [negb]; [|by repeat split].
  destruct address as [a|]; [|done].
  case_bool_decide as Hex; [repeat split; try done; by intros [?|?]|].
  destruct (bool_decide (sqlite_integer ip0)); cbn [negb].
  2:{ cbn. split; [done|]. split; [done|].
      split; [by intros ? [= <-] _ ?|by intros [?|?]]. }
  cbn. split; [done|]. split; [|split; [by intros ? [= <-] _ ?|by intros [?|?]]].
  intros ip' row Hrow. rewrite lookup_insert_ne; [done|].
  intros <-. apply Hex. eauto.
Qed.

(** X9.  [server_update] of the url, the name or the active flag of an
    address within the INTEGER range changes that column of the
    addressed row only and leaves every other server and all keys as
    they were.  It returns the row as it is read back afterwards:
    [None] if there is none, and [None] at 0.0.0.0, whose row is changed
    all the same. *)
Theorem server_update_column (db : Models.Store) (pk : Z) (a : server_assignment) :
  (∀ new, a ≠ SetIp new) →
  sqlite_integer pk →
  let out := server_update db (Some pk) a in
  out.1 = Returns (if bool_decide (pk = 0) then None
                   else assign a <$> outline_server db !! pk)
  ∧ outline_server out.2 !! pk = assign a <$> outline_server db !! pk
  ∧ (∀ ip, ip ≠ pk → outline_server out.2 !! ip = outline_server db !! ip)
  ∧ server_key out.2 = server_key db.
Proof.
  intros Ha Hrange. cbv zeta.
  assert (Hrun : server_update db (Some pk) a
                 = (Returns (server_read
                               (with_outline_server db (alter (assign a) pk (outline_server db)))
                               (Some pk)),
                    with_outline_server db (alter (assign a) pk (outline_server db)))).
  { unfold server_update.
    destruct a as [new|u|n|b]; [by destruct (Ha new)|..];
      by rewrite (bool_decide_eq_true_2 (sqlite_integer pk)) by done. }
  rewrite Hrun. cbn [fst snd]. unfold server_read, loaded.
  cbn [outline_server with_outline_server server_key]. rewrite lookup_alter_eq.
  split.
  { destruct (outline_server db !! pk) as [row|]; cbn; by case_bool_decide. }
  split; [done|]. split; [|done].
  intros ip Hne. by apply lookup_alter_ne.
Qed.

(** ** Re-addressing *)


Lemma readdress_keys (old new : Z) (t : gmap (Z * Z) ServerKey) :
  ((λ r : key_row, (if bool_decide (row_server_ip r = old) then (new, row_key_id r) else r.1, r.2))
     <$> map_to_list t).*1 = moved old new <$> (map_to_list t).*1.
Proof. rewrite <- !list_fmap_compose. apply list_fmap_ext. by intros i [pk c]. Qed.

Lemma lookup_readdress_Some (old new : Z) (t : gmap (Z * Z) ServerKey) pk c :
  (∀ id, t !! (new, id) = None) →
  readdress old new t !! pk = Some c ↔ ∃ pk0, t !! pk0 = Some c ∧ moved old new pk0 = pk.
Proof.
  intros Hnew. unfold readdress. rewrite <- elem_of_list_to_map.
  - rewrite list_elem_of_fmap. split.
    + intros ([pk0 c0] & [= -> ->] & Hin). apply elem_of_map_to_list in Hin.
      exists pk0. done.
    + intros (pk0 & Hpk0 & <-). exists (pk0, c). split; [done|].
      by apply elem_of_map_to_list.
  - rewrite readdress_keys. apply NoDup_fmap_2_strong; [|apply NoDup_fst_map_to_list].
    intros pk1 pk2 H1 H2 Heq.
    apply list_elem_of_fmap in H1 as ([[ip1 id1] c1] & -> & H1%elem_of_map_to_list).
    apply list_elem_of_fmap in H2 as ([[ip2 id2] c2] & -> & H2%elem_of_map_to_list).
    unfold moved in Heq. simpl in *.
    repeat case_bool_decide; simplify_eq; try done.
    + by rewrite Hnew in H2.
    + by rewrite Hnew in H1.
Qed.

Lemma lookup_readdress (old new : Z) (t : gmap (Z * Z) ServerKey) (ip id : Z) :
  new ≠ old →
  (∀ id, t !! (new, id) = None) →
  readdress old new t !! (ip, id)
  = if bool_decide (ip = new) then t !! (old, id)
    else if bool_decide (ip = old) then None
    else t !! (ip, id).
Proof.
  intros Hne Hnew. apply option_eq. intros c.
  rewrite lookup_readdress_Some by done. unfold moved.
  case_bool_decide as E1; [subst ip|case_bool_decide as E2; [subst ip|]].
  - split.
    + intros ([ip0 id0] & Hrow & Hm). simpl in Hm.
      case_bool_decide; simplify_eq; [done|]. by rewrite Hnew in Hrow.
    + intros Hrow. exists (old, id). split; [done|]. simpl. by rewrite bool_decide_eq_true_2.
  - split; [|done]. intros ([ip0 id0] & Hrow & Hm). simpl in Hm.
    case_bool_decide; simplify_eq.
  - split.
    + intros ([ip0 id0] & Hrow & Hm). simpl in Hm. case_bool_decide; simplify_eq. done.
    + intros Hrow. exists (ip, id). split; [done|]. simpl. by rewrite bool_decide_eq_false_2.
Qed.

(** X10.  [server_update] to a new, free address within the INTEGER
    range moves the server row to it and, through the foreign key's ON
    UPDATE CASCADE, all of its keys: the old address has neither a row
    nor keys afterwards, the keys of the other servers stay, and every
    key still belongs to a server.  The row is returned as it is read
    back at the new address: [None] when that is 0.0.0.0. *)
Theorem server_update_readdress (db : Models.Store) (old new : Z) (row : OutlineServer) :
  keys_have_servers db →
  outline_server db !! old = Some row →
  new ≠ old →
  sqlite_integer new →
  outline_server db !! new = None →
  let out := server_update db (Some old) (SetIp new) in
  out.1 = Returns (if bool_decide (new = 0) then None else Some row)
  ∧ outline_server out.2 !! new = Some row
  ∧ outline_server out.2 !! old = None
  ∧ (∀ id, server_key out.2 !! (new, id) = server_key db !! (old, id))
  ∧ (∀ id, server_key out.2 !! (old, id) = None)
  ∧ (∀ ip id, ip ≠ old → ip ≠ new → server_key out.2 !! (ip, id) = server_key db !! (ip, id))
  ∧ keys_have_servers out.2.
Proof.
  intros Hfk Hold Hne Hrange Hnew. cbv zeta. unfold server_update. rewrite Hold.
  rewrite (bool_decide_eq_false_2 (new = old)) by done. rewrite Hnew.
  rewrite (bool_decide_eq_false_2 (is_Some None)) by (by intros [? ?]).
  rewrite (bool_decide_eq_true_2 (sqlite_integer new)) by done. cbn [negb fst snd].
  assert (Hnokeys : ∀ id, server_key db !! (new, id) = None).
  { intros id. apply eq_None_not_Some. intros Hs. apply Hfk in Hs.
    rewrite Hnew in Hs. by destruct Hs. }
  unfold server_read, loaded. cbn [outline_server server_key].
  rewrite lookup_insert_eq. cbn. split; [done|]. split; [done|].
  split; [by rewrite lookup_insert_ne, lookup_delete_eq|].
  split.
  { intros id. rewrite lookup_readdress by done. by rewrite bool_decide_eq_true_2. }
  split.
  { intros id. rewrite lookup_readdress by done.
    rewrite bool_decide_eq_false_2 by done. by rewrite bool_decide_eq_true_2. }
  split.
  { intros ip id H1 H2. rewrite lookup_readdress by done.
    by rewrite !bool_decide_eq_false_2. }
  intros ip id. cbn. rewrite lookup_readdress by done.
  repeat case_bool_decide; subst.
  - intros _. rewrite lookup_insert_eq. eauto.
  - by intros [? ?].
  - intros Hs%Hfk. by rewrite lookup_insert_ne, lookup_delete_ne.
Qed.

(** X11.  [server_update] to the address of another existing server
    raises [IntegrityError] and changes nothing. *)
Theorem server_update_address_taken (db : Models.Store) (old new : Z)
    (row other : OutlineServer) :
  outline_server db !! old = Some row →
  new ≠ old →
  outline_server db !! new = Some other →
  server_update db (Some old) (SetIp new) = (Raises IntegrityError, db).
Proof.
  intros Hold Hne Hnew. unfold server_update. rewrite Hold.
  rewrite bool_decide_eq_false_2 by done. rewrite Hnew.
  by rewrite bool_decide_eq_true_2 by eauto.
Qed.

(** ** server_delete *)

Lemma server_key_list_nil (db : Models.Store) (ip : Z) :
  server_key_list db (Some ip) = [] ↔ ∀ id, server_key db !! (ip, id) = None.
Proof.
  split.
  - intros Hnil id. apply eq_None_not_Some. intros [c Hc].
    assert (Hin : (ip, id, c) ∈ server_key_list db (Some ip))
      by by apply elem_of_server_key_list.
    rewrite Hnil in Hin. by apply elem_of_nil in Hin.
  - intros Hno. apply elem_of_nil_inv. intros [[ip' id] c] [Hip Hc]%elem_of_server_key_list.
    unfold row_server_ip in Hip. simpl in *. subst. by rewrite Hno in Hc.
Qed.

(** X12.  [server_delete] returns [True] exactly when the server exists
    and has no keys, and then only its row is gone; a server that still
    has keys is not deleted ([IntegrityError], the foreign key being
    RESTRICT); in every other case storage is unchanged.  Key rows are
    never removed. *)
Theorem server_delete_restricted (db : Models.Store) (ip : Z) :
  let out := server_delete db (Some ip) in
  server_key out.2 = server_key db
  ∧ (∀ ip', ip' ≠ ip → outline_server out.2 !! ip' = outline_server db !! ip')
  ∧ (out.1 = Returns true
     ↔ is_Some (outline_server db !! ip) ∧ ∀ id, server_key db !! (ip, id) = None)
  ∧ (out.1 = Returns true → outline_server out.2 !! ip = None)
  ∧ (out.1 ≠ Returns true → out.2 = db)
  ∧ (is_Some (outline_server db !! ip) → (∃ id, is_Some (server_key db !! (ip, id))) →
       out.1 = Raises IntegrityError).
Proof.
  cbv zeta. unfold server_delete.
  destruct (outline_server db !! ip) as [row|] eqn:Hrow.
  2:{ cbn. split; [done|]. split; [done|]. split; [split; [done|by intros [[? ?] _]]|].
      split; [done|]. split; [done|]. by intros [? ?]. }
  case_bool_decide as Hnil; cbn.
  - rewrite server_key_list_nil in Hnil. split; [done|].
    split; [intros ip' Hne; by apply lookup_delete_ne|].
    split; [split; eauto|]. split; [intros _; apply lookup_delete_eq|].
    split; [done|]. intros _ [id [c Hc]]. by rewrite Hnil in Hc.
  - split; [done|]. split; [done|].
    split; [split; [done|]; intros [_ Hno]; exfalso; by apply Hnil, server_key_list_nil|].
    split; [done|]. done.
Qed.

(** ** server_key_create *)

(** X13.  [server_key_create] changes storage only after the remote
    server created the key, and then by exactly one new row at that
    key's id; when the remote creation raises, the exception is passed
    on with storage unchanged; when the id of the new remote key is
    already persisted, the call raises and storage is unchanged. *)
Theorem server_key_create_needs_remote (http : transport) (post : post_transport)
    (db : Models.Store) (server_ip : option Z) (key_name : option string) :
  let out := server_key_create http post db server_ip key_name in
  (out.2 ≠ db →
     ∃ ip server key row,
       server_ip = Some ip
       ∧ server_read db (Some ip) = Some server
       ∧ create_key (new_OutlineVPN (url server) http) post = Returns key
       ∧ server_key db !! (ip, key_id key) = None
       ∧ out.1 = Returns (Some row)
       ∧ out.2 = with_server_key db (<[(ip, key_id key) := row]> (server_key db)))
  ∧ (∀ ip server e,
       server_ip = Some ip → server_read db (Some ip) = Some server →
       create_key (new_OutlineVPN (url server) http) post = Raises e →
       out = (Raises e, db))
  ∧ (∀ ip server key,
       server_ip = Some ip → server_read db (Some ip) = Some server →
       create_key (new_OutlineVPN (url server) http) post = Returns key →
       is_Some (server_key db !! (ip, key_id key)) →
       out.2 = db ∧ raised out.1 = true).
Proof.
  cbv zeta. unfold server_key_create. split; [|split].
  - destruct server_ip as [ip|]; [|done].
    destruct (server_read db (Some ip)) as [server|] eqn:Hsrv; [|done].
    destruct (create_key _ post) as [key|e] eqn:Hc; [|done].
    set (named := match key_name with
                  | Some new_name => _
                  | None => _ end).
    assert (Hnamed : ∀ k, named = Returns k → key_id k = key_id key).
    { subst named. intros k. destruct key_name as [n|]; [|by intros [= <-]].
      destruct (truthy_str (Some n)); [|by intros [= <-]].
      destruct (rename_key _ _ _) as [[|]|]; cbn; [by intros [= <-]|by intros [= <-]|done]. }
    destruct named as [k|e]; [|done]. specialize (Hnamed k eq_refl).
    unfold insert_row. cbn [fst snd].
    case_bool_decide as Hex; [done|]. case_bool_decide; [done|]. cbn.
    intros _. exists ip, server, key, (key_values k). rewrite Hnamed in *.
    rewrite lookup_insert_eq. repeat split; try done.
    apply eq_None_not_Some. done.
  - intros ip server e -> Hsrv Hc. by rewrite Hsrv, Hc.
  - intros ip server key -> Hsrv Hc Hex. rewrite Hsrv, Hc.
    set (named := match key_name with
                  | Some new_name => _
                  | None => _ end).
    assert (Hnamed : ∀ k, named = Returns k → key_id k = key_id key).
    { subst named. intros k. destruct key_name as [n|]; [|by intros [= <-]].
      destruct (truthy_str (Some n)); [|by intros [= <-]].
      destruct (rename_key _ _ _) as [[|]|]; cbn; [by intros [= <-]|by intros [= <-]|done]. }
    destruct named as [k|e]; [|done]. specialize (Hnamed k eq_refl).
    unfold insert_row. cbn [fst snd]. rewrite Hnamed.
    by rewrite bool_decide_eq_true_2.
Qed.


(** ** server_key_delete: the value it returns *)

(** X15.  For a known server, [server_key_delete] returns [True]
    exactly when the remote DELETE was answered with 204 and the key had
    a persisted row; after a 204 the row is absent even when [False] is
    returned, and no other row is touched. *)
Theorem server_key_delete_returns (http : transport) (db : Models.Store) (ip id : Z)
    (server : OutlineServer) :
  server_read db (Some ip) = Some server →
  let out := server_key_delete http db (Some ip) (Some id) in
  let reply := http (delete_key_request (new_OutlineVPN (url server) http) id) in
  (out.1 = Returns true ↔ status_is 204 reply = true ∧ is_Some (server_key db !! (ip, id)))
  ∧ (∀ pk, pk ≠ (ip, id) → server_key out.2 !! pk = server_key db !! pk)
  ∧ outline_server out.2 = outline_server db
  ∧ (status_is 204 reply = true → server_key out.2 !! (ip, id) = None).
Proof.
  intros Hsrv. cbv zeta. unfold server_key_delete.
  rewrite bool_decide_eq_true_2 by eauto. cbn [negb andb]. rewrite Hsrv.
  unfold delete_key, expect_204, status_is. cbn [session new_OutlineVPN].
  destruct (http _) as [|status payload]; [by repeat split; try done; intros [? _]|].
  case_bool_decide as Hst; cbn.
  - split.
    + split.
      * intros [= Hb]. apply bool_decide_eq_true in Hb. done.
      * intros [_ Hs]. by rewrite bool_decide_eq_true_2.
    + split; [intros pk Hne; by apply lookup_delete_ne|]. split; [done|].
      intros _. apply lookup_delete_eq.
  - repeat split; try done. by intros [? _].
Qed.

(** ** Instances *)

Import Examples Samples.

Lemma server_create_fresh_witness :
  ("https://mgmt.example/new" ≠ EmptyString
   ∧ sqlite_integer spare_ip
   ∧ outline_server db0 !! spare_ip = None)
  ∧ let row := {| url := "https://mgmt.example/new";
                  server_name := default "my server" None;
                  is_active := default true None |} in
    let out := server_create db0 (Some spare_ip) (Some "https://mgmt.example/new") None None in
    out.1 = Returns (if bool_decide (spare_ip = 0) then None else Some row)
    ∧ outline_server out.2 !! spare_ip = Some row
    ∧ (∀ ip', ip' ≠ spare_ip → outline_server out.2 !! ip' = outline_server db0 !! ip')
    ∧ server_key out.2 = server_key db0.
Proof.
  assert (H1 : "https://mgmt.example/new" ≠ EmptyString) by discriminate.
  assert (H2 : sqlite_integer spare_ip) by (unfold sqlite_integer, spare_ip; lia).
  assert (H3 : outline_server db0 !! spare_ip = None) by (vm_compute; reflexivity).
  split; [by repeat split|].
  exact (server_create_fresh db0 spare_ip "https://mgmt.example/new" None None H1 H2 H3).
Defined.

Lemma server_update_column_witness :
  ((∀ new, SetName "Edge-one" ≠ SetIp new)
   ∧ sqlite_integer edge1_ip)
  ∧ let out := server_update db0 (Some edge1_ip) (SetName "Edge-one") in
    out.1 = Returns (if bool_decide (edge1_ip = 0) then None
                     else assign (SetName "Edge-one") <$> outline_server db0 !! edge1_ip)
    ∧ outline_server out.2 !! edge1_ip
      = assign (SetName "Edge-one") <$> outline_server db0 !! edge1_ip
    ∧ (∀ ip, ip ≠ edge1_ip → outline_server out.2 !! ip = outline_server db0 !! ip)
    ∧ server_key out.2 = server_key db0.
Proof.
  assert (H1 : ∀ new, SetName "Edge-one" ≠ SetIp new) by (intros new; discriminate).
  assert (H2 : sqlite_integer edge1_ip) by (unfold sqlite_integer, edge1_ip; lia).
  split; [by split|].
  exact (server_update_column db0 edge1_ip (SetName "Edge-one") H1 H2).
Defined.

Lemma db0_keys_have_servers : keys_have_servers db0.
Proof.
  intros ip id [row Hrow]. unfold db0 in *. cbn in *.
  apply lookup_insert_Some in Hrow as [[[= <- <-] _]|[_ Hrow]].
  { rewrite lookup_insert_eq. eauto. }
  apply lookup_singleton_Some in Hrow as [[= <- <-] _].
  rewrite lookup_insert_eq. eauto.
Qed.

Lemma server_update_readdress_witness :
  (keys_have_servers db0
   ∧ outline_server db0 !! edge1_ip = Some edge1
   ∧ spare_ip ≠ edge1_ip
   ∧ sqlite_integer spare_ip
   ∧ outline_server db0 !! spare_ip = None)
  ∧ let out := server_update db0 (Some edge1_ip) (SetIp spare_ip) in
    out.1 = Returns (if bool_decide (spare_ip = 0) then None else Some edge1)
    ∧ outline_server out.2 !! spare_ip = Some edge1
    ∧ outline_server out.2 !! edge1_ip = None
    ∧ (∀ id, server_key out.2 !! (spare_ip, id) = server_key db0 !! (edge1_ip, id))
    ∧ (∀ id, server_key out.2 !! (edge1_ip, id) = None)
    ∧ (∀ ip id, ip ≠ edge1_ip → ip ≠ spare_ip →
         server_key out.2 !! (ip, id) = server_key db0 !! (ip, id))
    ∧ keys_have_servers out.2.
Proof.
  assert (H2 : outline_server db0 !! edge1_ip = Some edge1) by (vm_compute; reflexivity).
  assert (H3 : spare_ip ≠ edge1_ip) by discriminate.
  assert (H4 : sqlite_integer spare_ip) by (unfold sqlite_integer, spare_ip; lia).
  assert (H5 : outline_server db0 !! spare_ip = None) by (vm_compute; reflexivity).
  split; [by repeat split; try apply db0_keys_have_servers|].
  exact (server_update_readdress db0 edge1_ip spare_ip edge1
           db0_keys_have_servers H2 H3 H4 H5).
Defined.

Lemma server_update_address_taken_witness :
  (outline_server db2 !! edge1_ip = Some edge1
   ∧ edge2_ip ≠ edge1_ip
   ∧ outline_server db2 !! edge2_ip = Some edge2)
  ∧ server_update db2 (Some edge1_ip) (SetIp edge2_ip) = (Raises IntegrityError, db2).
Proof.
  assert (H1 : outline_server db2 !! edge1_ip = Some edge1) by (vm_compute; reflexivity).
  assert (H2 : edge2_ip ≠ edge1_ip) by discriminate.
  assert (H3 : outline_server db2 !! edge2_ip = Some edge2) by (vm_compute; reflexivity).
  split; [by repeat split|].
  exact (server_update_address_taken db2 edge1_ip edge2_ip edge1 edge2 H1 H2 H3).
Defined.


Lemma server_key_delete_returns_witness :
  server_read db0 (Some edge1_ip) = Some edge1
  ∧ let out := server_key_delete http_accepts db0 (Some edge1_ip) (Some 5) in
    let reply := http_accepts (delete_key_request (new_OutlineVPN (url edge1) http_accepts) 5) in
    (out.1 = Returns true
     ↔ status_is 204 reply = true ∧ is_Some (server_key db0 !! (edge1_ip, 5)))
    ∧ (∀ pk, pk ≠ (edge1_ip, 5) → server_key out.2 !! pk = server_key db0 !! pk)
    ∧ outline_server out.2 = outline_server db0
    ∧ (status_is 204 reply = true → server_key out.2 !! (edge1_ip, 5) = None).
Proof.
  assert (H1 : server_read db0 (Some edge1_ip) = Some edge1) by reflexivity.
  split; [done|].
  exact (server_key_delete_returns http_accepts db0 edge1_ip 5 edge1 H1).
Defined.

End CrudFacts.

(* ===================================================================== *)
(** * Further properties: the middleware *)
(* ===================================================================== *)

Module TrackerMore.
Import Middleware Examples.

Lemma mw_store_eq (db1 db2 : Middleware.Store) :
  user db1 = user db2 → chat db1 = chat db2 → chat_member db1 = chat_member db2 → db1 = db2.
Proof. destruct db1, db2. simpl. by intros -> -> ->. Qed.

(** ** [keeps] *)

Lemma keeps_ret {A B} (proj : Middleware.Store → B) (a : A) : keeps proj (mret a).
Proof. done. Qed.

Lemma keeps_raise {A B} (proj : Middleware.Store → B) (e : exn) : keeps proj (raise (A:=A) e).
Proof. done. Qed.

Lemma keeps_bind {A C B} (proj : Middleware.Store → B) (m : io A) (f : A → io C) :
  keeps proj m → (∀ a, keeps proj (f a)) → keeps proj (m ≫= f).
Proof.
  intros Hm Hf db. unfold mbind, io_bind. specialize (Hm db).
  destruct (m db) as [[a|e] db1]; simpl in *; [|done]. by rewrite Hf.
Qed.

Lemma keeps_if {A B} (proj : Middleware.Store → B) (b : bool) (m1 m2 : io A) :
  keeps proj m1 → keeps proj m2 → keeps proj (if b then m1 else m2).
Proof. by destruct b. Qed.

Lemma keeps_get {B} (proj : Middleware.Store → B) : keeps proj get_store.
Proof. done. Qed.

Ltac unfold_io :=
  unfold user_read, user_create, user_update, chat_read, chat_create, chat_update,
    chat_member_read, chat_member_create, chat_member_update, chat_member_delete,
    mbind, io_bind, mret, io_ret, get_store, put_store, raise.

Ltac keeps_prim :=
  intros db; repeat first [progress (unfold_io; cbn) | (case_match; simplify_eq)]; done.

Lemma keeps_user_chat_read id : keeps user (chat_read id).
Proof. keeps_prim. Qed.
Lemma keeps_user_chat_create id v : keeps user (chat_create id v).
Proof. keeps_prim. Qed.
Lemma keeps_user_chat_update id v : keeps user (chat_update id v).
Proof. keeps_prim. Qed.
Lemma keeps_user_member_read c u : keeps user (chat_member_read c u).
Proof. keeps_prim. Qed.
Lemma keeps_user_member_create c u s : keeps user (chat_member_create c u s).
Proof. keeps_prim. Qed.
Lemma keeps_user_member_update c u s : keeps user (chat_member_update c u s).
Proof. keeps_prim. Qed.
Lemma keeps_user_member_delete c u : keeps user (chat_member_delete c u).
Proof. keeps_prim. Qed.
Lemma keeps_user_track_sender c u r : keeps user (track_sender c u r).
Proof.
  unfold track_sender. apply keeps_bind; [apply keeps_user_member_read|]. intros a.
  apply keeps_if; [destruct r; [apply keeps_user_member_create|apply keeps_raise]|].
  apply keeps_if.
  - apply keeps_bind; [apply keeps_user_member_delete|]. intros _.
    apply keeps_user_member_read.
  - destruct r; [apply keeps_user_member_update|apply keeps_raise].
Qed.

Lemma keeps_user_track_bot c u r : keeps user (track_bot c u r).
Proof.
  unfold track_bot. apply keeps_bind; [apply keeps_user_member_read|]. intros a.
  apply keeps_if; [destruct r; [apply keeps_user_member_create|apply keeps_raise]|].
  apply keeps_if.
  - apply keeps_bind; [apply keeps_user_member_delete|]. intros _. apply keeps_ret.
  - destruct r; [apply keeps_user_member_update|apply keeps_raise].
Qed.

(** ** The two halves *)

Lemma io_bind_assoc {A B C} (m : io A) (f : A → io B) (g : B → io C)
    (db : Middleware.Store) :
  (m ≫= (λ x, f x ≫= g)) db = ((m ≫= f) ≫= g) db.
Proof. unfold mbind, io_bind. by destruct (m db) as [[a|e] db1]. Qed.

Lemma pre_process_split (m : Message) (db : Middleware.Store) :
  pre_process (IsMessage m) db = (upsert_sender m ≫= track_chat m) db.
Proof.
  exact (io_bind_assoc (user_read (tg_id (from_user m)))
           (λ db_user : option User,
              if negb (bool_decide (is_Some db_user))
              then user_create (tg_id (from_user m)) (profile (from_user m) "user")
              else user_update (tg_id (from_user m)) (profile (from_user m) "user"))
           (track_chat m) db).
Qed.

Lemma keeps_user_track_chat (m : Message) (a : option User) : keeps user (track_chat m a).
Proof.
  unfold track_chat. apply keeps_if; [|apply keeps_ret].
  apply keeps_bind; [apply keeps_user_chat_read|]. intros c.
  apply keeps_bind;
    [apply keeps_if; [apply keeps_user_chat_create|apply keeps_user_chat_update]|].
  intros c'. apply keeps_bind; [apply keeps_user_track_sender|]. intros s.
  apply keeps_bind; [apply keeps_user_track_bot|]. intros b. apply keeps_ret.
Qed.

Lemma user_read_eq (db : Middleware.Store) (id : Z) :
  id ≠ 0 → user_read id db = (Returns (user db !! id), db).
Proof. intros Hid. unfold user_read, nonzero. by rewrite bool_decide_eq_false_2. Qed.

Lemma upsert_sender_eq (m : Message) (db : Middleware.Store) :
  tg_id (from_user m) ≠ 0 →
  (user db !! tg_id (from_user m) = None → tg_first_name (from_user m) ≠ EmptyString) →
  let row := profile (from_user m) (role_after db (tg_id (from_user m))) in
  upsert_sender m db
  = (Returns (Some row),
     {| user := <[tg_id (from_user m) := row]> (user db); chat := chat db;
        chat_member := chat_member db |}).
Proof.
  intros Hid Hname. cbv zeta. unfold upsert_sender. unfold mbind at 1, io_bind.
  rewrite user_read_eq by done.
  unfold role_after. destruct (user db !! tg_id (from_user m)) as [old|] eqn:Hold.
  - rewrite bool_decide_eq_true_2 by eauto. cbn [negb].
    unfold user_update, nonzero. rewrite bool_decide_eq_false_2 by done. cbn [negb].
    unfold mbind, io_bind, get_store, put_store. cbn. rewrite user_read_eq by done. cbn.
    rewrite lookup_alter_eq, Hold. cbn. apply pair_equal_spec. split; [done|].
    apply mw_store_eq; [|done|done]. cbn. apply map_eq. intros i.
    rewrite lookup_alter, lookup_insert. case_decide; [subst; by rewrite Hold|done].
  - rewrite bool_decide_eq_false_2 by (by intros [? ?]). cbn [negb].
    unfold user_create, nonzero, nonempty. rewrite bool_decide_eq_false_2 by done.
    cbn [profile first_name]. rewrite bool_decide_eq_false_2 by auto. cbn [negb orb].
    unfold mbind, io_bind, get_store, put_store. cbn. rewrite Hold.
    rewrite bool_decide_eq_false_2 by (by intros [? ?]). cbn. rewrite user_read_eq by done.
    cbn. by rewrite lookup_insert_eq.
Qed.

(** X16.  The middleware refreshes the profile of the sender on every
    message and never resets the role: an existing user keeps the stored
    role, a new one gets 'user'; no other user row changes, whatever the
    chat part of [pre_process] does afterwards. *)
Theorem pre_process_keeps_role (m : Message) (db : Middleware.Store) :
  tg_id (from_user m) ≠ 0 →
  (user db !! tg_id (from_user m) = None → tg_first_name (from_user m) ≠ EmptyString) →
  let out := pre_process (IsMessage m) db in
  user out.2
  = <[tg_id (from_user m) := profile (from_user m) (role_after db (tg_id (from_user m)))]>
      (user db).
Proof.
  intros Hid Hname. cbv zeta. rewrite pre_process_split. unfold mbind, io_bind.
  rewrite (upsert_sender_eq m db Hid Hname). by rewrite keeps_user_track_chat.
Qed.

(** ** The chat half, when both memberships can be read *)

Lemma io_bind_eq {A B} (m : io A) (f : A → io B) (db db1 : Middleware.Store) (a : A) :
  m db = (Returns a, db1) → (m ≫= f) db = f a db1.
Proof. intros H. unfold mbind, io_bind. by rewrite H. Qed.

Lemma chat_read_eq (db : Middleware.Store) (id : Z) :
  id ≠ 0 → chat_read id db = (Returns (chat db !! id), db).
Proof. intros Hid. unfold chat_read, nonzero. by rewrite bool_decide_eq_false_2. Qed.

Lemma chat_upsert_eq (db : Middleware.Store) (id : Z) (v : Chat) :
  id ≠ 0 → type v ≠ EmptyString →
  (db_chat ← chat_read id;
   if negb (bool_decide (is_Some db_chat)) then chat_create id v else chat_update id v) db
  = (Returns (Some v),
     {| user := user db; chat := <[id := v]> (chat db); chat_member := chat_member db |}).
Proof.
  intros Hid Hty. rewrite (io_bind_eq _ _ _ _ _ (chat_read_eq db id Hid)).
  destruct (chat db !! id) as [old|] eqn:Hold.
  - rewrite bool_decide_eq_true_2 by eauto. cbn [negb].
    unfold chat_update, nonzero. rewrite bool_decide_eq_false_2 by done. cbn [negb].
    unfold mbind, io_bind, get_store, put_store. cbn. rewrite chat_read_eq by done. cbn.
    rewrite lookup_alter_eq, Hold. cbn. apply pair_equal_spec. split; [done|].
    apply mw_store_eq; [done| |done]. cbn. apply map_eq. intros i.
    rewrite lookup_alter, lookup_insert. case_decide; [subst; by rewrite Hold|done].
  - rewrite bool_decide_eq_false_2 by (by intros [? ?]). cbn [negb].
    unfold chat_create, nonzero, nonempty. rewrite !bool_decide_eq_false_2 by done.
    cbn [negb orb].
    unfold mbind, io_bind, get_store, put_store. cbn. rewrite Hold.
    rewrite bool_decide_eq_false_2 by (by intros [? ?]). cbn. rewrite chat_read_eq by done.
    cbn. by rewrite lookup_insert_eq.
Qed.

Lemma track_sender_eq (db : Middleware.Store) (chat_id user_id : Z) (status : string) :
  chat_id ≠ 0 → user_id ≠ 0 → status ≠ EmptyString →
  is_Some (chat db !! chat_id) → is_Some (user db !! user_id) →
  track_sender chat_id user_id (Some status) db
  = (Returns (Some status),
     {| user := user db; chat := chat db;
        chat_member := <[(chat_id, user_id) := status]> (chat_member db) |}).
Proof.
  intros Hc Hu Hs Hchat Huser.
  destruct (chat_member db !! (chat_id, user_id)) as [old|] eqn:Hrow.
  - by apply (Tracker.track_sender_updates db chat_id user_id Hc Hu old).
  - by apply Tracker.track_sender_creates.
Qed.

Lemma track_bot_eq (db : Middleware.Store) (chat_id user_id : Z) (status : string) :
  chat_id ≠ 0 → user_id ≠ 0 → status ≠ EmptyString →
  is_Some (chat db !! chat_id) → is_Some (user db !! user_id) →
  track_bot chat_id user_id (Some status) db
  = (Returns (Some status),
     {| user := user db; chat := chat db;
        chat_member := <[(chat_id, user_id) := status]> (chat_member db) |}).
Proof.
  intros Hc Hu Hs [c Hchat] [u Huser]. unfold track_bot.
  rewrite (io_bind_eq _ _ _ _ _ (Tracker.chat_member_read_row chat_id user_id Hc Hu db)).
  destruct (chat_member db !! (chat_id, user_id)) as [old|] eqn:Hrow.
  - rewrite bool_decide_eq_true_2 by eauto. cbn [negb andb bool_decide].
    rewrite (bool_decide_eq_true_2 (is_Some (Some status))) by eauto. cbn [negb andb].
    unfold chat_member_update, nonzero. rewrite !bool_decide_eq_false_2 by done. cbn.
    unfold mbind, io_bind, get_store, put_store. cbn.
    rewrite Tracker.chat_member_read_row by done. cbn. rewrite lookup_alter_eq, Hrow. cbn.
    apply pair_equal_spec. split; [done|]. apply mw_store_eq; [done|done|]. cbn.
    apply map_eq. intros i. rewrite lookup_alter, lookup_insert.
    case_decide; [subst; by rewrite Hrow|done].
  - rewrite bool_decide_eq_false_2 by (by intros [? ?]).
    rewrite (bool_decide_eq_true_2 (is_Some (Some status))) by eauto. cbn [negb andb].
    unfold chat_member_create, nonzero, nonempty.
    rewrite !bool_decide_eq_false_2 by done. cbn.
    unfold mbind, io_bind, get_store, put_store. cbn. rewrite Hrow, Hchat, Huser. cbn.
    rewrite Tracker.chat_member_read_row by done. cbn. by rewrite lookup_insert_eq.
Qed.

Lemma track_chat_eq (m : Message) (a : option User) (db : Middleware.Store)
    (s1 s2 : string) :
  tg_chat_type (msg_chat m) ≠ "private" →
  tg_chat_type (msg_chat m) ≠ EmptyString →
  tg_chat_id (msg_chat m) ≠ 0 →
  tg_id (from_user m) ≠ 0 → bot_id m ≠ 0 →
  get_member m (tg_id (from_user m)) = Some s1 → s1 ≠ EmptyString →
  get_member m (bot_id m) = Some s2 → s2 ≠ EmptyString →
  is_Some (user db !! tg_id (from_user m)) → is_Some (user db !! bot_id m) →
  track_chat m a db
  = (Returns (Some {| data_user := a; data_chat := Some (chat_values (msg_chat m));
                      data_chat_member := Some s1 |}),
     {| user := user db;
        chat := <[tg_chat_id (msg_chat m) := chat_values (msg_chat m)]> (chat db);
        chat_member := <[(tg_chat_id (msg_chat m), bot_id m) := s2]>
                         (<[(tg_chat_id (msg_chat m), tg_id (from_user m)) := s1]>
                            (chat_member db)) |}).
Proof.
  intros Hpriv Hty Hcid Huid Hbid Hm1 Hs1 Hm2 Hs2 Hu Hb.
  unfold track_chat. rewrite bool_decide_eq_true_2 by done.
  rewrite io_bind_assoc.
  rewrite (io_bind_eq _ _ _ _ _ (chat_upsert_eq db _ (chat_values (msg_chat m)) Hcid Hty)).
  rewrite Hm1, Hm2.
  erewrite io_bind_eq; [|apply track_sender_eq; try done; cbn; by rewrite lookup_insert_eq].
  erewrite io_bind_eq; [|apply track_bot_eq; try done; cbn; by rewrite lookup_insert_eq].
  done.
Qed.

Lemma pre_process_tracks_eq (m : Message) (db : Middleware.Store) (s1 s2 : string) :
  tg_chat_type (msg_chat m) ≠ "private" →
  tg_chat_type (msg_chat m) ≠ EmptyString →
  tg_chat_id (msg_chat m) ≠ 0 →
  tg_id (from_user m) ≠ 0 → bot_id m ≠ 0 →
  (user db !! tg_id (from_user m) = None → tg_first_name (from_user m) ≠ EmptyString) →
  get_member m (tg_id (from_user m)) = Some s1 → s1 ≠ EmptyString →
  get_member m (bot_id m) = Some s2 → s2 ≠ EmptyString →
  is_Some (user db !! bot_id m) ∨ bot_id m = tg_id (from_user m) →
  let row := profile (from_user m) (role_after db (tg_id (from_user m))) in
  pre_process (IsMessage m) db
  = (Returns (Some {| data_user := Some row;
                      data_chat := Some (chat_values (msg_chat m));
                      data_chat_member := Some s1 |}),
     {| user := <[tg_id (from_user m) := row]> (user db);
        chat := <[tg_chat_id (msg_chat m) := chat_values (msg_chat m)]> (chat db);
        chat_member := <[(tg_chat_id (msg_chat m), bot_id m) := s2]>
                         (<[(tg_chat_id (msg_chat m), tg_id (from_user m)) := s1]>
                            (chat_member db)) |}).
Proof.
  intros Hpriv Hty Hcid Huid Hbid Hname Hm1 Hs1 Hm2 Hs2 Hbot. cbv zeta.
  rewrite pre_process_split.
  rewrite (io_bind_eq _ _ _ _ _ (upsert_sender_eq m db Huid Hname)).
  rewrite (track_chat_eq m _ _ s1 s2); try done; cbn.
  - by rewrite lookup_insert_eq.
  - destruct Hbot as [Hb| ->]; [|by rewrite lookup_insert_eq].
    rewrite lookup_insert. case_decide; eauto.
Qed.

(** X17.  For a message in a group where both membership lookups
    answer, [pre_process] stores the chat, the membership of the sender
    and the membership of the bot with the remote statuses, hands the
    chat and the sender's status to the handler, and leaves all other
    chats and memberships as they were. *)
Theorem pre_process_tracks (m : Message) (db : Middleware.Store) (s1 s2 : string) :
  tg_chat_type (msg_chat m) ≠ "private" →
  tg_chat_type (msg_chat m) ≠ EmptyString →
  tg_chat_id (msg_chat m) ≠ 0 →
  tg_id (from_user m) ≠ 0 → bot_id m ≠ 0 →
  (user db !! tg_id (from_user m) = None → tg_first_name (from_user m) ≠ EmptyString) →
  get_member m (tg_id (from_user m)) = Some s1 → s1 ≠ EmptyString →
  get_member m (bot_id m) = Some s2 → s2 ≠ EmptyString →
  is_Some (user db !! bot_id m) ∨ bot_id m = tg_id (from_user m) →
  let out := pre_process (IsMessage m) db in
  let cid := tg_chat_id (msg_chat m) in
  (∃ d, out.1 = Returns (Some d) ∧ data_chat_member d = Some s1
        ∧ data_chat d = Some (chat_values (msg_chat m)))
  ∧ chat_member out.2 !! (cid, tg_id (from_user m)) = Some s1
  ∧ chat_member out.2 !! (cid, bot_id m) = Some s2
  ∧ (∀ pk, pk ≠ (cid, tg_id (from_user m)) → pk ≠ (cid, bot_id m) →
       chat_member out.2 !! pk = chat_member db !! pk)
  ∧ chat out.2 !! cid = Some (chat_values (msg_chat m))
  ∧ (∀ id, id ≠ cid → chat out.2 !! id = chat db !! id).
Proof.
  intros Hpriv Hty Hcid Huid Hbid Hname Hm1 Hs1 Hm2 Hs2 Hbot. cbv zeta.
  rewrite (pre_process_tracks_eq m db s1 s2) by done. cbn.
  split; [eauto|]. split.
  { rewrite lookup_insert. case_decide as Heq; [|by rewrite lookup_insert_eq].
    injection Heq as Heq. rewrite Heq in Hm2. congruence. }
  split; [by rewrite lookup_insert_eq|]. split.
  { intros pk H1 H2. by rewrite !lookup_insert_ne. }
  split; [by rewrite lookup_insert_eq|]. intros id Hne. by rewrite lookup_insert_ne.
Qed.

(** X18.  For a message in a private chat [pre_process] returns
    without raising, hands neither chat nor membership to the handler,
    and writes neither the table [chat] nor [chat_member]. *)
Theorem pre_process_private (m : Message) (db : Middleware.Store) :
  tg_chat_type (msg_chat m) = "private" →
  let out := pre_process (IsMessage m) db in
  (∃ d, out.1 = Returns (Some d) ∧ data_chat d = None ∧ data_chat_member d = None)
  ∧ chat out.2 = chat db
  ∧ chat_member out.2 = chat_member db.
Proof.
  intros Hpriv. cbv zeta. rewrite pre_process_split.
  assert (Hup : ∃ a db1, upsert_sender m db = (Returns a, db1)
                         ∧ chat db1 = chat db ∧ chat_member db1 = chat_member db).
  { unfold upsert_sender.
    repeat first [progress (unfold_io; cbn) | case_match; simplify_eq]; eauto. }
  destruct Hup as (a & db1 & Hup & Hc & Hm).
  rewrite (io_bind_eq _ _ _ _ _ Hup). unfold track_chat.
  rewrite bool_decide_eq_false_2 by (by intros H; apply H).
  cbn. split; [|done]. eexists. by repeat split.
Qed.

(** ** Instances *)

Import Samples.

Lemma pre_process_keeps_role_witness :
  (tg_id (from_user open_message) ≠ 0
   ∧ (user admin_db !! tg_id (from_user open_message) = None →
      tg_first_name (from_user open_message) ≠ EmptyString))
  ∧ let out := pre_process (IsMessage open_message) admin_db in
    user out.2
    = <[tg_id (from_user open_message) :=
          profile (from_user open_message)
            (role_after admin_db (tg_id (from_user open_message)))]> (user admin_db).
Proof.
  assert (H1 : tg_id (from_user open_message) ≠ 0) by discriminate.
  assert (H2 : user admin_db !! tg_id (from_user open_message) = None →
               tg_first_name (from_user open_message) ≠ EmptyString) by discriminate.
  split; [by split|].
  exact (pre_process_keeps_role open_message admin_db H1 H2).
Defined.

Lemma pre_process_tracks_witness :
  (tg_chat_type (msg_chat open_message) ≠ "private"
   ∧ tg_chat_type (msg_chat open_message) ≠ EmptyString
   ∧ tg_chat_id (msg_chat open_message) ≠ 0
   ∧ tg_id (from_user open_message) ≠ 0
   ∧ bot_id open_message ≠ 0
   ∧ (user admin_db !! tg_id (from_user open_message) = None →
      tg_first_name (from_user open_message) ≠ EmptyString)
   ∧ get_member open_message (tg_id (from_user open_message)) = Some "member"
   ∧ "member" ≠ EmptyString
   ∧ get_member open_message (bot_id open_message) = Some "administrator"
   ∧ "administrator" ≠ EmptyString
   ∧ (is_Some (user admin_db !! bot_id open_message)
      ∨ bot_id open_message = tg_id (from_user open_message)))
  ∧ let out := pre_process (IsMessage open_message) admin_db in
    let cid := tg_chat_id (msg_chat open_message) in
    (∃ d, out.1 = Returns (Some d) ∧ data_chat_member d = Some "member"
          ∧ data_chat d = Some (chat_values (msg_chat open_message)))
    ∧ chat_member out.2 !! (cid, tg_id (from_user open_message)) = Some "member"
    ∧ chat_member out.2 !! (cid, bot_id open_message) = Some "administrator"
    ∧ (∀ pk, pk ≠ (cid, tg_id (from_user open_message)) → pk ≠ (cid, bot_id open_message) →
         chat_member out.2 !! pk = chat_member admin_db !! pk)
    ∧ chat out.2 !! cid = Some (chat_values (msg_chat open_message))
    ∧ (∀ id, id ≠ cid → chat out.2 !! id = chat admin_db !! id).
Proof.
  assert (H1 : tg_chat_type (msg_chat open_message) ≠ "private") by discriminate.
  assert (H2 : tg_chat_type (msg_chat open_message) ≠ EmptyString) by discriminate.
  assert (H3 : tg_chat_id (msg_chat open_message) ≠ 0) by discriminate.
  assert (H4 : tg_id (from_user open_message) ≠ 0) by discriminate.
  assert (H5 : bot_id open_message ≠ 0) by discriminate.
  assert (H6 : user admin_db !! tg_id (from_user open_message) = None →
               tg_first_name (from_user open_message) ≠ EmptyString) by discriminate.
  assert (H7 : get_member open_message (tg_id (from_user open_message)) = Some "member")
    by reflexivity.
  assert (H8 : "member" ≠ EmptyString) by discriminate.
  assert (H9 : get_member open_message (bot_id open_message) = Some "administrator")
    by reflexivity.
  assert (H10 : "administrator" ≠ EmptyString) by discriminate.
  assert (H11 : is_Some (user admin_db !! bot_id open_message)
                ∨ bot_id open_message = tg_id (from_user open_message)).
  { left. exists the_bot. vm_compute. reflexivity. }
  split; [by repeat split|].
  exact (pre_process_tracks open_message admin_db "member" "administrator"
           H1 H2 H3 H4 H5 H6 H7 H8 H9 H10 H11).
Defined.

Lemma pre_process_private_witness :
  tg_chat_type (msg_chat private_message) = "private"
  ∧ let out := pre_process (IsMessage private_message) admin_db in
    (∃ d, out.1 = Returns (Some d) ∧ data_chat d = None ∧ data_chat_member d = None)
    ∧ chat out.2 = chat admin_db
    ∧ chat_member out.2 = chat_member admin_db.
Proof.
  assert (H1 : tg_chat_type (msg_chat private_message) = "private") by reflexivity.
  split; [done|].
  exact (pre_process_private private_message admin_db H1).
Defined.

End TrackerMore.

(* ===================================================================== *)
(** * Further properties: the conversation handlers *)
(* ===================================================================== *)

Module WorkflowFacts.
Import ManageServer Workflow.

Section Handlers.

Context {IPAddress : Type}.
Variable ip_address : string → option IPAddress.
Variable ip_str : IPAddress → string.
Variable ip_int : IPAddress → Z.
Variable to_int : string → option Z.
Variable strip : string → string.
Variable edit_server_keyboard : Z → bool → outcome unit.
Variable key_action_keyboard : IPAddress → Z → outcome unit.

(** X19.  [/newserver] forgets whatever an earlier conversation left:
    after [new_server], a name and a valid address the pending data are
    exactly that name (stripped) and that address, and the next state is
    [enter_url]. *)
Theorem new_server_workflow_starts_clean (ctx : FSMContext) (name_text ip_text : string)
    (address : IPAddress) :
  ip_address ip_text = Some address →
  let named := context (enter_server_name strip name_text (context (new_server ctx))) in
  let addressed := enter_server_ip ip_address ip_str ip_text named in
  ended addressed = Returns ()
  ∧ current_state (context addressed) = Some enter_url
  ∧ data (context addressed)
    = {[ "server_ip" := ip_str address; "server_name" := strip name_text ]}.
Proof.
  intros Hip. cbv zeta. unfold enter_server_ip. rewrite Hip. cbn.
  rewrite lookup_insert_eq. cbn. rewrite insert_empty. done.
Qed.

Lemma server_create_named (db : Models.Store) (ip : Z) (text name : string) :
  server_create db (Some ip) (Some text) (Some name) None
  = if bool_decide (text = EmptyString) then (Returns None, db)
    else if bool_decide (is_Some (outline_server db !! ip)) then (Raises IntegrityError, db)
    else if bool_decide (sqlite_integer ip)
    then (Returns (loaded ip {| url := text; server_name := name; is_active := true |}),
          with_outline_server db
            (<[ip := {| url := text; server_name := name; is_active := true |}]>
               (outline_server db)))
    else (Raises OverflowError, db).
Proof.
  unfold server_create, truthy_str.
  rewrite (bool_decide_eq_true_2 (is_Some (Some ip))) by eauto. cbn [negb orb].
  destruct (bool_decide (text = EmptyString)); cbn [negb]; [done|].
  destruct (bool_decide (is_Some (outline_server db !! ip))); [done|].
  destruct (bool_decide (sqlite_integer ip)); cbn [negb]; [|done].
  unfold server_read. cbn [outline_server with_outline_server default].
  by rewrite lookup_insert_eq.
Qed.

(** X20.  With name and address pending, a non-empty url and a free
    address within the INTEGER range, [enter_server_url] stores the new
    server (active, no keys touched).  At 0.0.0.0 the stored row is read
    back as [None]: the answer is 'Something went wrong' and the
    conversation is finished.  At any other address the conversation
    ends with 'New server was added' if the keyboard gets built; if
    building it raises, the exception leaves the handler after the row
    was stored and the conversation is not finished. *)
Theorem enter_server_url_creates (text name ip_text : string) (address : IPAddress)
    (ctx : FSMContext) (db : Models.Store) :
  data ctx !! "server_name" = Some name →
  data ctx !! "server_ip" = Some ip_text →
  ip_address ip_text = Some address →
  text ≠ EmptyString →
  sqlite_integer (ip_int address) →
  outline_server db !! ip_int address = None →
  let row := {| url := text; server_name := name; is_active := true |} in
  let s := enter_server_url ip_address ip_int edit_server_keyboard text ctx db in
  outline_server (step_store s) = <[ip_int address := row]> (outline_server db)
  ∧ server_key (step_store s) = server_key db
  ∧ if bool_decide (ip_int address = 0)
    then step_ended s = Returns ()
         ∧ step_context s = {| current_state := None; data := ∅ |}
         ∧ step_replies s = [SomethingWentWrong]
    else match edit_server_keyboard (ip_int address) true with
         | Returns _ =>
             step_ended s = Returns ()
             ∧ step_context s = {| current_state := None; data := ∅ |}
             ∧ step_replies s = [NewServerAdded row]
         | Raises e =>
             step_ended s = Raises e ∧ step_context s = ctx ∧ step_replies s = []
         end.
Proof.
  intros Hname Hip Hparse Htext Hrange Hfree. cbv zeta. unfold enter_server_url.
  rewrite Hname, Hip, Hparse, server_create_named.
  rewrite (bool_decide_eq_false_2 (text = EmptyString)) by done.
  rewrite Hfree, (bool_decide_eq_false_2 (is_Some None)) by (by intros [? ?]).
  rewrite (bool_decide_eq_true_2 (sqlite_integer _)) by done.
  unfold loaded. destruct (bool_decide (ip_int address = 0)); [done|].
  cbn [is_active]. by destruct (edit_server_keyboard (ip_int address) true).
Qed.

(** X21.  [enter_server_url] answers 'Wrong server manage url' exactly
    when a name is pending and the pending address does not parse; the
    conversation then stays in [enter_url] and storage is unchanged.
    After 'Something went wrong' the conversation is finished, and
    storage is unchanged unless the pending address is 0.0.0.0, whose
    row was stored before it was read back as [None].  An address that
    already has a server, an address outside the INTEGER range and an
    empty url are all answered with 'Something went wrong' and store
    nothing. *)
Theorem enter_server_url_refused (text : string) (ctx : FSMContext) (db : Models.Store) :
  let s := enter_server_url ip_address ip_int edit_server_keyboard text ctx db in
  (step_replies s = [WrongServerUrl]
     ↔ is_Some (data ctx !! "server_name")
       ∧ ∃ ip_text, data ctx !! "server_ip" = Some ip_text ∧ ip_address ip_text = None)
  ∧ (step_replies s = [WrongServerUrl] →
       step_ended s = Returns () ∧ step_context s = set_state enter_url ctx
       ∧ step_store s = db)
  ∧ (step_replies s = [SomethingWentWrong] →
       step_ended s = Returns () ∧ step_context s = {| current_state := None; data := ∅ |})
  ∧ (step_replies s = [SomethingWentWrong] → step_store s ≠ db →
       ∃ name ip_text address,
         data ctx !! "server_name" = Some name
         ∧ data ctx !! "server_ip" = Some ip_text
         ∧ ip_address ip_text = Some address
         ∧ ip_int address = 0
         ∧ outline_server (step_store s)
           = <[0 := {| url := text; server_name := name; is_active := true |}]>
               (outline_server db))
  ∧ (∀ name ip_text address,
       data ctx !! "server_name" = Some name →
       data ctx !! "server_ip" = Some ip_text →
       ip_address ip_text = Some address →
       is_Some (outline_server db !! ip_int address)
       ∨ ¬ sqlite_integer (ip_int address)
       ∨ text = EmptyString →
       step_store s = db ∧ step_replies s = [SomethingWentWrong]).
Proof.
  cbv zeta. unfold enter_server_url.
  destruct (data ctx !! "server_name") as [name|] eqn:Hname.
  2:{ cbn. split; [split; [done|by intros [[? ?] _]]|].
      split; [done|]. split; [done|]. split; [done|]. by intros. }
  destruct (data ctx !! "server_ip") as [ip_text|] eqn:Hip.
  2:{ cbn. split; [split; [done|by intros [_ (? & ? & _)]]|].
      split; [done|]. split; [done|]. split; [done|]. by intros. }
  destruct (ip_address ip_text) as [address|] eqn:Hparse.
  2:{ cbn. split; [split; eauto|]. split; [done|]. split; [done|]. split; [done|].
      intros ? ? ? _ [= <-]. congruence. }
  assert (Hnot : ¬ (is_Some (Some name)
                    ∧ ∃ t, Some ip_text = Some t ∧ ip_address t = None)).
  { intros [_ (t & [= <-] & Ht)]. congruence. }
  rewrite server_create_named.
  destruct (bool_decide (text = EmptyString)) eqn:Htext.
  { cbn. split; [split; [done|by intros ?%Hnot]|].
    split; [done|]. split; [done|]. split; [done|]. by intros. }
  apply bool_decide_eq_false in Htext.
  destruct (bool_decide (is_Some (outline_server db !! ip_int address))) eqn:Hex.
  { cbn. split; [split; [done|by intros ?%Hnot]|].
    split; [done|]. split; [done|]. split; [done|]. by intros. }
  apply bool_decide_eq_false in Hex.
  destruct (bool_decide (sqlite_integer (ip_int address))) eqn:Hrange.
  2:{ cbn. split; [split; [done|by intros ?%Hnot]|].
      split; [done|]. split; [done|]. split; [done|]. by intros. }
  apply bool_decide_eq_true in Hrange.
  assert (Hlast : ∀ (P : Prop) (name0 ip_text0 : string) (address0 : IPAddress),
            Some name = Some name0 → Some ip_text = Some ip_text0 →
            ip_address ip_text0 = Some address0 →
            is_Some (outline_server db !! ip_int address0)
            ∨ ¬ sqlite_integer (ip_int address0) ∨ text = EmptyString → P).
  { intros P ? ? ? _ [= <-] Ha Hor. rewrite Hparse in Ha. injection Ha as <-.
    by destruct Hor as [?|[?|?]]. }
  unfold loaded. destruct (bool_decide (ip_int address = 0)) eqn:Hzero.
  - apply bool_decide_eq_true in Hzero. cbn.
    split; [split; [done|by intros ?%Hnot]|]. split; [done|]. split; [done|].
    split; [|intros n0 t0 a0 Hn Ht Ha Hor; exact (Hlast _ n0 t0 a0 Hn Ht Ha Hor)].
    intros _ _. exists name, ip_text, address. by rewrite Hzero.
  - cbn [is_active]. destruct (edit_server_keyboard (ip_int address) true); cbn.
    + split; [split; [done|by intros ?%Hnot]|]. split; [done|]. split; [done|].
      split; [done|]. intros n0 t0 a0 Hn Ht Ha Hor; exact (Hlast _ n0 t0 a0 Hn Ht Ha Hor).
    + split; [split; [done|by intros ?%Hnot]|]. split; [done|]. split; [done|].
      split; [done|]. intros n0 t0 a0 Hn Ht Ha Hor; exact (Hlast _ n0 t0 a0 Hn Ht Ha Hor).
Qed.

(** X22.  With a readable address and key id pending,
    [update_key_name] never raises and always finishes the conversation.
    It writes at most the name of the addressed key row, and only after
    the remote rename was answered with 204; servers and other key rows
    stay as they were. *)
Theorem update_key_name_after_remote (http : transport) (text ip_text id_text : string)
    (address : IPAddress) (key_id : Z) (ctx : FSMContext) (db : Models.Store) :
  data ctx !! "server_ip" = Some ip_text →
  ip_address ip_text = Some address →
  data ctx !! "key_id" = Some id_text →
  to_int id_text = Some key_id →
  let s := update_key_name ip_address ip_int to_int strip key_action_keyboard
             http text ctx db in
  let ip := ip_int address in
  step_ended s = Returns ()
  ∧ step_context s = {| current_state := None; data := ∅ |}
  ∧ outline_server (step_store s) = outline_server db
  ∧ (∀ pk, pk ≠ (ip, key_id) → server_key (step_store s) !! pk = server_key db !! pk)
  ∧ (server_key (step_store s) !! (ip, key_id) = server_key db !! (ip, key_id)
     ∨ ∃ server payload,
         server_read db (Some ip) = Some server
         ∧ http (rename_key_request (new_OutlineVPN (url server) http) key_id (strip text))
           = Response 204 payload
         ∧ server_key (step_store s) !! (ip, key_id)
           = rename_row (strip text) <$> server_key db !! (ip, key_id)).
Proof.
  intros Hip Hparse Hid Hint. cbv zeta. unfold update_key_name.
  rewrite Hip, Hparse, Hid, Hint.
  destruct (server_read db (Some (ip_int address))) as [server|] eqn:Hsrv.
  2:{ cbn. repeat split; try done. by left. }
  unfold rename_key, expect_204. cbn [session new_OutlineVPN].
  destruct (http _) as [|status payload] eqn:Hrq.
  { cbn. repeat split; try done. by left. }
  case_bool_decide as Hst.
  2:{ cbn. repeat split; try done. by left. }
  subst status. unfold server_key_update.
  cbn [server_key_read with_server_key server_key].
  assert (Hrow : alter (rename_row (strip text)) (ip_int address, key_id) (server_key db)
                   !! (ip_int address, key_id)
                 = rename_row (strip text) <$> server_key db !! (ip_int address, key_id))
    by apply lookup_alter_eq.
  rewrite Hrow.
  destruct (key_action_keyboard address key_id);
    destruct (server_key db !! (ip_int address, key_id)) as [row|] eqn:Hold; cbn.
  all: split; [done|]; split; [done|]; split; [done|].
  all: split; [intros pk Hne; by apply lookup_alter_ne|].
  all: first [ right; exists server, payload; rewrite Hrow; done | left; by rewrite Hrow ].
Qed.

End Handlers.

(** ** Instances *)

Import Examples Samples.

Lemma new_server_workflow_starts_clean_witness :
  ipv4_address "203.0.113.9" = Some [203; 0; 113; 9]
  ∧ let named := context (enter_server_name no_strip "MyServer"
                            (context (new_server renaming))) in
    let addressed := enter_server_ip ipv4_address ipv4_str "203.0.113.9" named in
    ended addressed = Returns ()
    ∧ current_state (context addressed) = Some enter_url
    ∧ data (context addressed)
      = {[ "server_ip" := ipv4_str [203; 0; 113; 9]; "server_name" := no_strip "MyServer" ]}.
Proof.
  assert (H1 : ipv4_address "203.0.113.9" = Some [203; 0; 113; 9])
    by (vm_compute; reflexivity).
  split; [done|].
  exact (new_server_workflow_starts_clean ipv4_address ipv4_str no_strip
           renaming "MyServer" "203.0.113.9" [203; 0; 113; 9] H1).
Defined.

Lemma enter_server_url_creates_witness :
  (data addressed !! "server_name" = Some "MyServer"
   ∧ data addressed !! "server_ip" = Some "203.0.113.9"
   ∧ ipv4_address "203.0.113.9" = Some [203; 0; 113; 9]
   ∧ "https://mgmt.example/abc" ≠ EmptyString
   ∧ sqlite_integer (ipv4_int [203; 0; 113; 9])
   ∧ outline_server empty_db !! ipv4_int [203; 0; 113; 9] = None)
  ∧ let row := {| url := "https://mgmt.example/abc"; server_name := "MyServer";
                  is_active := true |} in
    let s := enter_server_url ipv4_address ipv4_int built "https://mgmt.example/abc"
               addressed empty_db in
    outline_server (step_store s)
    = <[ipv4_int [203; 0; 113; 9] := row]> (outline_server empty_db)
    ∧ server_key (step_store s) = server_key empty_db
    ∧ if bool_decide (ipv4_int [203; 0; 113; 9] = 0)
      then step_ended s = Returns ()
           ∧ step_context s = {| current_state := None; data := ∅ |}
           ∧ step_replies s = [SomethingWentWrong]
      else match built (ipv4_int [203; 0; 113; 9]) true with
           | Returns _ =>
               step_ended s = Returns ()
               ∧ step_context s = {| current_state := None; data := ∅ |}
               ∧ step_replies s = [NewServerAdded row]
           | Raises e =>
               step_ended s = Raises e ∧ step_context s = addressed ∧ step_replies s = []
           end.
Proof.
  assert (H1 : data addressed !! "server_name" = Some "MyServer")
    by (vm_compute; reflexivity).
  assert (H2 : data addressed !! "server_ip" = Some "203.0.113.9")
    by (vm_compute; reflexivity).
  assert (H3 : ipv4_address "203.0.113.9" = Some [203; 0; 113; 9])
    by (vm_compute; reflexivity).
  assert (H4 : "https://mgmt.example/abc" ≠ EmptyString) by discriminate.
  assert (H5 : sqlite_integer (ipv4_int [203; 0; 113; 9]))
    by (apply (bool_decide_unpack _); vm_compute; exact I).
  assert (H6 : outline_server empty_db !! ipv4_int [203; 0; 113; 9] = None)
    by (vm_compute; reflexivity).
  split; [by repeat split|].
  exact (enter_server_url_creates ipv4_address ipv4_int built
           "https://mgmt.example/abc" "MyServer" "203.0.113.9" [203; 0; 113; 9]
           addressed empty_db H1 H2 H3 H4 H5 H6).
Defined.

Lemma update_key_name_after_remote_witness :
  (data renaming !! "server_ip" = Some "203.0.113.9"
   ∧ ipv4_address "203.0.113.9" = Some [203; 0; 113; 9]
   ∧ data renaming !! "key_id" = Some "1"
   ∧ decimal "1" = Some 1)
  ∧ let s := update_key_name ipv4_address ipv4_int decimal no_strip built
               http_accepts "alice" renaming db0 in
    let ip := ipv4_int [203; 0; 113; 9] in
    step_ended s = Returns ()
    ∧ step_context s = {| current_state := None; data := ∅ |}
    ∧ outline_server (step_store s) = outline_server db0
    ∧ (∀ pk, pk ≠ (ip, 1) → server_key (step_store s) !! pk = server_key db0 !! pk)
    ∧ (server_key (step_store s) !! (ip, 1) = server_key db0 !! (ip, 1)
       ∨ ∃ server payload,
           server_read db0 (Some ip) = Some server
           ∧ http_accepts (rename_key_request (new_OutlineVPN (url server) http_accepts) 1
                             (no_strip "alice"))
             = Response 204 payload
           ∧ server_key (step_store s) !! (ip, 1)
             = rename_row (no_strip "alice") <$> server_key db0 !! (ip, 1)).
Proof.
  assert (H1 : data renaming !! "server_ip" = Some "203.0.113.9")
    by (vm_compute; reflexivity).
  assert (H2 : ipv4_address "203.0.113.9" = Some [203; 0; 113; 9])
    by (vm_compute; reflexivity).
  assert (H3 : data renaming !! "key_id" = Some "1") by (vm_compute; reflexivity).
  assert (H4 : decimal "1" = Some 1) by (vm_compute; reflexivity).
  split; [by repeat split|].
  exact (update_key_name_after_remote ipv4_address ipv4_int decimal no_strip
           built http_accepts "alice" "203.0.113.9" "1" [203; 0; 113; 9] 1
           renaming db0 H1 H2 H3 H4).
Defined.

End WorkflowFacts.
